(** * SnapprOps payroll: the payroll generator of the storage layer

    A shallow embedding of the parts of the SnapprOps server that the
    payroll specification talks about:

    - [DatabaseStorage]: [getEmployees], [deleteEmployee],
      [getMonthlyAttendance], [getBenefits] and
      [generatePayrollForPeriod], and the lookups, listings and
      deletions around them
      (src/client/src/components/payroll/stats-cards.tsx, from
      [export class DatabaseStorage] on);
    - the handlers of [POST /api/payroll/generate] and
      [GET /api/payroll/export] (src/server/routes.ts);
    - the tables [employees], [attendance], [benefits], [payroll] and
      [pings] (the [pgTable] declarations in src/unnamed/part_003).

    JavaScript numbers are IEEE-754 binary64 values.  They are modelled
    by the executable specification of the Standard Library
    ([spec_float] at precision 53 and maximal exponent 1024), so that
    every [*], [+] and [-] of the generator is the rounding operation
    the program performs, and [toString] is the shortest text that reads
    back as the number.

    The database is PostgreSQL, modelled as far as the queries of the
    storage layer go: tables are lists of rows in table order, [WHERE]
    is [filter], [ORDER BY] a stable sort, [sum] exact decimal
    addition, [serial] a counter.  An [INSERT] into [payroll] reads
    every text into its column -- [varchar(7)] for the period,
    [decimal(5, 2)] and [decimal(10, 2)] for the amounts, rounded to two
    decimals -- and fails as a whole when a column refuses its text;
    the rows it returns hold the texts of the stored values.  How the
    database reads the text of a period as a date is a parameter
    ([cast_date]) of the storage layer; [date_in] gives PostgreSQL's
    reading of the texts the model is run on.  A text is a list of
    characters.  The tables that are read hold two-decimal values (not
    the NaN that PostgreSQL also admits in a decimal column), and
    failures of the connection are not modelled. *)

From Stdlib Require Import ZArith List String Ascii Bool Lia.
From Stdlib Require Import QArith Qround Qabs DecimalString.
From Stdlib Require Import Permutation Sorted OrderedTypeEx.
From Stdlib Require Import Floats.SpecFloat.
Import ListNotations.

Set Implicit Arguments.
Open Scope Z_scope.

(* ================================================================== *)
(** ** JavaScript numbers *)
(* ================================================================== *)

Module JsNumber.

Definition prec : Z := 53.
Definition emax : Z := 1024.

(** A JavaScript [number]. *)
Definition number : Type := spec_float.

Definition add : number -> number -> number := SFadd prec emax.
Definition sub : number -> number -> number := SFsub prec emax.
Definition mul : number -> number -> number := SFmul prec emax.

Definition pos_zero : number := S754_zero false.
Definition neg_zero : number := S754_zero true.

(** The number nearest to the fraction [n / d] (ties to even): the value
    of a decimal literal or of a numeric string read by [Number(...)].
    The division works on the unrounded integers, so the result is
    rounded once. *)
Definition of_fraction (n : Z) (d : positive) : number :=
  match n with
  | Z0 => pos_zero
  | Zpos p => SFdiv prec emax (S754_finite false p 0) (S754_finite false d 0)
  | Zneg p => SFdiv prec emax (S754_finite true p 0) (S754_finite false d 0)
  end.

(** An integer literal. *)
Definition of_Z (z : Z) : number := binary_normalize prec emax z 0 false.

(** The literals of [generatePayrollForPeriod]. *)
Definition lit_0 : number := pos_zero.
Definition lit_1_5 : number := of_fraction 15 10.
Definition lit_0_045 : number := of_fraction 45 1000.
Definition lit_0_02 : number := of_fraction 2 100.
Definition lit_100 : number := of_Z 100.

Definition is_nan (x : number) : bool :=
  match x with S754_nan => true | _ => false end.

Definition is_neg_zero (x : number) : bool :=
  match x with S754_zero true => true | _ => false end.

(** [Math.min] on two arguments: NaN if either is NaN, and -0 is below
    +0. *)
Definition min (x y : number) : number :=
  match SFcompare x y with
  | None => S754_nan
  | Some Lt => x
  | Some Gt => y
  | Some Eq => if is_neg_zero x then x else y
  end.

(** The rational a finite number stands for; 0 for the others. *)
Definition to_Q (x : number) : Q :=
  match x with
  | S754_finite s m e =>
      let v := (inject_Z (Zpos m) * Qpower (2 # 1) e)%Q in
      if s then Qopp v else v
  | _ => 0%Q
  end.

(** *** [Number.prototype.toString] (radix 10)

    ECMAScript picks integers [n], [k], [s] with [k] least such that
    [10^(k-1) <= s < 10^k] and [s * 10^(n-k)] reads back as the number,
    and among those the [s] for which [s * 10^(n-k)] is closest. *)

Definition pow10 (p : Z) : Q := Qpower (10 # 1) p.

(** The number a decimal [s * 10^p] reads back as. *)
Definition of_decimal (s : Z) (p : Z) : number :=
  match p with
  | Zneg q => of_fraction s (Pos.pow 10 q)
  | _ => of_Z (s * 10 ^ p)
  end.

Definition Qltb (a b : Q) : bool :=
  match Qcompare a b with Lt => true | _ => false end.

(** Least [n] in [lo, lo + fuel) with [v < 10^n]. *)
Fixpoint decimal_magnitude (fuel : nat) (lo : Z) (v : Q) : Z :=
  match fuel with
  | O => lo
  | S fuel' => if Qltb v (pow10 lo) then lo
               else decimal_magnitude fuel' (lo + 1) v
  end.

(** A candidate of [k] digits for a positive [x] whose magnitude is
    [n0]: the digit strings just below and just above [x]. *)
Definition candidates (x : number) (n0 k : Z) : list (Z * Z) :=
  let p := n0 - k in
  let lo := Qfloor (to_Q x * pow10 (- p))%Q in
  let hi := lo + 1 in
  let below := if 10 ^ (k - 1) <=? lo then [(lo, n0)] else [] in
  let above := if hi =? 10 ^ k then [(10 ^ (k - 1), n0 + 1)]
               else [(hi, n0)] in
  filter (fun c => match SFcompare (of_decimal (fst c) (snd c - k)) x with
                   | Some Eq => true
                   | _ => false
                   end)
         (below ++ above).

(** Of the candidates that read back, the closest (the even one on a
    tie). *)
Definition closest (x : number) (k : Z) (cs : list (Z * Z))
  : option (Z * Z) :=
  match cs with
  | [] => None
  | [c] => Some c
  | c1 :: c2 :: _ =>
      let d1 := Qabs (inject_Z (fst c1) * pow10 (snd c1 - k) - to_Q x)%Q in
      let d2 := Qabs (inject_Z (fst c2) * pow10 (snd c2 - k) - to_Q x)%Q in
      match Qcompare d1 d2 with
      | Lt => Some c1
      | Gt => Some c2
      | Eq => if Z.even (fst c1) then Some c1 else Some c2
      end
  end.

(** Shortest digits of a positive finite [x]: [(s, n, k)]. *)
Fixpoint shortest_from (fuel : nat) (x : number) (n0 k : Z)
  : Z * Z * Z :=
  match closest x k (candidates x n0 k) with
  | Some (s, n) => (s, n, k)
  | None =>
      match fuel with
      | O => (0, n0, k)
      | S fuel' => shortest_from fuel' x n0 (k + 1)
      end
  end.

(** Where the scan for the magnitude starts: [x >= 2^(b-1)] for
    [b] the position of the leading bit, and [log10 2 < 0.30103], so
    the magnitude is at least [(b-1) * 0.30103], rounded down, and at
    most two more. *)
Definition magnitude_floor (x : number) : Z :=
  match x with
  | S754_finite _ m e => ((Zpos (digits2_pos m) + e - 1) * 30103) / 100000
  | _ => 0
  end.

Definition shortest_digits (x : number) : Z * Z * Z :=
  shortest_from 17 x (decimal_magnitude 4 (magnitude_floor x) (to_Q x)) 1.

Local Open Scope string_scope.

Definition digits (z : Z) : string :=
  NilZero.string_of_uint (N.to_uint (Z.to_N z)).

Fixpoint zeros (n : nat) : string :=
  match n with
  | O => EmptyString
  | S n' => String "0" (zeros n')
  end.

Definition take (n : Z) (s : string) : string :=
  substring 0 (Z.to_nat n) s.

Definition drop (n : Z) (s : string) : string :=
  substring (Z.to_nat n) (String.length s - Z.to_nat n) s.

(** The text of a positive finite number, from its shortest digits. *)
Definition format_digits (s n k : Z) : string :=
  let ds := digits s in
  if ((k <=? n) && (n <=? 21))%Z then
    ds ++ zeros (Z.to_nat (n - k))
  else if ((0 <? n) && (n <=? 21))%Z then
    take n ds ++ "." ++ drop n ds
  else if ((-6 <? n) && (n <=? 0))%Z then
    "0." ++ zeros (Z.to_nat (- n)) ++ ds
  else
    let e := (n - 1)%Z in
    let sign := if (e <? 0)%Z then "-" else "+" in
    let mant := if (k =? 1)%Z then ds
                else take 1 ds ++ "." ++ drop 1 ds in
    mant ++ "e" ++ sign ++ digits (Z.abs e).

Definition toString (x : number) : string :=
  match x with
  | S754_nan => "NaN"
  | S754_zero _ => "0"
  | S754_infinity s => if s then "-Infinity" else "Infinity"
  | S754_finite s m e =>
      let '(d, n, k) := shortest_digits (S754_finite false m e) in
      (if s then "-" else "") ++ format_digits d n k
  end.

Local Close Scope string_scope.

End JsNumber.

Import JsNumber.

(* ================================================================== *)
(** ** Tables (the [pgTable] declarations) *)
(* ================================================================== *)

(** A [decimal(p, 2)] column value, counted in hundredths: 500.00 is
    [50000].  The driver hands it to the program as its decimal text. *)
Definition decimal2 : Type := Z.

(** [Number(text)] for the text of a [decimal(p, 2)] value. *)
Definition Number (d : decimal2) : number := of_fraction d 100.

(** A [timestamp] column value. *)
Definition timestamp : Type := Z.

(** A [date] column value. *)
Record Date : Type := mkDate { year : Z; month : Z; day : Z }.

Definition Date_eqb (a b : Date) : bool :=
  (year a =? year b) && (month a =? month b) && (day a =? day b).

(** [date_trunc('month', d)]: the first day of [d]'s month. *)
Definition date_trunc_month (d : Date) : Date :=
  mkDate (year d) (month d) 1.

Module Employee.
Record t : Type := mk {
  id : Z;
  name : string;
  email : string;
  position : string;
  salaryRate : decimal2;
  salaryType : string;
  department : option string;
  hireDate : Date;
  isActive : bool;
  createdAt : option timestamp;
  updatedAt : option timestamp
}.
End Employee.

Module Attendance.
Record t : Type := mk {
  id : Z;
  employeeId : Z;
  date : Date;
  hoursWorked : decimal2;
  overtime : decimal2;
  createdAt : option timestamp;
  updatedAt : option timestamp
}.
End Attendance.

Module Benefit.
Record t : Type := mk {
  id : Z;
  employeeId : Z;
  type : string;
  amount : decimal2;
  isTaxable : bool;
  appliesTo : string;
  description : option string;
  createdAt : option timestamp;
  updatedAt : option timestamp
}.
End Benefit.

(** The values of a payroll row as texts: what is handed to
    [db.insert(payroll)], where every amount is the text [toString]
    produced, and what a query returns, where every amount is the text
    of the stored decimal. *)
Module InsertPayroll.
Record t : Type := mk {
  employeeId : Z;
  payPeriod : string;
  hoursWorked : string;
  overtimeHours : string;
  basePay : string;
  overtimePay : string;
  allowances : string;
  bonuses : string;
  grossPay : string;
  sssDeduction : string;
  philHealthDeduction : string;
  pagIbigDeduction : string;
  taxDeduction : string;
  otherDeductions : string;
  totalDeductions : string;
  netPay : string
}.
End InsertPayroll.

(** A row of [payroll] as a query returns it: the stored values, the
    serial [id] and the three [defaultNow()] columns. *)
Module Payroll.
Record t : Type := mk {
  id : Z;
  values : InsertPayroll.t;
  generatedAt : option timestamp;
  createdAt : option timestamp;
  updatedAt : option timestamp
}.
Definition employeeId (r : t) : Z := InsertPayroll.employeeId (values r).
Definition payPeriod (r : t) : string := InsertPayroll.payPeriod (values r).
End Payroll.

(** The database: the four tables and the [payroll_id_seq] sequence. *)
Record Db : Type := mkDb {
  employees : list Employee.t;
  attendance : list Attendance.t;
  benefits : list Benefit.t;
  payroll : list Payroll.t;
  payroll_id_seq : Z
}.

(* ================================================================== *)
(** ** Results of storage calls *)
(* ================================================================== *)

(** An [await]ed call either yields a value or throws. *)
Inductive Result (A : Type) : Type :=
| Ok (a : A)
| Throw (message : string).
Arguments Ok {A} a.
Arguments Throw {A} message.

Definition bind {A B : Type} (r : Result A) (k : A -> Result B) : Result B :=
  match r with
  | Ok a => k a
  | Throw m => Throw m
  end.

Notation "x <- c ;; k" := (bind c (fun x => k))
  (at level 61, c at next level, right associativity).

(* ================================================================== *)
(** ** Column types: what an INSERT makes of a text *)
(* ================================================================== *)

(** The value of a decimal digit. *)
Definition digit_of (c : ascii) : option Z :=
  let n := Z.of_nat (nat_of_ascii c) in
  if (48 <=? n) && (n <=? 57) then Some (n - 48) else None.

(** White space: the space and the characters 9 to 13. *)
Definition is_space (c : ascii) : bool :=
  let n := Z.of_nat (nat_of_ascii c) in
  (n =? 32) || ((9 <=? n) && (n <=? 13)).

Fixpoint skip_spaces (s : string) : string :=
  match s with
  | String c s' => if is_space c then skip_spaces s' else s
  | EmptyString => s
  end.

(** The digits at the head of a text, read onto [acc]: the value, how
    many digits were read, and the rest of the text. *)
Fixpoint read_digits (s : string) (acc : Z) (n : Z) : Z * Z * string :=
  match s with
  | String c s' =>
      match digit_of c with
      | Some v => read_digits s' (10 * acc + v) (n + 1)
      | None => (acc, n, s)
      end
  | EmptyString => (acc, n, s)
  end.

(** An optional sign: whether it is a minus, and the rest. *)
Definition read_sign (s : string) : bool * string :=
  match s with
  | String "-" s' => (true, s')
  | String "+" s' => (false, s')
  | _ => (false, s)
  end.

(** An optional exponent [e] or [E] with a sign and at least one
    digit: its value (0 when there is none) and the rest. *)
Definition read_exponent (s : string) : option (Z * string) :=
  match s with
  | String c s' =>
      if Ascii.eqb c "e" || Ascii.eqb c "E" then
        let (neg, s1) := read_sign s' in
        let '(v, n, rest) := read_digits s1 0 0 in
        if n =? 0 then None
        else Some (if neg then - v else v, rest)
      else Some (0, s)
  | EmptyString => Some (0, s)
  end.

(** PostgreSQL's reading of a decimal text as a [numeric]: spaces, a
    sign, digits with at most one point (at least one digit), an
    exponent, spaces.  The result is the sign, a mantissa [m] and a
    power [e] for the value [m * 10^e]; [None] when the text is not of
    that form.  Every text of a finite number that
    [Number.prototype.toString] writes is of that form. *)
Definition parse_decimal (text : string) : option (bool * Z * Z) :=
  let (neg, s1) := read_sign (skip_spaces text) in
  let '(i, ni, s2) := read_digits s1 0 0 in
  let '(m, nf, s3) :=
    match s2 with
    | String "." s' => read_digits s' i 0
    | _ => (i, 0, s2)
    end in
  if ni + nf =? 0 then None
  else
    match read_exponent s3 with
    | None => None
    | Some (e, s4) =>
        match skip_spaces s4 with
        | EmptyString => Some (neg, m, e - nf)
        | _ => None
        end
    end.

(** The text [NaN], in any case, between spaces. *)
Definition is_nan_text (text : string) : bool :=
  match skip_spaces text with
  | String c1 (String c2 (String c3 rest)) =>
      (Ascii.eqb c1 "N" || Ascii.eqb c1 "n")
      && (Ascii.eqb c2 "a" || Ascii.eqb c2 "A")
      && (Ascii.eqb c3 "N" || Ascii.eqb c3 "n")
      && match skip_spaces rest with
         | EmptyString => true
         | _ => false
         end
  | _ => false
  end.

(** The integer nearest to [m * 10^e], for [m] not negative; a tie goes
    away from zero, as [numeric] rounds. *)
Definition round_half_away (m e : Z) : Z :=
  if 0 <=? e then m * 10 ^ e
  else (2 * m + 10 ^ (- e)) / (2 * 10 ^ (- e)).

Local Open Scope string_scope.

(** The text of a value of scale 2, given in hundredths. *)
Definition numeric_out (h : decimal2) : string :=
  let a := Z.abs h in
  let cents := (a mod 100)%Z in
  (if (h <? 0)%Z then "-" else "")
  ++ digits (a / 100) ++ "."
  ++ (if (cents <? 10)%Z then "0" else "") ++ digits cents.

(** A column [decimal(precision, 2)]: the text is read as a [numeric],
    rounded to two decimals, and refused when the rounded value has
    more than [precision - 2] digits before the point.  The result is
    the text of the stored value, which is what a query returns.  [NaN]
    is stored as it is; [Infinity] is refused like any other text that
    is not a decimal. *)
Definition decimal (precision : Z) (text : string) : Result string :=
  if is_nan_text text then Ok "NaN"
  else
    match parse_decimal text with
    | None => Throw "invalid input syntax for type numeric"
    | Some (neg, m, e) =>
        let h := round_half_away m (e + 2) in
        if (10 ^ precision <=? h)%Z then Throw "numeric field overflow"
        else Ok (numeric_out (if neg then (- h)%Z else h))
    end.

Fixpoint all_spaces (s : string) : bool :=
  match s with
  | String c s' => Ascii.eqb c " " && all_spaces s'
  | EmptyString => true
  end.

(** A column [varchar(n)]: a longer text is refused, unless all that
    exceeds [n] characters is spaces, which are cut off. *)
Definition varchar (n : nat) (text : string) : Result string :=
  if (String.length text <=? n)%nat then Ok text
  else if all_spaces (substring n (String.length text - n) text)
       then Ok (substring 0 n text)
       else Throw "value too long for type character varying".

Local Close Scope string_scope.

(** The columns of [payroll] that an [INSERT] is given values for. *)
Definition payroll_columns (v : InsertPayroll.t) : Result InsertPayroll.t :=
  payPeriod <- varchar 7 (InsertPayroll.payPeriod v) ;;
  hoursWorked <- decimal 5 (InsertPayroll.hoursWorked v) ;;
  overtimeHours <- decimal 5 (InsertPayroll.overtimeHours v) ;;
  basePay <- decimal 10 (InsertPayroll.basePay v) ;;
  overtimePay <- decimal 10 (InsertPayroll.overtimePay v) ;;
  allowances <- decimal 10 (InsertPayroll.allowances v) ;;
  bonuses <- decimal 10 (InsertPayroll.bonuses v) ;;
  grossPay <- decimal 10 (InsertPayroll.grossPay v) ;;
  sssDeduction <- decimal 10 (InsertPayroll.sssDeduction v) ;;
  philHealthDeduction <- decimal 10 (InsertPayroll.philHealthDeduction v) ;;
  pagIbigDeduction <- decimal 10 (InsertPayroll.pagIbigDeduction v) ;;
  taxDeduction <- decimal 10 (InsertPayroll.taxDeduction v) ;;
  otherDeductions <- decimal 10 (InsertPayroll.otherDeductions v) ;;
  totalDeductions <- decimal 10 (InsertPayroll.totalDeductions v) ;;
  netPay <- decimal 10 (InsertPayroll.netPay v) ;;
  Ok (InsertPayroll.mk (InsertPayroll.employeeId v) payPeriod hoursWorked
        overtimeHours basePay overtimePay allowances bonuses grossPay
        sssDeduction philHealthDeduction pagIbigDeduction taxDeduction
        otherDeductions totalDeductions netPay).

(** One row of an [INSERT] into [payroll]: [employee_id] has to refer
    to a row of [employees], and every column has to accept its text.
    The result holds the texts of the stored values. *)
Definition payroll_row_in (db : Db) (v : InsertPayroll.t)
  : Result InsertPayroll.t :=
  if existsb (fun e => Employee.id e =? InsertPayroll.employeeId v)
             (employees db)
  then payroll_columns v
  else Throw "violates foreign key constraint".

(** The rows of one [INSERT]: the statement fails as a whole when one
    row is refused. *)
Fixpoint payroll_rows_in (db : Db) (records : list InsertPayroll.t)
  : Result (list InsertPayroll.t) :=
  match records with
  | [] => Ok []
  | v :: rest =>
      stored <- payroll_row_in db v ;;
      others <- payroll_rows_in db rest ;;
      Ok (stored :: others)
  end.

(* ================================================================== *)
(** ** Query building blocks *)
(* ================================================================== *)

(** [ORDER BY]: rows are put in order by insertion, a row going before
    the first one it is not above; rows that compare equal stay in table
    order. *)
Section OrderBy.
Variable A : Type.
Variable le : A -> A -> bool.

Fixpoint insert_row (x : A) (l : list A) : list A :=
  match l with
  | [] => [x]
  | y :: l' => if le x y then x :: l else y :: insert_row x l'
  end.

Fixpoint order_by (l : list A) : list A :=
  match l with
  | [] => []
  | x :: l' => insert_row x (order_by l')
  end.
End OrderBy.

(** The decimal total of a column over some rows. *)
Definition total (l : list decimal2) : decimal2 := fold_right Z.add 0 l.

(** [sum(column)]: [NULL] over no rows. *)
Definition sql_sum (l : list decimal2) : option decimal2 :=
  match l with
  | [] => None
  | _ => Some (total l)
  end.

(** [desc(createdAt)]: [NULL]s first, then the latest first. *)
Definition created_desc (a b : option timestamp) : bool :=
  match a, b with
  | None, _ => true
  | Some _, None => false
  | Some x, Some y => y <=? x
  end.

(** What are truthy in JavaScript: a number other than 0 (and NaN), a
    string other than the empty one; [undefined] is not. *)
Definition truthy_id (v : option Z) : bool :=
  match v with
  | Some z => negb (z =? 0)
  | None => false
  end.

Definition truthy_string (v : option string) : bool :=
  match v with
  | Some s => negb (String.eqb s "")
  | None => false
  end.

(** [list.includes(x)] on strings. *)
Definition includes (l : list string) (x : string) : bool :=
  existsb (String.eqb x) l.

(** The constants the loop of [generatePayrollForPeriod] computes for
    one employee. *)
Module Amounts.
Record t : Type := mk {
  basePay : number;
  overtimePay : number;
  allowances : number;
  bonuses : number;
  grossPay : number;
  sssDeduction : number;
  philHealthDeduction : number;
  pagIbigDeduction : number;
  otherDeductions : number;
  totalDeductions : number;
  netPay : number
}.
End Amounts.

(** What [getMonthlyAttendance] resolves to. *)
Record MonthlyAttendance : Type := mkMonthly {
  totalHours : number;
  overtimeHours : number
}.

(* ================================================================== *)
(** ** DatabaseStorage *)
(* ================================================================== *)

Section Storage.

(** [text::date] as the database evaluates it: the date read, or [None]
    when the database raises an error. *)
Variable cast_date : string -> option Date.

(** [getEmployees]: the active employees, by name. *)
Definition getEmployees (db : Db) : list Employee.t :=
  order_by (fun a b => String.leb (Employee.name a) (Employee.name b))
           (filter Employee.isActive (employees db)).

(** [deleteEmployee]: one [UPDATE ... SET is_active = false,
    updated_at = now WHERE id = ...]. *)
Definition deleteEmployee (db : Db) (id : Z) (now : timestamp) : Db :=
  mkDb (map (fun e =>
               if Employee.id e =? id then
                 Employee.mk (Employee.id e) (Employee.name e)
                   (Employee.email e) (Employee.position e)
                   (Employee.salaryRate e) (Employee.salaryType e)
                   (Employee.department e) (Employee.hireDate e)
                   false
                   (Employee.createdAt e) (Some now)
               else e)
            (employees db))
       (attendance db) (benefits db) (payroll db) (payroll_id_seq db).

(** [result.column || 0] under [Number(...)]: a sum arrives as text
    (truthy), [NULL] as [null]. *)
Definition Number_or_0 (v : option decimal2) : number :=
  match v with
  | Some d => Number d
  | None => lit_0
  end.

(** The rows [getMonthlyAttendance] sums: the employee's rows whose
    month starts on the date the period was read as. *)
Definition attendance_rows (db : Db) (employeeId : Z) (d : Date)
  : list Attendance.t :=
  filter (fun a => (Attendance.employeeId a =? employeeId)
                   && Date_eqb (date_trunc_month (Attendance.date a)) d)
         (attendance db).

(** [getMonthlyAttendance]: the two sums over those rows. *)
Definition getMonthlyAttendance (db : Db) (employeeId : Z)
           (payPeriod : string) : Result MonthlyAttendance :=
  match cast_date payPeriod with
  | None => Throw "invalid input syntax for type date"
  | Some d =>
      let rows := attendance_rows db employeeId d in
      Ok (mkMonthly
            (Number_or_0 (sql_sum (map Attendance.hoursWorked rows)))
            (Number_or_0 (sql_sum (map Attendance.overtime rows))))
  end.

(** [getBenefits]: which filter applies depends on which arguments are
    truthy; the latest rows come first. *)
Definition getBenefits (db : Db) (employeeId : option Z)
           (payPeriod : option string) : list Benefit.t :=
  let by_created :=
    order_by (fun a b => created_desc (Benefit.createdAt a)
                                      (Benefit.createdAt b)) in
  let of_employee b :=
    match employeeId with
    | Some i => Benefit.employeeId b =? i
    | None => false
    end in
  let of_period b :=
    match payPeriod with
    | Some p => String.eqb (Benefit.appliesTo b) p
    | None => false
    end in
  if truthy_id employeeId && truthy_string payPeriod then
    by_created (filter (fun b => of_employee b && of_period b) (benefits db))
  else if truthy_id employeeId then
    by_created (filter of_employee (benefits db))
  else if truthy_string payPeriod then
    by_created (filter of_period (benefits db))
  else
    by_created (benefits db).

(** [list.reduce((sum, b) => sum + Number(b.amount), 0)]. *)
Definition sum_amounts (l : list Benefit.t) : number :=
  fold_left (fun sum b => add sum (Number (Benefit.amount b))) l lit_0.

(** The body of the loop, up to [netPay]. *)
Definition payroll_amounts (employee : Employee.t)
           (monthlyAttendance : MonthlyAttendance)
           (employeeBenefits : list Benefit.t) : Amounts.t :=
  let salaryRate := Number (Employee.salaryRate employee) in
  let basePay :=
    if String.eqb (Employee.salaryType employee) "hourly"
    then mul salaryRate (totalHours monthlyAttendance)
    else salaryRate in
  let overtimePay :=
    if String.eqb (Employee.salaryType employee) "hourly"
    then mul (mul salaryRate lit_1_5) (overtimeHours monthlyAttendance)
    else lit_0 in
  let allowances :=
    sum_amounts
      (filter (fun b => String.eqb (Benefit.type b) "Allowance")
              employeeBenefits) in
  let bonuses :=
    sum_amounts
      (filter (fun b => includes ["Bonus"; "13th_month"]%string
                                 (Benefit.type b))
              employeeBenefits) in
  let grossPay := add (add (add basePay overtimePay) allowances) bonuses in
  let sssDeduction := mul grossPay lit_0_045 in
  let philHealthDeduction := mul grossPay lit_0_045 in
  let pagIbigDeduction := JsNumber.min (mul grossPay lit_0_02) lit_100 in
  let otherDeductions :=
    sum_amounts
      (filter (fun b => String.eqb (Benefit.type b) "Deduction")
              employeeBenefits) in
  let totalDeductions :=
    add (add (add sssDeduction philHealthDeduction) pagIbigDeduction)
        otherDeductions in
  let netPay := sub grossPay totalDeductions in
  Amounts.mk basePay overtimePay allowances bonuses grossPay
             sssDeduction philHealthDeduction pagIbigDeduction
             otherDeductions totalDeductions netPay.

(** The object pushed onto [payrollRecords]. *)
Definition payroll_values (payPeriod : string) (employee : Employee.t)
           (monthlyAttendance : MonthlyAttendance) (a : Amounts.t)
  : InsertPayroll.t :=
  InsertPayroll.mk
    (Employee.id employee)
    payPeriod
    (toString (totalHours monthlyAttendance))
    (toString (overtimeHours monthlyAttendance))
    (toString (Amounts.basePay a))
    (toString (Amounts.overtimePay a))
    (toString (Amounts.allowances a))
    (toString (Amounts.bonuses a))
    (toString (Amounts.grossPay a))
    (toString (Amounts.sssDeduction a))
    (toString (Amounts.philHealthDeduction a))
    (toString (Amounts.pagIbigDeduction a))
    "0"
    (toString (Amounts.otherDeductions a))
    (toString (Amounts.totalDeductions a))
    (toString (Amounts.netPay a)).

(** The [for] loop over the active employees: two queries, the
    computation and the push, for each. *)
Fixpoint payroll_loop (db : Db) (payPeriod : string)
         (activeEmployees : list Employee.t)
  : Result (list InsertPayroll.t) :=
  match activeEmployees with
  | [] => Ok []
  | employee :: rest =>
      monthlyAttendance <-
        getMonthlyAttendance db (Employee.id employee) payPeriod ;;
      let employeeBenefits :=
        getBenefits db (Some (Employee.id employee)) (Some payPeriod) in
      let record :=
        payroll_values payPeriod employee monthlyAttendance
          (payroll_amounts employee monthlyAttendance employeeBenefits) in
      payrollRecords <- payroll_loop db payPeriod rest ;;
      Ok (record :: payrollRecords)
  end.

(** Rows for the stored values of one [INSERT], numbered from the
    sequence. *)
Fixpoint new_rows (next : Z) (now : timestamp)
         (records : list InsertPayroll.t) : list Payroll.t :=
  match records with
  | [] => []
  | r :: rest =>
      Payroll.mk next r (Some now) (Some now) (Some now)
      :: new_rows (next + 1) now rest
  end.

(** [db.insert(payroll).values(records).returning()]: the query builder
    throws on no values; otherwise the rows are stored in one
    statement, which the database refuses as a whole when it refuses a
    row, and the stored rows are returned. *)
Definition insert_payroll (db : Db) (now : timestamp)
           (records : list InsertPayroll.t) : Result (list Payroll.t * Db) :=
  match records with
  | [] => Throw "values() must be called with at least one value"
  | _ =>
      stored <- payroll_rows_in db records ;;
      let rows := new_rows (payroll_id_seq db) now stored in
      Ok (rows,
          mkDb (employees db) (attendance db) (benefits db)
               (payroll db ++ rows)
               (payroll_id_seq db + Z.of_nat (List.length stored)))
  end.

(** [generatePayrollForPeriod]. *)
Definition generatePayrollForPeriod (db : Db) (payPeriod : string)
           (now : timestamp) : Result (list Payroll.t * Db) :=
  let activeEmployees := getEmployees db in
  payrollRecords <- payroll_loop db payPeriod activeEmployees ;;
  insert_payroll db now payrollRecords.

(* ---------------------------------------------------------------- *)
(** *** POST /api/payroll/generate (src/server/routes.ts) *)

Inductive Body : Type :=
| Message (message : string)
| Rows (rows : list Payroll.t).

Record Response : Type := mkResponse { status : Z; body : Body }.

(** The handler, for an authenticated request whose body carries
    [payPeriod] ([None] when the field is absent). *)
Definition post_payroll_generate (db : Db) (payPeriod : option string)
           (now : timestamp) : Response * Db :=
  match payPeriod, truthy_string payPeriod with
  | Some p, true =>
      match generatePayrollForPeriod db p now with
      | Ok (rows, db') => (mkResponse 201 (Rows rows), db')
      | Throw _ =>
          (mkResponse 500 (Message "Failed to generate payroll"), db)
      end
  | _, _ => (mkResponse 400 (Message "Pay period is required"), db)
  end.

End Storage.

(* ================================================================== *)
(** ** Vocabulary of the specification *)
(* ================================================================== *)

(** A pay-period token in [YYYY-MM] form: four digits, a dash, and a
    month from 01 to 12. *)
Definition parse_period (s : string) : option (Z * Z) :=
  match s with
  | String y1 (String y2 (String y3 (String y4
      (String "-" (String m1 (String m2 EmptyString)))))) =>
      match digit_of y1, digit_of y2, digit_of y3, digit_of y4,
            digit_of m1, digit_of m2 with
      | Some a, Some b, Some c, Some d, Some e, Some f =>
          let m := 10 * e + f in
          if (1 <=? m) && (m <=? 12)
          then Some (1000 * a + 100 * b + 10 * c + d, m)
          else None
      | _, _, _, _, _, _ => None
      end
  | _ => None
  end.

Definition well_formed_period (s : string) : bool :=
  match parse_period s with
  | Some _ => true
  | None => false
  end.

(** *** Dates as PostgreSQL reads them

    [date_in] is PostgreSQL's reading (with its default [DateStyle],
    [ISO, MDY]) of the date texts written in digits: three fields of
    one to four digits, separated by [-] or by [/].  When the first
    field has three or four digits the text is year, month, day
    ([2024-01-01]); otherwise it is month, day, year ([1/1/24],
    [1/1/2024]), a year of one or two digits being in 2000 when it is
    below 70 and in 1900 otherwise.  A text of one or two fields of
    digits, such as [YYYY-MM], is refused (invalid input syntax for
    type date), and so is a date that does not exist.  PostgreSQL reads
    further forms (names of months, [today] and the like); they are
    outside this function, and nothing below applies it to one. *)

(** The fields of a text between occurrences of [sep]. *)
Fixpoint fields (sep : ascii) (s : string) : list string :=
  match s with
  | EmptyString => [EmptyString]
  | String c s' =>
      if Ascii.eqb c sep then EmptyString :: fields sep s'
      else match fields sep s' with
           | f :: fs => String c f :: fs
           | [] => [String c EmptyString]
           end
  end.

(** A field of one to [width] digits. *)
Definition field_value (width : Z) (f : string) : option Z :=
  match read_digits f 0 0 with
  | (v, n, EmptyString) =>
      if (1 <=? n) && (n <=? width) then Some v else None
  | _ => None
  end.

Definition leap_year (y : Z) : bool :=
  (y mod 4 =? 0) && (negb (y mod 100 =? 0) || (y mod 400 =? 0)).

Definition days_in_month (y m : Z) : Z :=
  if m =? 2 then (if leap_year y then 29 else 28)
  else if (m =? 4) || (m =? 6) || (m =? 9) || (m =? 11) then 30
  else 31.

Definition valid_date (y m d : Z) : option Date :=
  if (1 <=? y) && (1 <=? m) && (m <=? 12)
     && (1 <=? d) && (d <=? days_in_month y m)
  then Some (mkDate y m d) else None.

(** The year a field of one to four digits stands for. *)
Definition year_value (f : string) : option Z :=
  match field_value 4 f with
  | Some v =>
      if (String.length f <=? 2)%nat
      then Some (if v <? 70 then 2000 + v else 1900 + v)
      else Some v
  | None => None
  end.

(** The three fields of a date text. *)
Definition date_fields (s : string) : option (string * string * string) :=
  match fields "/" s with
  | [a; b; c] => Some (a, b, c)
  | _ =>
      match fields "-" s with
      | [a; b; c] => Some (a, b, c)
      | _ => None
      end
  end.

Definition date_in (s : string) : option Date :=
  match date_fields s with
  | Some (a, b, c) =>
      if (3 <=? String.length a)%nat then
        match field_value 4 a, field_value 2 b, field_value 2 c with
        | Some y, Some m, Some d => valid_date y m d
        | _, _, _ => None
        end
      else
        match field_value 2 a, field_value 2 b, year_value c with
        | Some m, Some d, Some y => valid_date y m d
        | _, _, _ => None
        end
  | None => None
  end.

(** How many payroll rows a table holds for an employee and a period. *)
Definition count_payroll (rows : list Payroll.t) (employeeId : Z)
           (payPeriod : string) : nat :=
  List.length
    (filter (fun r => (Payroll.employeeId r =? employeeId)
                      && String.eqb (Payroll.payPeriod r) payPeriod)
            rows).

(** The benefit types the statutory contributions are named after. *)
Definition statutory_type (b : Benefit.t) : bool :=
  includes ["SSS"; "PhilHealth"; "Pag-IBIG"]%string (Benefit.type b).

(** The benefit types the generator's three filters select. *)
Definition read_type (b : Benefit.t) : bool :=
  includes ["Allowance"; "Bonus"; "13th_month"; "Deduction"]%string
           (Benefit.type b).

(** The database with only the benefit rows [keep] lets through. *)
Definition keep_benefits (keep : Benefit.t -> bool) (db : Db) : Db :=
  mkDb (employees db) (attendance db) (filter keep (benefits db))
       (payroll db) (payroll_id_seq db).

(** The database without its benefit rows of statutory type. *)
Definition without_statutory (db : Db) : Db :=
  keep_benefits (fun b => negb (statutory_type b)) db.

(** The product of two [decimal(p, 2)] values in decimal arithmetic. *)
Definition decimal_product (a b : decimal2) : Q :=
  ((a # 100) * (b # 100))%Q.

(** What the two queries of one employee's turn of the loop return, when
    the period was read as the date [d]. *)
Definition employee_attendance (db : Db) (d : Date) (employee : Employee.t)
  : MonthlyAttendance :=
  let rows := attendance_rows db (Employee.id employee) d in
  mkMonthly (Number_or_0 (sql_sum (map Attendance.hoursWorked rows)))
            (Number_or_0 (sql_sum (map Attendance.overtime rows))).

Definition employee_benefits (db : Db) (payPeriod : string)
           (employee : Employee.t) : list Benefit.t :=
  getBenefits db (Some (Employee.id employee)) (Some payPeriod).

(** The constants and the pushed values of that turn. *)
Definition employee_amounts (db : Db) (payPeriod : string) (d : Date)
           (employee : Employee.t) : Amounts.t :=
  payroll_amounts employee (employee_attendance db d employee)
                  (employee_benefits db payPeriod employee).

Definition employee_values (db : Db) (payPeriod : string) (d : Date)
           (employee : Employee.t) : InsertPayroll.t :=
  payroll_values payPeriod employee (employee_attendance db d employee)
                 (employee_amounts db payPeriod d employee).

(** The values a run hands to its [INSERT], when the period was read
    as the date [d]: one record for each active employee. *)
Definition handed_values (db : Db) (payPeriod : string) (d : Date)
  : list InsertPayroll.t :=
  map (employee_values db payPeriod d) (getEmployees db).

(** The currency fields of a payroll record. *)
Definition currency_fields (v : InsertPayroll.t) : list string :=
  [InsertPayroll.basePay v; InsertPayroll.overtimePay v;
   InsertPayroll.allowances v; InsertPayroll.bonuses v;
   InsertPayroll.grossPay v; InsertPayroll.sssDeduction v;
   InsertPayroll.philHealthDeduction v; InsertPayroll.pagIbigDeduction v;
   InsertPayroll.taxDeduction v; InsertPayroll.otherDeductions v;
   InsertPayroll.totalDeductions v; InsertPayroll.netPay v].

(** The text of a stored decimal: an amount of two decimals, or NaN. *)
Definition two_decimal_text (text : string) : Prop :=
  text = "NaN"%string \/ exists h : decimal2, text = numeric_out h.

(** How many rows of a list belong to an employee. *)
Definition count_employee (rows : list Payroll.t) (employeeId : Z) : nat :=
  List.length (filter (fun r => Payroll.employeeId r =? employeeId) rows).

(** Clearing the active flag and nothing else. *)
Definition clear_active (e : Employee.t) : Employee.t :=
  Employee.mk (Employee.id e) (Employee.name e) (Employee.email e)
    (Employee.position e) (Employee.salaryRate e) (Employee.salaryType e)
    (Employee.department e) (Employee.hireDate e) false
    (Employee.createdAt e) (Employee.updatedAt e).

(* ================================================================== *)
(** ** A small company, for running the model *)
(* ================================================================== *)

Module Sample.

Definition hired : Date := mkDate 2023 3 1.

(** Ana: hourly at 500.00, twenty days of 8 hours and half an hour of
    overtime in January 2024, no benefits. *)
Definition ana : Employee.t :=
  Employee.mk 1 "Ana Cruz" "ana@snappr.example" "Welder" 50000 "hourly"
              None hired true (Some 0) (Some 0).

(** Ben: monthly at 30000.00, an allowance of 2000.00 and an SSS entry
    for January 2024 (under the text [1/1/24]). *)
Definition ben : Employee.t :=
  Employee.mk 2 "Ben Diaz" "ben@snappr.example" "Clerk" 3000000 "monthly"
              (Some "Office"%string) hired true (Some 0) (Some 0).

(** Cara: no longer active. *)
Definition cara : Employee.t :=
  Employee.mk 3 "Cara Lim" "cara@snappr.example" "Driver" 45000 "hourly"
              None hired false (Some 0) (Some 5).

(** Dan: hourly at 100.35, 152.10 hours in January 2024. *)
Definition dan : Employee.t :=
  Employee.mk 4 "Dan Reyes" "dan@snappr.example" "Packer" 10035 "hourly"
              None hired true (Some 0) (Some 0).

Definition days : list Z := map Z.of_nat (seq 1 20).

Definition ana_days : list Attendance.t :=
  map (fun d => Attendance.mk d 1 (mkDate 2024 1 d) 800 50 None None) days.

Definition dan_days : list Attendance.t :=
  map (fun d => Attendance.mk (100 + d) 4 (mkDate 2024 1 d)
                              (if d =? 20 then 10 else 800) 0 None None)
      days.

(** One of Ana's days in another month. *)
Definition ana_february : Attendance.t :=
  Attendance.mk 50 1 (mkDate 2024 2 1) 800 0 None None.

Definition ben_allowance : Benefit.t :=
  Benefit.mk 1 2 "Allowance" 200000 false "1/1/24" None (Some 10) (Some 10).

Definition ben_sss : Benefit.t :=
  Benefit.mk 2 2 "SSS" 58000 false "1/1/24" None (Some 11) (Some 11).

Definition db : Db :=
  mkDb [ana; ben; cara; dan]
       (ana_days ++ ana_february :: dan_days)
       [ben_allowance; ben_sss]
       []
       1.

(** January 2024 in a text the database reads as a date and the
    period column holds; the benefit rows above apply to it. *)
Definition january : string := "1/1/24".

(** January 2024 as the specification writes a pay period. *)
Definition year_month : string := "2024-01".

(** The database once January 2024 has been generated at time 1000. *)
Definition after_january : Db :=
  match generatePayrollForPeriod date_in db january 1000 with
  | Ok (_, db') => db'
  | Throw _ => db
  end.

End Sample.

(* ================================================================== *)
(** ** More of DatabaseStorage: lookups, listings and deletions *)
(* ================================================================== *)

(** [const [row] = await query]: the first row, [undefined] when the
    query returned none. *)
Definition first_row {A : Type} (rows : list A) : option A := hd_error rows.

(** [getEmployee]: whatever the active flag. *)
Definition getEmployee (db : Db) (id : Z) : option Employee.t :=
  first_row (filter (fun e => Employee.id e =? id) (employees db)).

(** The order of dates. *)
Definition Date_leb (a b : Date) : bool :=
  (year a <? year b)
  || ((year a =? year b)
      && ((month a <? month b)
          || ((month a =? month b) && (day a <=? day b)))).

(** [getAttendance]: the employee's rows, of one month when [month] is
    truthy, the latest date first. *)
Definition getAttendance (cast_date : string -> option Date) (db : Db)
           (employeeId : Z) (month : option string)
  : Result (list Attendance.t) :=
  let by_date_desc :=
    order_by (fun a b => Date_leb (Attendance.date b) (Attendance.date a)) in
  match month, truthy_string month with
  | Some m, true =>
      match cast_date m with
      | None => Throw "invalid input syntax for type date"
      | Some d => Ok (by_date_desc (attendance_rows db employeeId d))
      end
  | _, _ =>
      Ok (by_date_desc
            (filter (fun a => Attendance.employeeId a =? employeeId)
                    (attendance db)))
  end.

(** [deleteAttendance], [deleteBenefit], [deletePayroll]: one [DELETE
    ... WHERE id = ...] each. *)
Definition deleteAttendance (db : Db) (id : Z) : Db :=
  mkDb (employees db)
       (filter (fun a => negb (Attendance.id a =? id)) (attendance db))
       (benefits db) (payroll db) (payroll_id_seq db).

Definition deleteBenefit (db : Db) (id : Z) : Db :=
  mkDb (employees db) (attendance db)
       (filter (fun b => negb (Benefit.id b =? id)) (benefits db))
       (payroll db) (payroll_id_seq db).

Definition deletePayroll (db : Db) (id : Z) : Db :=
  mkDb (employees db) (attendance db) (benefits db)
       (filter (fun r => negb (Payroll.id r =? id)) (payroll db))
       (payroll_id_seq db).

(** [createPayroll]: an [INSERT] of one row, which is returned as
    stored. *)
Definition createPayroll (db : Db) (payrollData : InsertPayroll.t)
           (now : timestamp) : Result (Payroll.t * Db) :=
  stored <- payroll_row_in db payrollData ;;
  let newPayroll :=
    Payroll.mk (payroll_id_seq db) stored (Some now) (Some now)
               (Some now) in
  Ok (newPayroll,
      mkDb (employees db) (attendance db) (benefits db)
           (payroll db ++ [newPayroll]) (payroll_id_seq db + 1)).

(** [getEmployeePayroll]: the first payroll row of the employee and the
    period. *)
Definition getEmployeePayroll (db : Db) (employeeId : Z)
           (payPeriod : string) : option Payroll.t :=
  first_row
    (filter (fun r => (Payroll.employeeId r =? employeeId)
                      && String.eqb (Payroll.payPeriod r) payPeriod)
            (payroll db)).

(** A payroll row with the employee it refers to. *)
Module PayrollWithEmployee.
Record t : Type := mk {
  row : Payroll.t;
  employee : Employee.t
}.
End PayrollWithEmployee.

(** [getPayroll]: the payroll rows of the period, each joined to the
    employee rows with its [employeeId], by employee name. *)
Definition getPayroll (db : Db) (payPeriod : string)
  : list PayrollWithEmployee.t :=
  order_by
    (fun a b => String.leb (Employee.name (PayrollWithEmployee.employee a))
                           (Employee.name (PayrollWithEmployee.employee b)))
    (flat_map
       (fun r =>
          map (PayrollWithEmployee.mk r)
              (filter (fun e => Employee.id e =? Payroll.employeeId r)
                      (employees db)))
       (filter (fun r => String.eqb (Payroll.payPeriod r) payPeriod)
               (payroll db))).

(* ------------------------------------------------------------------ *)
(** *** GET /api/payroll and GET /api/payroll/export
    (src/server/routes.ts) *)









(* ================================================================== *)
(** ** Pings *)
(* ================================================================== *)

Module Ping.
Record t : Type := mk {
  id : Z;
  employeeId : Z;
  requirement : string;
  message : option string;
  status : string;
  pingedBy : string;
  readAt : option timestamp;
  acknowledgedAt : option timestamp;
  createdAt : option timestamp;
  updatedAt : option timestamp
}.
End Ping.

(** The [SET] of [updatePingStatus]: [updateData] carries the status
    and [updatedAt], and [readAt] or [acknowledgedAt] for the two
    statuses that have one; the clock is read once for [updatedAt] and
    once more for the other stamp. *)
Definition ping_update (status : string) (now now' : timestamp)
           (r : Ping.t) : Ping.t :=
  Ping.mk (Ping.id r) (Ping.employeeId r) (Ping.requirement r)
          (Ping.message r) status (Ping.pingedBy r)
          (if String.eqb status "read" then Some now' else Ping.readAt r)
          (if String.eqb status "read" then Ping.acknowledgedAt r
           else if String.eqb status "acknowledged" then Some now'
                else Ping.acknowledgedAt r)
          (Ping.createdAt r) (Some now).

(** [updatePingStatus] on the [pings] table: the first updated row, and
    the table. *)
Definition updatePingStatus (pings : list Ping.t) (id : Z) (status : string)
           (now now' : timestamp) : option Ping.t * list Ping.t :=
  let pings' :=
    map (fun r => if Ping.id r =? id then ping_update status now now' r
                  else r) pings in
  (first_row (filter (fun r => Ping.id r =? id) pings'), pings').

(** A call of [updatePingStatus]. *)
Record PingCall : Type := mkPingCall {
  call_id : Z;
  call_status : string;
  call_now : timestamp;
  call_now' : timestamp
}.

(** The table after a series of calls. *)
Definition after_calls (pings : list Ping.t) (calls : list PingCall)
  : list Ping.t :=
  fold_left (fun tbl c => snd (updatePingStatus tbl (call_id c)
                                 (call_status c) (call_now c) (call_now' c)))
            calls pings.

(** One row over a series of calls. *)
Definition row_after (calls : list PingCall) (r : Ping.t) : Ping.t :=
  fold_left (fun r c => if Ping.id r =? call_id c
                        then ping_update (call_status c) (call_now c)
                                         (call_now' c) r
                        else r) calls r.

(* ================================================================== *)
(** ** Vocabulary for the further properties *)
(* ================================================================== *)

(** The join of [getPayroll], before it is put in order. *)
Definition joined (es : list Employee.t) (rows : list Payroll.t)
  : list PayrollWithEmployee.t :=
  flat_map
    (fun r => map (PayrollWithEmployee.mk r)
                  (filter (fun e => Employee.id e =? Payroll.employeeId r) es))
    rows.

(** [id] is a key of the payroll rows and the sequence is past all of
    them. *)
Definition payroll_keyed (db : Db) : Prop :=
  NoDup (map Payroll.id (payroll db)) /\
  Forall (fun r => Payroll.id r < payroll_id_seq db) (payroll db).




(** Distinctness of a list of ids, decided. *)
Fixpoint distinct (l : list Z) : bool :=
  match l with
  | [] => true
  | x :: l' => negb (existsb (Z.eqb x) l') && distinct l'
  end.

(** More rows for running the model. *)
Module Later.

(** Values entered by hand for Cara, for December 2023. *)
Definition manual : InsertPayroll.t :=
  InsertPayroll.mk 3 "2023-12" "8" "0" "3600" "0" "0" "0" "3600" "162"
                   "162" "72" "0" "0" "396" "3204".

(** A bonus for Ben that applies to February 2024. *)
Definition ben_february_bonus : Benefit.t :=
  Benefit.mk 3 2 "Bonus" 500000 true "2/1/24" None (Some 12) (Some 12).

(** The sample company without Ana's day in February and with Ben's
    February bonus. *)
Definition other_periods : Db :=
  mkDb (employees Sample.db)
       (Sample.ana_days ++ Sample.dan_days)
       (ben_february_bonus :: benefits Sample.db)
       (payroll Sample.db) (payroll_id_seq Sample.db).

(** Ana at 1000000.00 an hour: for her 160 hours the base pay is
    160000000, which [decimal(10, 2)] does not hold. *)
Definition ana_overpaid : Employee.t :=
  Employee.mk 1 "Ana Cruz" "ana@snappr.example" "Welder" 100000000 "hourly"
              None Sample.hired true (Some 0) (Some 0).

Definition overpaid : Db :=
  mkDb [ana_overpaid; Sample.ben; Sample.cara; Sample.dan]
       (attendance Sample.db) (benefits Sample.db) [] 1.

End Later.

Unset Implicit Arguments.

(* ================================================================== *)
(** ** Checks of the number model *)
(* ================================================================== *)

(** The literals, bit for bit: 0.045 is 0x3FA70A3D70A3D70A and 0.02 is
    0x3F947AE147AE147B. *)
Example literal_bits :
  lit_0_045 = S754_finite false 6485183463413514 (-57) /\
  lit_0_02 = S754_finite false 5764607523034235 (-58) /\
  lit_1_5 = S754_finite false 6755399441055744 (-52) /\
  lit_100 = S754_finite false 7036874417766400 (-46).
Proof. repeat split; vm_compute; reflexivity. Qed.

Example toString_known_values :
  toString (of_fraction 1 10) = "0.1"%string /\
  toString (mul (of_fraction 1 10) (of_Z 3)) = "0.30000000000000004"%string /\
  toString (add (of_fraction 1 10) (of_fraction 2 10))
  = "0.30000000000000004"%string /\
  toString (of_fraction 123456 1000) = "123.456"%string /\
  toString (of_fraction (-15) 1000) = "-0.015"%string /\
  toString (of_fraction 1 1000000) = "0.000001"%string /\
  toString (of_fraction 5 10000000) = "5e-7"%string /\
  toString (of_Z (10 ^ 20)) = "100000000000000000000"%string /\
  toString (of_Z (10 ^ 21)) = "1e+21"%string /\
  toString (of_Z (10 ^ 23)) = "1e+23"%string /\
  toString (of_Z (2 ^ 53)) = "9007199254740992"%string /\
  toString (of_fraction 2 3) = "0.6666666666666666"%string /\
  toString (S754_finite false 1 (-1074)) = "5e-324"%string /\
  toString (S754_finite false 9007199254740991 971)
  = "1.7976931348623157e+308"%string /\
  toString neg_zero = "0"%string.
Proof. repeat split; vm_compute; reflexivity. Qed.

(** A text [toString] wrote reads back as the number it was written
    for. *)
Example toString_reads_back :
  let x := mul (Number 10035) (Number 15210) in
  toString x = "15263.234999999999"%string /\
  of_decimal 15263234999999999 (-12) = x /\
  of_decimal 15263235 (-3) <> x.
Proof.
  cbv zeta. split; [|split]; [vm_compute; reflexivity ..|].
  vm_compute. discriminate.
Qed.

Example Number_known_values :
  Number 50000 = of_Z 500 /\ Number 0 = lit_0 /\
  Number 15 = S754_finite false 5404319552844595 (-55).
Proof. repeat split; vm_compute; reflexivity. Qed.

Example min_known_values :
  JsNumber.min (of_Z 1750) lit_100 = lit_100 /\
  JsNumber.min (of_Z 50) lit_100 = of_Z 50 /\
  JsNumber.min S754_nan lit_100 = S754_nan /\
  JsNumber.min neg_zero pos_zero = neg_zero /\
  JsNumber.min pos_zero neg_zero = neg_zero.
Proof. repeat split; vm_compute; reflexivity. Qed.

(** [Math.min(x, 100)] is NaN or at most 100: the Pag-IBIG deduction
    never exceeds 100. *)
Lemma min_100_capped (x : number) :
  JsNumber.min x lit_100 = S754_nan \/
  SFleb (JsNumber.min x lit_100) lit_100 = true.
Proof.
  unfold JsNumber.min.
  destruct (SFcompare x lit_100) as [[| |]|] eqn:Hc.
  - right. destruct (is_neg_zero x); [|reflexivity].
    unfold SFleb. rewrite Hc. reflexivity.
  - right. unfold SFleb. rewrite Hc. reflexivity.
  - right. reflexivity.
  - left. reflexivity.
Qed.

(* ================================================================== *)
(** ** ORDER BY *)
(* ================================================================== *)

Section OrderByFacts.
Variable A : Type.
Variable le : A -> A -> bool.

Lemma insert_row_perm (x : A) (l : list A) :
  Permutation (insert_row le x l) (x :: l).
Proof.
  induction l as [|y l IH]; simpl.
  - apply Permutation_refl.
  - destruct (le x y).
    + apply Permutation_refl.
    + eapply perm_trans; [apply perm_skip, IH | apply perm_swap].
Qed.

Lemma order_by_perm (l : list A) : Permutation (order_by le l) l.
Proof.
  induction l as [|x l IH]; simpl.
  - constructor.
  - eapply perm_trans; [apply insert_row_perm | apply perm_skip, IH].
Qed.

Lemma order_by_In (l : list A) (x : A) : In x (order_by le l) <-> In x l.
Proof.
  split; apply Permutation_in;
    [apply order_by_perm | apply Permutation_sym, order_by_perm].
Qed.

Lemma order_by_nil (l : list A) : order_by le l = [] -> l = [].
Proof.
  intros H. apply Permutation_nil.
  rewrite <- H. apply order_by_perm.
Qed.

(** Rows dropped by a later filter do not disturb the order of the
    others, when the order is total and transitive. *)
Hypothesis le_total : forall a b, le a b = true \/ le b a = true.
Hypothesis le_trans :
  forall a b c, le a b = true -> le b c = true -> le a c = true.

Let sorted : list A -> Prop := StronglySorted (fun a b => le a b = true).

Lemma insert_row_sorted (x : A) (l : list A) :
  sorted l -> sorted (insert_row le x l).
Proof.
  unfold sorted. induction 1 as [|y l Hs IH Hy]; simpl.
  - repeat constructor.
  - destruct (le x y) eqn:Hxy.
    + constructor; [constructor; assumption|].
      constructor; [assumption|].
      rewrite Forall_forall in *. intros z Hz. eauto.
    + constructor; [assumption|].
      rewrite Forall_forall in *. intros z Hz.
      apply (Permutation_in _ (insert_row_perm x l)) in Hz.
      destruct Hz as [<-|Hz]; [|auto].
      destruct (le_total x y) as [H|H]; [congruence|assumption].
Qed.

Lemma order_by_sorted (l : list A) : sorted (order_by le l).
Proof.
  induction l; simpl; [constructor | apply insert_row_sorted; assumption].
Qed.

Variable keep : A -> bool.

Lemma filter_insert_row_drop (x : A) (l : list A) :
  keep x = false -> filter keep (insert_row le x l) = filter keep l.
Proof.
  intros Hx. induction l as [|y l IH]; simpl.
  - rewrite Hx. reflexivity.
  - destruct (le x y); simpl.
    + rewrite Hx. reflexivity.
    + rewrite IH. reflexivity.
Qed.

Lemma filter_insert_row_keep (x : A) (l : list A) :
  sorted l -> keep x = true ->
  filter keep (insert_row le x l) = insert_row le x (filter keep l).
Proof.
  intros Hs Hx. induction Hs as [|y l Hs IH Hy]; simpl.
  - rewrite Hx. reflexivity.
  - destruct (le x y) eqn:Hxy; simpl.
    + rewrite Hx. destruct (keep y); simpl.
      * rewrite Hxy. reflexivity.
      * destruct (filter keep l) as [|z t] eqn:Hf; simpl; [reflexivity|].
        assert (Hz : In z l).
        { apply (proj1 (filter_In keep z l)). rewrite Hf. left. reflexivity. }
        rewrite Forall_forall in Hy.
        rewrite (@le_trans _ _ _ Hxy (Hy z Hz)). reflexivity.
    + destruct (keep y); simpl.
      * rewrite Hxy, IH. reflexivity.
      * apply IH.
Qed.

Lemma filter_order_by (l : list A) :
  filter keep (order_by le l) = order_by le (filter keep l).
Proof.
  induction l as [|x l IH]; simpl; [reflexivity|].
  destruct (keep x) eqn:Hx; simpl.
  - rewrite filter_insert_row_keep, IH;
      [reflexivity | apply order_by_sorted | assumption].
  - rewrite filter_insert_row_drop, IH; [reflexivity | assumption].
Qed.
End OrderByFacts.

Lemma created_desc_total (a b : option timestamp) :
  created_desc a b = true \/ created_desc b a = true.
Proof.
  destruct a as [x|], b as [y|]; simpl; auto.
  destruct (Z.leb_spec y x); [left | right];
    [reflexivity | apply Z.leb_le; lia].
Qed.

Lemma created_desc_trans (a b c : option timestamp) :
  created_desc a b = true -> created_desc b c = true ->
  created_desc a c = true.
Proof.
  destruct a, b, c; simpl; try congruence.
  rewrite !Z.leb_le. lia.
Qed.

(* ================================================================== *)
(** ** Lists of rows *)
(* ================================================================== *)

Lemma filter_length_perm (A : Type) (f : A -> bool) (l l' : list A) :
  Permutation l l' ->
  List.length (filter f l) = List.length (filter f l').
Proof.
  induction 1 as [|x l l' _ IH|x y l|l l' l'' _ IH1 _ IH2]; simpl.
  - reflexivity.
  - destruct (f x); simpl; congruence.
  - destruct (f x), (f y); reflexivity.
  - congruence.
Qed.

Lemma filter_filter (A : Type) (f g : A -> bool) (l : list A) :
  filter f (filter g l) = filter (fun x => g x && f x) l.
Proof.
  induction l as [|x l IH]; simpl; [reflexivity|].
  destruct (g x); simpl; [destruct (f x)|]; rewrite IH; reflexivity.
Qed.

Lemma filter_filter_absorb (A : Type) (f g : A -> bool) (l : list A) :
  (forall x, f x = true -> g x = true) ->
  filter f (filter g l) = filter f l.
Proof.
  intros Hfg. rewrite filter_filter. apply filter_ext.
  intros x. destruct (f x) eqn:Hf.
  - rewrite (Hfg x Hf). reflexivity.
  - apply andb_false_r.
Qed.

(** Under a key, the rows with one row's key are that row alone. *)
Lemma filter_key (A : Type) (key : A -> Z) (l : list A) (e : A) :
  NoDup (map key l) -> In e l ->
  filter (fun x => key x =? key e) l = [e].
Proof.
  induction l as [|y l IH]; simpl; intros Hnd Hin; [contradiction|].
  inversion Hnd as [|? ? Hy Hnd']; subst.
  destruct Hin as [->|Hin].
  - rewrite Z.eqb_refl. f_equal.
    rewrite (filter_ext_in _ (fun _ => false) l); [apply filter_false|].
    intros x Hx. apply Z.eqb_neq. intros Heq.
    apply Hy. rewrite <- Heq. apply in_map. assumption.
  - destruct (Z.eqb_spec (key y) (key e)) as [Heq|_].
    + exfalso. apply Hy. rewrite Heq. apply in_map. assumption.
    + apply IH; assumption.
Qed.

(* ================================================================== *)
(** ** What a generation run does *)
(* ================================================================== *)

Lemma getEmployees_In (db : Db) (e : Employee.t) :
  In e (getEmployees db) <->
  In e (employees db) /\ Employee.isActive e = true.
Proof.
  unfold getEmployees. rewrite order_by_In. apply filter_In.
Qed.

Lemma getEmployees_nil (db : Db) :
  getEmployees db = [] <-> filter Employee.isActive (employees db) = [].
Proof.
  unfold getEmployees. split; intros H.
  - apply order_by_nil in H. assumption.
  - rewrite H. reflexivity.
Qed.

Lemma Number_or_0_sum (l : list decimal2) :
  Number_or_0 (sql_sum l) = Number (total l).
Proof.
  destruct l; reflexivity.
Qed.

Lemma new_rows_values (next : Z) (now : timestamp)
      (records : list InsertPayroll.t) :
  map Payroll.values (new_rows next now records) = records.
Proof.
  revert next. induction records as [|r rs IH]; intros next; simpl;
    [reflexivity | rewrite IH; reflexivity].
Qed.

Lemma new_rows_In (next : Z) (now : timestamp)
      (records : list InsertPayroll.t) (row : Payroll.t) :
  In row (new_rows next now records) -> In (Payroll.values row) records.
Proof.
  intros H. rewrite <- (new_rows_values next now records).
  apply in_map. assumption.
Qed.

Lemma new_rows_of_In (next : Z) (now : timestamp)
      (records : list InsertPayroll.t) (r : InsertPayroll.t) :
  In r records ->
  exists row, In row (new_rows next now records) /\ Payroll.values row = r.
Proof.
  intros H. rewrite <- (new_rows_values next now records) in H.
  apply in_map_iff in H. destruct H as [row [Hv Hin]]. eauto.
Qed.

Lemma count_new_rows (next : Z) (now : timestamp)
      (records : list InsertPayroll.t) (i : Z) (p : string) :
  count_payroll (new_rows next now records) i p =
  List.length
    (filter (fun r => (InsertPayroll.employeeId r =? i)
                      && String.eqb (InsertPayroll.payPeriod r) p)
            records).
Proof.
  unfold count_payroll. revert next.
  induction records as [|r rs IH]; intros next; simpl; [reflexivity|].
  unfold Payroll.employeeId, Payroll.payPeriod at 1. simpl.
  destruct ((InsertPayroll.employeeId r =? i)
            && String.eqb (InsertPayroll.payPeriod r) p); simpl;
    rewrite IH; reflexivity.
Qed.

(* ================================================================== *)
(** ** What the columns make of a record *)
(* ================================================================== *)

Lemma varchar_short (n : nat) (text : string) :
  (String.length text <= n)%nat -> varchar n text = Ok text.
Proof.
  intros H. unfold varchar.
  destruct (Nat.leb_spec (String.length text) n); [reflexivity | lia].
Qed.

(** A stored decimal is the text of an amount of two decimals, or
    NaN. *)
Lemma decimal_two_decimals (precision : Z) (text stored : string) :
  decimal precision text = Ok stored -> two_decimal_text stored.
Proof.
  unfold decimal, two_decimal_text. destruct (is_nan_text text).
  - intros H. injection H as <-. left. reflexivity.
  - destruct (parse_decimal text) as [[[neg m] e]|]; [|discriminate].
    destruct (10 ^ precision <=? round_half_away m (e + 2));
      [discriminate|].
    intros H. injection H as <-. right. eauto.
Qed.

Ltac column_by_column H :=
  repeat match type of H with
         | bind ?c _ = Ok _ =>
             let s := fresh "s" in
             let E := fresh "E" in
             destruct c as [s|] eqn:E; cbn [bind] in H; [|discriminate H]
         end.

(** The stored record, column by column. *)
Lemma payroll_columns_fields (v s : InsertPayroll.t) :
  payroll_columns v = Ok s ->
  InsertPayroll.employeeId s = InsertPayroll.employeeId v /\
  varchar 7 (InsertPayroll.payPeriod v) = Ok (InsertPayroll.payPeriod s) /\
  decimal 5 (InsertPayroll.hoursWorked v)
  = Ok (InsertPayroll.hoursWorked s) /\
  decimal 5 (InsertPayroll.overtimeHours v)
  = Ok (InsertPayroll.overtimeHours s) /\
  decimal 10 (InsertPayroll.basePay v) = Ok (InsertPayroll.basePay s) /\
  decimal 10 (InsertPayroll.overtimePay v)
  = Ok (InsertPayroll.overtimePay s) /\
  decimal 10 (InsertPayroll.allowances v)
  = Ok (InsertPayroll.allowances s) /\
  decimal 10 (InsertPayroll.bonuses v) = Ok (InsertPayroll.bonuses s) /\
  decimal 10 (InsertPayroll.grossPay v) = Ok (InsertPayroll.grossPay s) /\
  decimal 10 (InsertPayroll.sssDeduction v)
  = Ok (InsertPayroll.sssDeduction s) /\
  decimal 10 (InsertPayroll.philHealthDeduction v)
  = Ok (InsertPayroll.philHealthDeduction s) /\
  decimal 10 (InsertPayroll.pagIbigDeduction v)
  = Ok (InsertPayroll.pagIbigDeduction s) /\
  decimal 10 (InsertPayroll.taxDeduction v)
  = Ok (InsertPayroll.taxDeduction s) /\
  decimal 10 (InsertPayroll.otherDeductions v)
  = Ok (InsertPayroll.otherDeductions s) /\
  decimal 10 (InsertPayroll.totalDeductions v)
  = Ok (InsertPayroll.totalDeductions s) /\
  decimal 10 (InsertPayroll.netPay v) = Ok (InsertPayroll.netPay s).
Proof.
  unfold payroll_columns. intros H. column_by_column H.
  injection H as <-. repeat split; assumption || reflexivity.
Qed.

Lemma payroll_columns_employeeId (v s : InsertPayroll.t) :
  payroll_columns v = Ok s ->
  InsertPayroll.employeeId s = InsertPayroll.employeeId v.
Proof. intros H. apply (payroll_columns_fields v s H). Qed.

Lemma payroll_columns_payPeriod (v s : InsertPayroll.t) :
  payroll_columns v = Ok s ->
  varchar 7 (InsertPayroll.payPeriod v) = Ok (InsertPayroll.payPeriod s).
Proof. intros H. apply (payroll_columns_fields v s H). Qed.

(** Every currency field of a stored record is an amount of two
    decimals (or NaN). *)
Lemma payroll_columns_two_decimals (v s : InsertPayroll.t) :
  payroll_columns v = Ok s -> Forall two_decimal_text (currency_fields s).
Proof.
  intros H. apply payroll_columns_fields in H.
  destruct H as [_ [_ [_ [_ H]]]]. unfold currency_fields.
  repeat match type of H with
         | _ /\ _ => let H1 := fresh "H" in destruct H as [H1 H];
                     apply decimal_two_decimals in H1
         end.
  apply decimal_two_decimals in H.
  repeat (constructor; [assumption|]). constructor.
Qed.

(** What the columns make of a record depends on its texts only. *)
Lemma payroll_row_in_known (db : Db) (v : InsertPayroll.t) (e : Employee.t) :
  In e (employees db) -> InsertPayroll.employeeId v = Employee.id e ->
  payroll_row_in db v = payroll_columns v.
Proof.
  intros Hin Hid. unfold payroll_row_in.
  assert (Hex : existsb (fun x => Employee.id x =? InsertPayroll.employeeId v)
                        (employees db) = true).
  { apply existsb_exists. exists e. split; [exact Hin|].
    rewrite Hid. apply Z.eqb_refl. }
  rewrite Hex. reflexivity.
Qed.

Lemma payroll_row_in_columns (db : Db) (v s : InsertPayroll.t) :
  payroll_row_in db v = Ok s -> payroll_columns v = Ok s.
Proof.
  unfold payroll_row_in.
  destruct (existsb _ (employees db)); [auto | discriminate].
Qed.

Lemma payroll_rows_in_Forall2 (db : Db) (records stored : list InsertPayroll.t) :
  payroll_rows_in db records = Ok stored <->
  Forall2 (fun v s => payroll_row_in db v = Ok s) records stored.
Proof.
  revert stored. induction records as [|v rest IH]; intros stored; simpl.
  - split.
    + intros H. injection H as <-. constructor.
    + intros H. inversion H. reflexivity.
  - split.
    + intros H. destruct (payroll_row_in db v) as [s|] eqn:Hv;
        cbn [bind] in H; [|discriminate].
      destruct (payroll_rows_in db rest) as [ss|] eqn:Hr;
        cbn [bind] in H; [|discriminate].
      injection H as <-. constructor; [exact Hv|]. apply IH. reflexivity.
    + intros H. inversion H as [|? s ? ss Hv Hr]; subst.
      rewrite Hv. cbn [bind]. apply IH in Hr. rewrite Hr. reflexivity.
Qed.

Lemma payroll_rows_in_throw (db : Db) (records : list InsertPayroll.t) :
  (exists m, payroll_rows_in db records = Throw m) <->
  exists v m, In v records /\ payroll_row_in db v = Throw m.
Proof.
  induction records as [|v rest IH]; simpl.
  - split; [intros [m H]; discriminate | intros [v [m [[] _]]]].
  - split.
    + intros [m H]. destruct (payroll_row_in db v) as [s|m'] eqn:Hv;
        cbn [bind] in H.
      * destruct (payroll_rows_in db rest) as [ss|m''] eqn:Hr;
          cbn [bind] in H; [discriminate|].
        destruct (proj1 IH (ex_intro _ m'' eq_refl)) as [v' [m1 [Hin H1]]].
        exists v', m1. auto.
      * exists v, m'. auto.
    + intros [v' [m [[<-|Hin] Hv']]].
      * rewrite Hv'. cbn [bind]. eauto.
      * destruct (payroll_row_in db v) as [s|m'']; cbn [bind]; [|eauto].
        destruct (proj2 IH (ex_intro _ v' (ex_intro _ m (conj Hin Hv'))))
          as [m1 H1].
        rewrite H1. cbn [bind]. eauto.
Qed.

Lemma payroll_rows_in_length (db : Db) (records stored : list InsertPayroll.t) :
  payroll_rows_in db records = Ok stored ->
  List.length stored = List.length records.
Proof.
  intros H. apply payroll_rows_in_Forall2 in H.
  symmetry. apply (Forall2_length H).
Qed.

(** The stored records keep the employee ids, in order. *)
Lemma payroll_rows_in_ids (db : Db) (records stored : list InsertPayroll.t) :
  payroll_rows_in db records = Ok stored ->
  map InsertPayroll.employeeId stored = map InsertPayroll.employeeId records.
Proof.
  intros H. apply payroll_rows_in_Forall2 in H.
  induction H as [|v s vs ss Hv _ IH]; simpl; [reflexivity|].
  rewrite IH. f_equal.
  apply (payroll_columns_employeeId v s).
  apply (payroll_row_in_columns db v s Hv).
Qed.

(** What is stored depends on the records and on the ids of the
    employees only. *)
Lemma payroll_rows_in_ext (db1 db2 : Db) (records : list InsertPayroll.t) :
  map Employee.id (employees db1) = map Employee.id (employees db2) ->
  payroll_rows_in db1 records = payroll_rows_in db2 records.
Proof.
  intros Hids.
  assert (Hrow : forall v, payroll_row_in db1 v = payroll_row_in db2 v).
  { intros v. unfold payroll_row_in.
    assert (Hex : forall l,
               existsb (fun e => Employee.id e =? InsertPayroll.employeeId v) l
               = existsb (fun i => i =? InsertPayroll.employeeId v)
                         (map Employee.id l)).
    { induction l as [|e l IH]; simpl; [reflexivity|].
      rewrite IH. reflexivity. }
    rewrite !Hex, Hids. reflexivity. }
  induction records as [|v rest IH]; simpl; [reflexivity|].
  rewrite Hrow, IH. reflexivity.
Qed.

(* ================================================================== *)
(** ** What a generation run does *)
(* ================================================================== *)

Lemma employee_values_employeeId (db : Db) (p : string) (d : Date)
      (e : Employee.t) :
  InsertPayroll.employeeId (employee_values db p d e) = Employee.id e.
Proof. reflexivity. Qed.

Lemma employee_values_payPeriod (db : Db) (p : string) (d : Date)
      (e : Employee.t) :
  InsertPayroll.payPeriod (employee_values db p d e) = p.
Proof. reflexivity. Qed.

(** For the records of a run the foreign key holds: the stored records
    are what the columns make of the handed ones. *)
Lemma handed_values_stored (db : Db) (p : string) (d : Date)
      (stored : list InsertPayroll.t) :
  payroll_rows_in db (handed_values db p d) = Ok stored <->
  Forall2 (fun e s => payroll_columns (employee_values db p d e) = Ok s)
          (getEmployees db) stored.
Proof.
  rewrite payroll_rows_in_Forall2. unfold handed_values.
  assert (Hall : forall es,
             (forall e, In e es -> In e (employees db)) ->
             Forall2 (fun v s => payroll_row_in db v = Ok s)
                     (map (employee_values db p d) es) stored <->
             Forall2 (fun e s =>
                        payroll_columns (employee_values db p d e) = Ok s)
                     es stored).
  { intros es. revert stored.
    induction es as [|e es IH]; intros stored Hes; simpl.
    - split; intros H; inversion H; constructor.
    - assert (He : payroll_row_in db (employee_values db p d e)
                   = payroll_columns (employee_values db p d e)).
      { apply (payroll_row_in_known db _ e); [|reflexivity].
        apply Hes. left. reflexivity. }
      split; intros H; inversion H as [|? s ? ss Hv Hr]; subst;
        constructor.
      + rewrite <- He. exact Hv.
      + apply IH; [|exact Hr]. intros x Hx. apply Hes. right. exact Hx.
      + rewrite He. exact Hv.
      + apply IH; [|exact Hr]. intros x Hx. apply Hes. right. exact Hx. }
  apply Hall. intros e He. apply getEmployees_In in He. apply He.
Qed.

Lemma handed_values_refused (db : Db) (p : string) (d : Date) :
  (exists m, payroll_rows_in db (handed_values db p d) = Throw m) <->
  exists e m, In e (employees db) /\ Employee.isActive e = true /\
              payroll_columns (employee_values db p d e) = Throw m.
Proof.
  rewrite payroll_rows_in_throw. unfold handed_values. split.
  - intros [v [m [Hv Hm]]]. apply in_map_iff in Hv.
    destruct Hv as [e [<- He]]. apply getEmployees_In in He.
    destruct He as [Hin Hact]. exists e, m.
    rewrite <- (payroll_row_in_known db (employee_values db p d e) e Hin
                  eq_refl).
    auto.
  - intros [e [m [Hin [Hact Hm]]]].
    exists (employee_values db p d e), m. split.
    + apply in_map. apply getEmployees_In. auto.
    + rewrite (payroll_row_in_known db (employee_values db p d e) e Hin
                 eq_refl).
      exact Hm.
Qed.

Section GenerationFacts.

Variable cast_date : string -> option Date.

Lemma payroll_loop_ok (db : Db) (p : string) (d : Date)
      (es : list Employee.t) :
  cast_date p = Some d ->
  payroll_loop cast_date db p es = Ok (map (employee_values db p d) es).
Proof.
  intros Hd. induction es as [|e es IH]; simpl; [reflexivity|].
  unfold getMonthlyAttendance. rewrite Hd. simpl. rewrite IH. reflexivity.
Qed.

Lemma payroll_loop_throw (db : Db) (p : string) (es : list Employee.t) :
  cast_date p = None -> es <> [] ->
  payroll_loop cast_date db p es
  = Throw "invalid input syntax for type date".
Proof.
  intros Hd Hes. destruct es as [|e es]; [congruence|]. simpl.
  unfold getMonthlyAttendance. rewrite Hd. reflexivity.
Qed.

(** A run in terms of the records it hands over, when the period reads
    as [d] and some employee is active. *)
Lemma generate_insert (db : Db) (p : string) (d : Date) (now : timestamp) :
  cast_date p = Some d -> getEmployees db <> [] ->
  generatePayrollForPeriod cast_date db p now
  = stored <- payroll_rows_in db (handed_values db p d) ;;
    let rows := new_rows (payroll_id_seq db) now stored in
    Ok (rows,
        mkDb (employees db) (attendance db) (benefits db)
             (payroll db ++ rows)
             (payroll_id_seq db + Z.of_nat (List.length stored))).
Proof.
  intros Hd Hes. unfold generatePayrollForPeriod.
  rewrite (payroll_loop_ok db p d (getEmployees db) Hd). cbn [bind].
  unfold insert_payroll, handed_values.
  destruct (map (employee_values db p d) (getEmployees db)) eqn:Hm.
  - apply map_eq_nil in Hm. contradiction.
  - reflexivity.
Qed.

(** The rows and the database a run leaves. *)
Lemma generate_ok (db : Db) (p : string) (d : Date) (now : timestamp)
      (stored : list InsertPayroll.t) :
  cast_date p = Some d -> getEmployees db <> [] ->
  payroll_rows_in db (handed_values db p d) = Ok stored ->
  let rows := new_rows (payroll_id_seq db) now stored in
  generatePayrollForPeriod cast_date db p now =
  Ok (rows,
      mkDb (employees db) (attendance db) (benefits db) (payroll db ++ rows)
           (payroll_id_seq db + Z.of_nat (List.length stored))).
Proof.
  intros Hd Hes Hst. rewrite (generate_insert db p d now Hd Hes), Hst.
  reflexivity.
Qed.

(** A run that returns: the period was read, somebody is active, and
    the database took every record. *)
Lemma generate_returns (db : Db) (p : string) (now : timestamp)
      (rows : list Payroll.t) (db' : Db) :
  generatePayrollForPeriod cast_date db p now = Ok (rows, db') ->
  exists d stored,
    cast_date p = Some d /\ getEmployees db <> [] /\
    payroll_rows_in db (handed_values db p d) = Ok stored /\
    rows = new_rows (payroll_id_seq db) now stored /\
    db' = mkDb (employees db) (attendance db) (benefits db)
               (payroll db ++ rows)
               (payroll_id_seq db + Z.of_nat (List.length stored)).
Proof.
  intros Hgen.
  destruct (getEmployees db) as [|e0 es] eqn:He.
  { unfold generatePayrollForPeriod in Hgen. rewrite He in Hgen.
    discriminate. }
  assert (Hne : getEmployees db <> []) by (rewrite He; discriminate).
  destruct (cast_date p) as [d|] eqn:Hd.
  - rewrite (generate_insert db p d now Hd Hne) in Hgen.
    destruct (payroll_rows_in db (handed_values db p d)) as [stored|]
      eqn:Hst; cbn [bind] in Hgen; [|discriminate].
    injection Hgen as <- <-. exists d, stored.
    repeat split; try reflexivity; try assumption. discriminate.
  - unfold generatePayrollForPeriod in Hgen.
    rewrite (payroll_loop_throw db p (getEmployees db) Hd Hne) in Hgen.
    discriminate.
Qed.

(** A run throws exactly when nobody is active, or the database does
    not read the period as a date, or it refuses a record. *)
Lemma generate_throws (db : Db) (p : string) (now : timestamp) :
  (exists m, generatePayrollForPeriod cast_date db p now = Throw m) <->
  getEmployees db = [] \/ cast_date p = None \/
  exists d m, cast_date p = Some d /\
              payroll_rows_in db (handed_values db p d) = Throw m.
Proof.
  split.
  - intros [m Hm]. destruct (getEmployees db) as [|e es] eqn:He; [auto|].
    assert (Hne : getEmployees db <> []) by (rewrite He; discriminate).
    destruct (cast_date p) as [d|] eqn:Hd; [|auto]. right. right.
    rewrite (generate_insert db p d now Hd Hne) in Hm.
    destruct (payroll_rows_in db (handed_values db p d)) as [stored|m']
      eqn:Hst; cbn [bind] in Hm; [discriminate|].
    exists d, m'. auto.
  - intros [He|[Hd|[d [m [Hd Hst]]]]].
    + unfold generatePayrollForPeriod. rewrite He. simpl. eauto.
    + destruct (getEmployees db) as [|e es] eqn:He.
      * unfold generatePayrollForPeriod. rewrite He. simpl. eauto.
      * unfold generatePayrollForPeriod.
        rewrite (payroll_loop_throw db p (getEmployees db) Hd)
          by (rewrite He; discriminate).
        simpl. eauto.
    + destruct (getEmployees db) as [|e es] eqn:He.
      * unfold generatePayrollForPeriod. rewrite He. simpl. eauto.
      * assert (Hne : getEmployees db <> []) by (rewrite He; discriminate).
        rewrite (generate_insert db p d now Hd Hne), Hst. simpl. eauto.
Qed.

(** When the database does not read the period, every run throws. *)
Lemma generate_unread (db : Db) (p : string) (now : timestamp) :
  cast_date p = None ->
  exists m, generatePayrollForPeriod cast_date db p now = Throw m.
Proof.
  intros Hd. apply generate_throws. auto.
Qed.

End GenerationFacts.

(* ================================================================== *)
(** ** Pay and deductions of a generated record *)
(* ================================================================== *)

(** Adding the zero tax between two terms of the deductions cannot be
    seen in the text of the total: the sum differs at most in the sign
    of a zero. *)
Lemma toString_add_zero (x y : number) :
  toString (add (add x lit_0) y) = toString (add x y).
Proof.
  destruct x as [[|]|[|]| |sx mx ex], y as [[|]|[|]| |sy my ey];
    reflexivity.
Qed.

Lemma toString_lit_0 : toString lit_0 = "0"%string.
Proof. reflexivity. Qed.

(** The literals of the generator are the numbers their texts read as. *)
Lemma literals :
  toString lit_1_5 = "1.5"%string /\ toString lit_0_045 = "0.045"%string /\
  toString lit_0_02 = "0.02"%string /\ toString lit_100 = "100"%string.
Proof. vm_compute. repeat split. Qed.

(** What the columns store for the generator's constant texts. *)
Lemma decimal_known_values :
  decimal 10 "0" = Ok "0.00"%string /\
  decimal 10 "80000" = Ok "80000.00"%string /\
  decimal 10 "3937.5" = Ok "3937.50"%string /\
  decimal 10 "15263.234999999999" = Ok "15263.23"%string /\
  decimal 10 "245.11490999999998" = Ok "245.11"%string /\
  decimal 10 "5446.998" = Ok "5447.00"%string /\
  decimal 10 "-0.005" = Ok "-0.01"%string /\
  decimal 10 "5e-7" = Ok "0.00"%string /\
  decimal 10 "99999999.994" = Ok "99999999.99"%string /\
  decimal 10 "99999999.995" = Throw "numeric field overflow" /\
  decimal 10 "1e+21" = Throw "numeric field overflow" /\
  decimal 5 "1000" = Throw "numeric field overflow" /\
  decimal 10 "NaN" = Ok "NaN"%string /\
  decimal 10 "Infinity" = Throw "invalid input syntax for type numeric" /\
  decimal 10 "abc" = Throw "invalid input syntax for type numeric" /\
  varchar 7 "2024-01" = Ok "2024-01"%string /\
  varchar 7 "2024-01-01" = Throw "value too long for type character varying".
Proof. repeat split; vm_compute; reflexivity. Qed.

(** How PostgreSQL reads the period texts used below. *)
Lemma date_in_known_values :
  date_in "1/1/24" = Some (mkDate 2024 1 1) /\
  date_in "2/1/24" = Some (mkDate 2024 2 1) /\
  date_in "1/1/2024" = Some (mkDate 2024 1 1) /\
  date_in "12-31-99" = Some (mkDate 1999 12 31) /\
  date_in "2024-01-01" = Some (mkDate 2024 1 1) /\
  date_in "2024/1/5" = Some (mkDate 2024 1 5) /\
  date_in "2/29/24" = Some (mkDate 2024 2 29) /\
  date_in "2/29/23" = None /\
  date_in "13/1/24" = None /\
  date_in "2024-01" = None /\
  date_in "2024-13" = None /\
  date_in "2024" = None.
Proof. repeat split; vm_compute; reflexivity. Qed.

(** Evaluating the left-hand side of an equation. *)
Ltac compute_left H :=
  match type of H with
  | ?l = _ => let l' := eval vm_compute in l in
              change l with l' in H
  end.

Lemma Forall2_In_l (A B : Type) (P : A -> B -> Prop) (l : list A)
      (l' : list B) (a : A) :
  Forall2 P l l' -> In a l -> exists b, In b l' /\ P a b.
Proof.
  induction 1 as [|x y l l' Hxy _ IH]; simpl; [contradiction|].
  intros [<-|Hin]; [eauto|].
  destruct (IH Hin) as [b [Hb Hab]]. eauto.
Qed.

Lemma Forall2_In_r (A B : Type) (P : A -> B -> Prop) (l : list A)
      (l' : list B) (b : B) :
  Forall2 P l l' -> In b l' -> exists a, In a l /\ P a b.
Proof.
  induction 1 as [|x y l l' Hxy _ IH]; simpl; [contradiction|].
  intros [<-|Hin]; [eauto|].
  destruct (IH Hin) as [a [Ha Hab]]. eauto.
Qed.

(** Every row a run returns is the turn of an active employee: it holds
    what the columns made of the values handed over for that
    employee. *)
Lemma generated_row (cast_date : string -> option Date) (db : Db)
      (p : string) (d : Date) (now : timestamp)
      (rows : list Payroll.t) (db' : Db) (row : Payroll.t) :
  cast_date p = Some d ->
  generatePayrollForPeriod cast_date db p now = Ok (rows, db') ->
  In row rows ->
  exists employee,
    In employee (employees db) /\ Employee.isActive employee = true /\
    payroll_columns (employee_values db p d employee)
    = Ok (Payroll.values row).
Proof.
  intros Hd Hgen Hrow.
  destruct (generate_returns cast_date db p now rows db' Hgen)
    as [d' [stored [Hd' [_ [Hst [-> _]]]]]].
  rewrite Hd in Hd'. injection Hd' as <-.
  apply handed_values_stored in Hst. apply new_rows_In in Hrow.
  destruct (Forall2_In_r _ _ _ _ _ _ Hst Hrow) as [e [He Hv]].
  apply getEmployees_In in He. destruct He as [Hin Hact].
  exists e. auto.
Qed.

(** Every active employee has a row in what a run returns. *)
Lemma generated_row_of (cast_date : string -> option Date) (db : Db)
      (p : string) (d : Date) (now : timestamp)
      (rows : list Payroll.t) (db' : Db) (employee : Employee.t) :
  cast_date p = Some d ->
  generatePayrollForPeriod cast_date db p now = Ok (rows, db') ->
  In employee (employees db) -> Employee.isActive employee = true ->
  exists row,
    In row rows /\
    payroll_columns (employee_values db p d employee)
    = Ok (Payroll.values row).
Proof.
  intros Hd Hgen Hin Hact.
  destruct (generate_returns cast_date db p now rows db' Hgen)
    as [d' [stored [Hd' [_ [Hst [-> _]]]]]].
  rewrite Hd in Hd'. injection Hd' as <-.
  apply handed_values_stored in Hst.
  assert (Hget : In employee (getEmployees db))
    by (apply getEmployees_In; auto).
  destruct (Forall2_In_l _ _ _ _ _ _ Hst Hget) as [s [Hs Hv]].
  destruct (new_rows_of_In (payroll_id_seq db) now stored s Hs)
    as [row [Hrow Hval]].
  exists row. rewrite Hval. auto.
Qed.





(** C3 (amended).  Every record a generation run returns holds, in each
    currency field, what its column [decimal(10, 2)] stores -- the
    rounding to two decimals -- for a constant of the employee's turn,
    and those constants satisfy the accounting identities in the
    program's (binary64) arithmetic, taken left to right: grossPay =
    basePay + overtimePay + allowances + bonuses; totalDeductions =
    sssDeduction + philHealthDeduction + pagIbigDeduction +
    taxDeduction + otherDeductions (taxDeduction being 0); netPay =
    grossPay - totalDeductions.  Each stored field is an amount of two
    decimals, rounded on its own. *)
Theorem C3_identities_before_rounding
        (cast_date : string -> option Date) (db : Db) (p : string)
        (d : Date) (now : timestamp) (rows : list Payroll.t) (db' : Db)
        (row : Payroll.t) :
  cast_date p = Some d ->
  generatePayrollForPeriod cast_date db p now = Ok (rows, db') ->
  In row rows ->
  exists employee,
    In employee (employees db) /\
    Employee.isActive employee = true /\
    Payroll.employeeId row = Employee.id employee /\
    let a := employee_amounts db p d employee in
    let v := Payroll.values row in
    (* the fields are what the columns store for the constants *)
    (decimal 10 (toString (Amounts.basePay a))
     = Ok (InsertPayroll.basePay v) /\
     decimal 10 (toString (Amounts.overtimePay a))
     = Ok (InsertPayroll.overtimePay v) /\
     decimal 10 (toString (Amounts.allowances a))
     = Ok (InsertPayroll.allowances v) /\
     decimal 10 (toString (Amounts.bonuses a))
     = Ok (InsertPayroll.bonuses v) /\
     decimal 10 (toString (Amounts.grossPay a))
     = Ok (InsertPayroll.grossPay v) /\
     decimal 10 (toString (Amounts.sssDeduction a))
     = Ok (InsertPayroll.sssDeduction v) /\
     decimal 10 (toString (Amounts.philHealthDeduction a))
     = Ok (InsertPayroll.philHealthDeduction v) /\
     decimal 10 (toString (Amounts.pagIbigDeduction a))
     = Ok (InsertPayroll.pagIbigDeduction v) /\
     decimal 10 (toString lit_0) = Ok (InsertPayroll.taxDeduction v) /\
     decimal 10 (toString (Amounts.otherDeductions a))
     = Ok (InsertPayroll.otherDeductions v) /\
     decimal 10 (toString (Amounts.totalDeductions a))
     = Ok (InsertPayroll.totalDeductions v) /\
     decimal 10 (toString (Amounts.netPay a))
     = Ok (InsertPayroll.netPay v)) /\
    (* the identities, between the constants *)
    Amounts.grossPay a
    = add (add (add (Amounts.basePay a) (Amounts.overtimePay a))
               (Amounts.allowances a))
          (Amounts.bonuses a) /\
    toString (Amounts.totalDeductions a)
    = toString
        (add (add (add (add (Amounts.sssDeduction a)
                            (Amounts.philHealthDeduction a))
                       (Amounts.pagIbigDeduction a))
                  lit_0)
             (Amounts.otherDeductions a)) /\
    Amounts.netPay a
    = sub (Amounts.grossPay a) (Amounts.totalDeductions a) /\
    (* every stored field is an amount of two decimals *)
    Forall two_decimal_text (currency_fields v).
Proof.
  intros Hd Hgen Hrow.
  destruct (generated_row cast_date db p d now rows db' row Hd Hgen Hrow)
    as [employee [Hin [Hact Hv]]].
  exists employee. split; [exact Hin|]. split; [exact Hact|].
  pose proof (payroll_columns_two_decimals _ _ Hv) as Htwo.
  apply payroll_columns_fields in Hv.
  destruct Hv as [Hid [_ [_ [_ [Hbase [Hover [Hall [Hbon [Hgross [Hsss
                   [Hphil [Hpag [Htax [Hoth [Htot Hnet]]]]]]]]]]]]]]].
  split; [exact Hid|]. cbv zeta.
  split; [repeat split; assumption|].
  split; [reflexivity|].
  split; [|split; [reflexivity | exact Htwo]].
  unfold employee_amounts, payroll_amounts.
  cbn [Amounts.totalDeductions Amounts.sssDeduction
       Amounts.philHealthDeduction Amounts.pagIbigDeduction
       Amounts.otherDeductions].
  rewrite toString_add_zero. reflexivity.
Qed.

Lemma C3_witness :
  date_in Sample.january = Some (mkDate 2024 1 1) /\
  generatePayrollForPeriod date_in Sample.db Sample.january 1000
  = Ok (payroll Sample.after_january, Sample.after_january) /\
  exists row,
    In row (payroll Sample.after_january) /\
    Payroll.employeeId row = Employee.id Sample.ben /\
    InsertPayroll.basePay (Payroll.values row) = "30000.00"%string /\
    InsertPayroll.allowances (Payroll.values row) = "2000.00"%string /\
    InsertPayroll.grossPay (Payroll.values row) = "32000.00"%string /\
    InsertPayroll.totalDeductions (Payroll.values row) = "2980.00"%string /\
    InsertPayroll.netPay (Payroll.values row) = "29020.00"%string /\
    exists employee,
      Payroll.employeeId row = Employee.id employee /\
      let a := employee_amounts Sample.db Sample.january
                                (mkDate 2024 1 1) employee in
      decimal 10 (toString (Amounts.netPay a))
      = Ok (InsertPayroll.netPay (Payroll.values row)) /\
      Amounts.netPay a
      = sub (Amounts.grossPay a) (Amounts.totalDeductions a).
Proof.
  assert (Hd : date_in Sample.january = Some (mkDate 2024 1 1))
    by (vm_compute; reflexivity).
  assert (Hgen : generatePayrollForPeriod date_in Sample.db Sample.january
                                          1000
                 = Ok (payroll Sample.after_january, Sample.after_january))
    by (vm_compute; reflexivity).
  split; [exact Hd|]. split; [exact Hgen|].
  assert (Hrow : exists row, nth_error (payroll Sample.after_january) 1
                             = Some row)
    by (vm_compute; eauto).
  destruct Hrow as [row Hnth].
  assert (Hin : In row (payroll Sample.after_january))
    by (apply (nth_error_In _ 1 Hnth)).
  exists row. split; [exact Hin|].
  vm_compute in Hnth. injection Hnth as <-.
  repeat (split; [reflexivity|]).
  destruct (C3_identities_before_rounding date_in Sample.db Sample.january
              (mkDate 2024 1 1) 1000 (payroll Sample.after_january)
              Sample.after_january _ Hd Hgen Hin)
    as [employee [_ [_ [Hid [Hfields [_ [_ [Hnet _]]]]]]]].
  exists employee. split; [exact Hid|]. cbv zeta.
  split; [apply Hfields | exact Hnet].
Defined.

(** C3 as claimed fails on the stored record: Dan's record for January
    2024 holds sssDeduction 686.85, philHealthDeduction 686.85,
    pagIbigDeduction 100.00, taxDeduction 0.00, otherDeductions 0.00
    and totalDeductions 1473.69, and those deductions add up to
    1473.70.  (The constants are 686.8455..., twice, and 100, with the
    sum 1473.6911...; each is rounded on its own.) *)
Lemma C3_counterexample :
  match generatePayrollForPeriod date_in Sample.db Sample.january 1000
  with
  | Ok (rows, _) =>
      exists row,
        In row rows /\
        Payroll.employeeId row = Employee.id Sample.dan /\
        let v := Payroll.values row in
        InsertPayroll.sssDeduction v = numeric_out 68685 /\
        InsertPayroll.philHealthDeduction v = numeric_out 68685 /\
        InsertPayroll.pagIbigDeduction v = numeric_out 10000 /\
        InsertPayroll.taxDeduction v = numeric_out 0 /\
        InsertPayroll.otherDeductions v = numeric_out 0 /\
        InsertPayroll.totalDeductions v = numeric_out 147369 /\
        InsertPayroll.totalDeductions v = "1473.69"%string /\
        68685 + 68685 + 10000 + 0 + 0 <> 147369
  | Throw _ => False
  end.
Proof.
  assert (Hgen : generatePayrollForPeriod date_in Sample.db Sample.january
                                          1000
                 = Ok (payroll Sample.after_january, Sample.after_january))
    by (vm_compute; reflexivity).
  rewrite Hgen.
  assert (Hrow : exists row, nth_error (payroll Sample.after_january) 2
                             = Some row)
    by (vm_compute; eauto).
  destruct Hrow as [row Hnth].
  exists row. split; [apply (nth_error_In _ 2 Hnth)|].
  vm_compute in Hnth. injection Hnth as <-.
  repeat (split; [vm_compute; reflexivity|]). discriminate.
Qed.

(* ================================================================== *)
(** ** The pay period of the specification *)
(* ================================================================== *)

Lemma digit_is_no_separator (c sep : ascii) (v : Z) :
  digit_of c = Some v -> sep = "/"%char \/ sep = "-"%char ->
  Ascii.eqb c sep = false.
Proof.
  intros Hdigit Hsep. apply Ascii.eqb_neq. intros ->.
  destruct Hsep as [-> | ->]; vm_compute in Hdigit; discriminate.
Qed.

(** PostgreSQL reads no text of the form [YYYY-MM] as a date. *)
Lemma year_month_is_refused (p : string) :
  well_formed_period p = true -> date_in p = None.
Proof.
  unfold well_formed_period, parse_period.
  destruct p as [|y1 [|y2 [|y3 [|y4 [|dash [|m1 [|m2 [|c rest]]]]]]]];
    try discriminate;
    (destruct (Ascii.eqb_spec dash "-") as [->|Hdash];
     [|destruct dash as [[] [] [] [] [] [] [] []]; try discriminate;
       contradiction]);
    try discriminate.
  destruct (digit_of y1) as [a|] eqn:H1; [|discriminate].
  destruct (digit_of y2) as [b|] eqn:H2; [|discriminate].
  destruct (digit_of y3) as [c|] eqn:H3; [|discriminate].
  destruct (digit_of y4) as [e|] eqn:H4; [|discriminate].
  destruct (digit_of m1) as [f|] eqn:H5; [|discriminate].
  destruct (digit_of m2) as [g|] eqn:H6; [|discriminate].
  intros _. unfold date_in, date_fields. cbn [fields].
  rewrite (digit_is_no_separator y1 "/" a H1),
    (digit_is_no_separator y2 "/" b H2),
    (digit_is_no_separator y3 "/" c H3),
    (digit_is_no_separator y4 "/" e H4),
    (digit_is_no_separator m1 "/" f H5),
    (digit_is_no_separator m2 "/" g H6) by auto.
  change (Ascii.eqb "-" "/") with false. cbn iota.
  rewrite (digit_is_no_separator y1 "-" a H1),
    (digit_is_no_separator y2 "-" b H2),
    (digit_is_no_separator y3 "-" c H3),
    (digit_is_no_separator y4 "-" e H4),
    (digit_is_no_separator m1 "-" f H5),
    (digit_is_no_separator m2 "-" g H6) by auto.
  change (Ascii.eqb "-" "-") with true. cbn iota. reflexivity.
Qed.

(** So generation throws for every pay period [YYYY-MM], whatever the
    database holds. *)
Lemma year_month_generation_throws (db : Db) (p : string)
      (now : timestamp) :
  well_formed_period p = true ->
  exists m, generatePayrollForPeriod date_in db p now = Throw m.
Proof.
  intros Hp. apply generate_unread. apply year_month_is_refused. exact Hp.
Qed.

(** Scenario A on any database and under any period text the database
    reads: an active hourly employee at 500.00 with 160.00 hours and
    10.00 overtime hours in the month and no benefits for the period
    has, in what a run returns, a record with basePay 80000.00,
    overtimePay 7500.00, grossPay 87500.00, sssDeduction 3937.50,
    philHealthDeduction 3937.50, pagIbigDeduction 100.00,
    totalDeductions 7975.00 and netPay 79525.00. *)
Lemma scenario_A_record
      (cast_date : string -> option Date) (db : Db) (p : string)
      (d : Date) (now : timestamp) (rows : list Payroll.t) (db' : Db)
      (employee : Employee.t) :
  cast_date p = Some d ->
  generatePayrollForPeriod cast_date db p now = Ok (rows, db') ->
  In employee (employees db) ->
  Employee.isActive employee = true ->
  Employee.salaryType employee = "hourly"%string ->
  Employee.salaryRate employee = 50000 ->
  total (map Attendance.hoursWorked
             (attendance_rows db (Employee.id employee) d)) = 16000 ->
  total (map Attendance.overtime
             (attendance_rows db (Employee.id employee) d)) = 1000 ->
  getBenefits db (Some (Employee.id employee)) (Some p) = [] ->
  employee_amounts db p d employee
  = Amounts.mk (of_Z 80000) (of_Z 7500) lit_0 lit_0 (of_Z 87500)
               (of_fraction 39375 10) (of_fraction 39375 10) (of_Z 100)
               lit_0 (of_Z 7975) (of_Z 79525) /\
  exists row,
    In row rows /\
    Payroll.employeeId row = Employee.id employee /\
    let v := Payroll.values row in
    InsertPayroll.hoursWorked v = "160.00"%string /\
    InsertPayroll.overtimeHours v = "10.00"%string /\
    InsertPayroll.basePay v = "80000.00"%string /\
    InsertPayroll.overtimePay v = "7500.00"%string /\
    InsertPayroll.grossPay v = "87500.00"%string /\
    InsertPayroll.sssDeduction v = "3937.50"%string /\
    InsertPayroll.philHealthDeduction v = "3937.50"%string /\
    InsertPayroll.pagIbigDeduction v = "100.00"%string /\
    InsertPayroll.totalDeductions v = "7975.00"%string /\
    InsertPayroll.netPay v = "79525.00"%string.
Proof.
  intros Hd Hgen Hin Hact Hty Hrate Hhours Hover Hben.
  assert (Ha : employee_amounts db p d employee
               = Amounts.mk (of_Z 80000) (of_Z 7500) lit_0 lit_0
                   (of_Z 87500) (of_fraction 39375 10)
                   (of_fraction 39375 10) (of_Z 100) lit_0 (of_Z 7975)
                   (of_Z 79525)).
  { unfold employee_amounts, employee_attendance, employee_benefits,
      payroll_amounts.
    rewrite Hben, Hty, Hrate, !Number_or_0_sum, Hhours, Hover.
    vm_compute. reflexivity. }
  split; [exact Ha|].
  destruct (generated_row_of cast_date db p d now rows db' employee
              Hd Hgen Hin Hact) as [row [Hrow Hv]].
  exists row. split; [exact Hrow|].
  apply payroll_columns_fields in Hv.
  destruct Hv as [Hid [_ [Hh [Ho [Hbase [Hot [_ [_ [Hgross [Hsss
                   [Hphil [Hpag [_ [_ [Htot Hnet]]]]]]]]]]]]]]].
  split; [exact Hid|]. cbv zeta.
  unfold employee_values in Hh, Ho, Hbase, Hot, Hgross, Hsss, Hphil, Hpag,
    Htot, Hnet.
  rewrite Ha in Hbase, Hot, Hgross, Hsss, Hphil, Hpag, Htot, Hnet.
  unfold employee_attendance, payroll_values in *.
  rewrite !Number_or_0_sum, ?Hhours, ?Hover in Hh, Ho.
  cbn [InsertPayroll.hoursWorked InsertPayroll.overtimeHours
       InsertPayroll.basePay InsertPayroll.overtimePay
       InsertPayroll.grossPay InsertPayroll.sssDeduction
       InsertPayroll.philHealthDeduction InsertPayroll.pagIbigDeduction
       InsertPayroll.totalDeductions InsertPayroll.netPay
       totalHours overtimeHours
       Amounts.basePay Amounts.overtimePay Amounts.grossPay
       Amounts.sssDeduction Amounts.philHealthDeduction
       Amounts.pagIbigDeduction Amounts.totalDeductions Amounts.netPay]
    in Hh, Ho, Hbase, Hot, Hgross, Hsss, Hphil, Hpag, Htot, Hnet.
  compute_left Hh. compute_left Ho. compute_left Hbase. compute_left Hot.
  compute_left Hgross. compute_left Hsss. compute_left Hphil.
  compute_left Hpag. compute_left Htot. compute_left Hnet.
  repeat split; congruence.
Qed.

(** C4.  Scenario A does not produce its record for the pay period of
    the specification.  Ana is the employee of the scenario (hourly at
    500.00, 160.00 hours and 10.00 overtime hours in January 2024, no
    benefits).  PostgreSQL does not read the text 2024-01 -- nor any
    text of the form YYYY-MM -- as a date, so the generator's query
    [... = ${payPeriod}::date] raises, generation throws and the request
    is answered 500 with nothing inserted.  Under a text that the
    database reads as the first of January 2024, the same run returns
    Ana's record with the amounts of the scenario. *)
Theorem C4_scenario_A_period_is_refused :
  (Employee.salaryType Sample.ana = "hourly"%string /\
   Employee.salaryRate Sample.ana = 50000 /\
   Employee.isActive Sample.ana = true /\
   total (map Attendance.hoursWorked
              (attendance_rows Sample.db (Employee.id Sample.ana)
                               (mkDate 2024 1 1))) = 16000 /\
   total (map Attendance.overtime
              (attendance_rows Sample.db (Employee.id Sample.ana)
                               (mkDate 2024 1 1))) = 1000 /\
   getBenefits Sample.db (Some (Employee.id Sample.ana))
               (Some Sample.year_month) = [] /\
   getBenefits Sample.db (Some (Employee.id Sample.ana))
               (Some Sample.january) = []) /\
  (* the pay period of the specification *)
  well_formed_period Sample.year_month = true /\
  (forall p, well_formed_period p = true -> date_in p = None) /\
  generatePayrollForPeriod date_in Sample.db Sample.year_month 1000
  = Throw "invalid input syntax for type date" /\
  post_payroll_generate date_in Sample.db (Some Sample.year_month) 1000
  = (mkResponse 500 (Message "Failed to generate payroll"), Sample.db) /\
  (* the same month under a text the database reads *)
  date_in Sample.january = Some (mkDate 2024 1 1) /\
  exists rows db' row,
    generatePayrollForPeriod date_in Sample.db Sample.january 1000
    = Ok (rows, db') /\
    In row rows /\
    Payroll.employeeId row = Employee.id Sample.ana /\
    let v := Payroll.values row in
    InsertPayroll.basePay v = "80000.00"%string /\
    InsertPayroll.overtimePay v = "7500.00"%string /\
    InsertPayroll.grossPay v = "87500.00"%string /\
    InsertPayroll.sssDeduction v = "3937.50"%string /\
    InsertPayroll.philHealthDeduction v = "3937.50"%string /\
    InsertPayroll.pagIbigDeduction v = "100.00"%string /\
    InsertPayroll.totalDeductions v = "7975.00"%string /\
    InsertPayroll.netPay v = "79525.00"%string.
Proof.
  split; [repeat split; vm_compute; reflexivity|].
  split; [vm_compute; reflexivity|].
  split; [exact year_month_is_refused|].
  split; [vm_compute; reflexivity|].
  split; [vm_compute; reflexivity|].
  assert (Hd : date_in Sample.january = Some (mkDate 2024 1 1))
    by (vm_compute; reflexivity).
  split; [exact Hd|].
  assert (Hgen : generatePayrollForPeriod date_in Sample.db Sample.january
                                          1000
                 = Ok (payroll Sample.after_january, Sample.after_january))
    by (vm_compute; reflexivity).
  assert (Hin : In Sample.ana (employees Sample.db)) by (simpl; auto).
  destruct (scenario_A_record date_in Sample.db Sample.january
              (mkDate 2024 1 1) 1000 (payroll Sample.after_january)
              Sample.after_january Sample.ana Hd Hgen Hin)
    as [_ [row [Hrow [Hid H]]]];
    try (vm_compute; reflexivity).
  exists (payroll Sample.after_january), Sample.after_january, row.
  split; [exact Hgen|]. split; [exact Hrow|]. split; [exact Hid|].
  cbv zeta in H |- *. tauto.
Qed.

(* ================================================================== *)
(** ** Rows inserted by a run *)
(* ================================================================== *)

Lemma new_rows_length (next : Z) (now : timestamp)
      (records : list InsertPayroll.t) :
  List.length (new_rows next now records) = List.length records.
Proof.
  rewrite <- (new_rows_values next now records) at 2.
  symmetry. apply length_map.
Qed.

Lemma count_payroll_app (rows rows' : list Payroll.t) (i : Z) (p : string) :
  count_payroll (rows ++ rows') i p
  = (count_payroll rows i p + count_payroll rows' i p)%nat.
Proof.
  unfold count_payroll. rewrite filter_app. apply length_app.
Qed.

Lemma employee_values_inputs (db1 db2 : Db) (p : string) (d : Date)
      (e : Employee.t) :
  attendance db1 = attendance db2 ->
  benefits db1 = benefits db2 ->
  employee_values db1 p d e = employee_values db2 p d e.
Proof.
  intros Ha Hb.
  unfold employee_values, employee_amounts, employee_attendance,
    employee_benefits, attendance_rows, getBenefits.
  rewrite Ha, Hb. reflexivity.
Qed.

(** What a run hands over and what the database makes of it depend on
    the employee, attendance and benefit tables only. *)
Lemma handed_values_inputs (db1 db2 : Db) (p : string) (d : Date) :
  employees db1 = employees db2 ->
  attendance db1 = attendance db2 ->
  benefits db1 = benefits db2 ->
  handed_values db1 p d = handed_values db2 p d /\
  payroll_rows_in db1 (handed_values db1 p d)
  = payroll_rows_in db2 (handed_values db2 p d).
Proof.
  intros He Ha Hb.
  assert (Hh : handed_values db1 p d = handed_values db2 p d).
  { unfold handed_values, getEmployees. rewrite He. apply map_ext.
    intros e. apply employee_values_inputs; assumption. }
  split; [exact Hh|]. rewrite Hh. apply payroll_rows_in_ext.
  rewrite He. reflexivity.
Qed.

(** The database takes the records of a run exactly when the columns
    accept the record of every active employee. *)
Lemma handed_values_accepted (db : Db) (p : string) (d : Date) :
  (exists stored, payroll_rows_in db (handed_values db p d) = Ok stored) <->
  (forall e, In e (employees db) -> Employee.isActive e = true ->
             exists s, payroll_columns (employee_values db p d e) = Ok s).
Proof.
  split.
  - intros [stored Hst] e Hin Hact.
    destruct (payroll_columns (employee_values db p d e)) as [s|m] eqn:Hc;
      [eauto|].
    exfalso.
    destruct (proj2 (handed_values_refused db p d)) as [m' Hm'].
    { exists e, m. auto. }
    rewrite Hst in Hm'. discriminate.
  - intros Hall.
    destruct (payroll_rows_in db (handed_values db p d)) as [stored|m]
      eqn:Hst; [eauto|].
    exfalso.
    destruct (proj1 (handed_values_refused db p d)) as [e [m' [Hin [Hact Hm']]]].
    { eauto. }
    destruct (Hall e Hin Hact) as [s Hs]. rewrite Hs in Hm'. discriminate.
Qed.

(** The stored records of a run all have the period the column made of
    the period text. *)
Lemma stored_periods (db : Db) (p : string) (d : Date)
      (stored : list InsertPayroll.t) (s : InsertPayroll.t) :
  payroll_rows_in db (handed_values db p d) = Ok stored ->
  In s stored -> varchar 7 p = Ok (InsertPayroll.payPeriod s).
Proof.
  intros Hst Hs. apply handed_values_stored in Hst.
  destruct (Forall2_In_r _ _ _ _ _ _ Hst Hs) as [e [_ Hc]].
  apply payroll_columns_payPeriod in Hc. exact Hc.
Qed.

Lemma filter_length_map (A B : Type) (f : A -> B) (g : B -> bool)
      (l : list A) :
  List.length (filter (fun x => g (f x)) l)
  = List.length (filter g (map f l)).
Proof.
  rewrite filter_map_swap, length_map. reflexivity.
Qed.

(** With [id] a key of [employees], the rows of one run hold one record
    for an active employee and none for an inactive one. *)
Lemma generated_count (db : Db) (p : string) (d : Date) (next : Z)
      (now : timestamp) (stored : list InsertPayroll.t) (e : Employee.t) :
  NoDup (map Employee.id (employees db)) ->
  In e (employees db) ->
  payroll_rows_in db (handed_values db p d) = Ok stored ->
  count_employee (new_rows next now stored) (Employee.id e)
  = if Employee.isActive e then 1%nat else 0%nat.
Proof.
  intros Hkey Hin Hst. unfold count_employee, Payroll.employeeId.
  rewrite (filter_length_map _ _ Payroll.values
             (fun v => InsertPayroll.employeeId v =? Employee.id e)).
  rewrite new_rows_values.
  rewrite (filter_length_map _ _ InsertPayroll.employeeId
             (fun i => i =? Employee.id e)).
  rewrite (payroll_rows_in_ids db _ stored Hst).
  unfold handed_values. rewrite map_map.
  rewrite <- (filter_length_map _ _
                (fun x => InsertPayroll.employeeId (employee_values db p d x))
                (fun i => i =? Employee.id e)).
  cbn [employee_values payroll_values InsertPayroll.employeeId].
  unfold getEmployees.
  rewrite (filter_length_perm _ _ _ _
             (order_by_perm _ _ (filter Employee.isActive (employees db)))).
  rewrite filter_filter.
  rewrite (filter_ext _ (fun x => (Employee.id x =? Employee.id e)
                                  && Employee.isActive x))
    by (intros x; apply andb_comm).
  rewrite <- filter_filter, (filter_key _ Employee.id _ e Hkey Hin).
  simpl. destruct (Employee.isActive e); reflexivity.
Qed.

(** Counting by employee and by the one period of the rows is counting
    by employee. *)
Lemma count_payroll_one_period (rows : list Payroll.t) (i : Z)
      (p : string) :
  (forall row, In row rows -> Payroll.payPeriod row = p) ->
  count_payroll rows i p = count_employee rows i.
Proof.
  intros Hall. unfold count_payroll, count_employee. f_equal.
  apply filter_ext_in. intros row Hrow. rewrite (Hall row Hrow).
  rewrite String.eqb_refl. apply andb_true_r.
Qed.

(** C8 (amended).  One generation run, with [id] a key of the
    employees.  When it returns, it has inserted exactly one payroll
    record for each active employee and none for an inactive one, all
    with the period the column [varchar(7)] made of the period text,
    and the employee, attendance and benefit tables are as they were.
    Otherwise it throws and nothing is inserted, for no employee at
    all: that happens when no employee is active, when the database
    does not read the period text as a date, or when a column refuses
    the record of some active employee. *)
Theorem C8_one_record_per_active_employee
        (cast_date : string -> option Date) (db : Db) (p : string)
        (now : timestamp) :
  NoDup (map Employee.id (employees db)) ->
  match generatePayrollForPeriod cast_date db p now with
  | Ok (rows, db') =>
      employees db' = employees db /\
      attendance db' = attendance db /\
      benefits db' = benefits db /\
      payroll db' = payroll db ++ rows /\
      (forall row, In row rows ->
                   varchar 7 p = Ok (Payroll.payPeriod row)) /\
      (forall e, In e (employees db) ->
                 count_employee rows (Employee.id e)
                 = if Employee.isActive e then 1%nat else 0%nat) /\
      List.length rows
      = List.length (filter Employee.isActive (employees db))
  | Throw _ =>
      (forall e, In e (employees db) -> Employee.isActive e = false) \/
      cast_date p = None \/
      exists d e m,
        cast_date p = Some d /\
        In e (employees db) /\ Employee.isActive e = true /\
        payroll_columns (employee_values db p d e) = Throw m
  end.
Proof.
  intros Hkey.
  destruct (generatePayrollForPeriod cast_date db p now)
    as [[rows db']|m] eqn:Hgen.
  - destruct (generate_returns cast_date db p now rows db' Hgen)
      as [d [stored [Hd [Hne [Hst [-> ->]]]]]].
    cbn [employees attendance benefits payroll].
    repeat (split; [reflexivity|]).
    split; [|split].
    + intros row Hrow. apply new_rows_In in Hrow.
      apply (stored_periods db p d stored _ Hst Hrow).
    + intros e Hin. apply (generated_count db p d); assumption.
    + rewrite new_rows_length, (payroll_rows_in_length db _ _ Hst).
      unfold handed_values. rewrite length_map. unfold getEmployees.
      apply Permutation_length, order_by_perm.
  - destruct (proj1 (generate_throws cast_date db p now)
                    (ex_intro _ m Hgen))
      as [He|[Hd|[d [m' [Hd Hst]]]]].
    + left. apply getEmployees_nil in He.
      intros e Hin. destruct (Employee.isActive e) eqn:Hact; [|reflexivity].
      exfalso. assert (H : In e (filter Employee.isActive (employees db)))
        by (apply filter_In; auto).
      rewrite He in H. contradiction.
    + right. left. exact Hd.
    + right. right.
      destruct (proj1 (handed_values_refused db p d) (ex_intro _ m' Hst))
        as [e [m'' H]].
      exists d, e, m''. tauto.
Qed.

Lemma C8_witness :
  NoDup (map Employee.id (employees Sample.db)) /\
  exists rows db',
    generatePayrollForPeriod date_in Sample.db Sample.january 1000
    = Ok (rows, db') /\
    employees db' = employees Sample.db /\
    payroll db' = payroll Sample.db ++ rows /\
    List.length rows = 3%nat /\
    count_employee rows (Employee.id Sample.ana) = 1%nat /\
    count_employee rows (Employee.id Sample.cara) = 0%nat.
Proof.
  assert (Hkey : NoDup (map Employee.id (employees Sample.db))).
  { simpl. repeat constructor; simpl; intuition discriminate. }
  split; [exact Hkey|].
  pose proof (C8_one_record_per_active_employee date_in Sample.db
                Sample.january 1000 Hkey) as H.
  assert (Hgen : generatePayrollForPeriod date_in Sample.db Sample.january
                                          1000
                 = Ok (payroll Sample.after_january, Sample.after_january))
    by (vm_compute; reflexivity).
  rewrite Hgen in H.
  destruct H as [He [_ [_ [Hp [_ [Hcount Hlen]]]]]].
  exists (payroll Sample.after_january), Sample.after_january.
  split; [exact Hgen|]. split; [exact He|]. split; [exact Hp|].
  split; [exact Hlen|].
  split; [apply (Hcount Sample.ana) | apply (Hcount Sample.cara)];
    simpl; auto.
Defined.

(** C8 as claimed fails: with Ana at 1000000.00 an hour her base pay
    for January 2024 does not fit its column, the database refuses the
    INSERT, and the run throws without a record for anybody -- not for
    Ben and Dan either, who are active and whose records fit. *)
Lemma C8_counterexample :
  date_in Sample.january = Some (mkDate 2024 1 1) /\
  filter Employee.isActive (employees Later.overpaid)
  = [Later.ana_overpaid; Sample.ben; Sample.dan] /\
  generatePayrollForPeriod date_in Later.overpaid Sample.january 1000
  = Throw "numeric field overflow" /\
  (exists s, payroll_columns
               (employee_values Later.overpaid Sample.january
                                (mkDate 2024 1 1) Sample.ben) = Ok s) /\
  post_payroll_generate date_in Later.overpaid (Some Sample.january) 1000
  = (mkResponse 500 (Message "Failed to generate payroll"), Later.overpaid).
Proof.
  split; [vm_compute; reflexivity|]. split; [reflexivity|].
  split; [vm_compute; reflexivity|].
  split; [vm_compute; eauto | vm_compute; reflexivity].
Qed.

(** C5 (amended).  Generation neither rejects nor replaces on a period
    that already has records.  With [id] a key of the employees, after
    a run that returned, a second run for the same period returns too,
    with records of the same values, and the payroll table holds the
    rows of both: for every active employee and that period there is
    one record more after the first run and two more after the
    second. *)
Theorem C5_regeneration_adds_records
        (cast_date : string -> option Date) (db : Db) (p : string)
        (t1 t2 : timestamp) (rows1 : list Payroll.t) (db1 : Db) :
  NoDup (map Employee.id (employees db)) ->
  generatePayrollForPeriod cast_date db p t1 = Ok (rows1, db1) ->
  exists rows2 db2 period,
    generatePayrollForPeriod cast_date db1 p t2 = Ok (rows2, db2) /\
    map Payroll.values rows2 = map Payroll.values rows1 /\
    payroll db2 = (payroll db ++ rows1) ++ rows2 /\
    varchar 7 p = Ok period /\
    forall employee,
      In employee (employees db) -> Employee.isActive employee = true ->
      count_payroll (payroll db1) (Employee.id employee) period
      = (count_payroll (payroll db) (Employee.id employee) period + 1)%nat /\
      count_payroll (payroll db2) (Employee.id employee) period
      = (count_payroll (payroll db) (Employee.id employee) period + 2)%nat.
Proof.
  intros Hkey Hgen.
  destruct (generate_returns cast_date db p t1 rows1 db1 Hgen)
    as [d [stored [Hd [Hne [Hst [Hrows1 Hdb1]]]]]].
  assert (He1 : employees db1 = employees db) by (rewrite Hdb1; reflexivity).
  assert (Ha1 : attendance db1 = attendance db)
    by (rewrite Hdb1; reflexivity).
  assert (Hb1 : benefits db1 = benefits db) by (rewrite Hdb1; reflexivity).
  assert (Hp1 : payroll db1 = payroll db ++ rows1)
    by (rewrite Hdb1; reflexivity).
  destruct (handed_values_inputs db1 db p d He1 Ha1 Hb1) as [_ Hsame].
  assert (Hne1 : getEmployees db1 <> []).
  { unfold getEmployees in *. rewrite He1. exact Hne. }
  assert (Hst1 : payroll_rows_in db1 (handed_values db1 p d) = Ok stored)
    by (rewrite Hsame; exact Hst).
  pose proof (generate_ok cast_date db1 p d t2 stored Hd Hne1 Hst1) as H2.
  cbv zeta in H2.
  (* the period of the stored rows *)
  assert (Hperiod : exists period,
             varchar 7 p = Ok period /\
             forall s, In s stored -> InsertPayroll.payPeriod s = period).
  { destruct stored as [|s0 ss].
    - apply payroll_rows_in_length in Hst. unfold handed_values in Hst.
      rewrite length_map in Hst. destruct (getEmployees db);
        [contradiction | discriminate].
    - exists (InsertPayroll.payPeriod s0).
      assert (H0 : varchar 7 p = Ok (InsertPayroll.payPeriod s0))
        by (apply (stored_periods db p d _ s0 Hst); left; reflexivity).
      split; [exact H0|]. intros s Hs.
      pose proof (stored_periods db p d _ s Hst Hs) as H.
      rewrite H0 in H. injection H as H. symmetry. exact H. }
  destruct Hperiod as [period [Hvar Hall]].
  eexists _, _, period. split; [exact H2|].
  split; [rewrite Hrows1, !new_rows_values; reflexivity|].
  cbn [payroll]. split; [rewrite Hp1; reflexivity|].
  split; [exact Hvar|].
  intros employee Hin Hact.
  assert (Hcount : forall next now,
             count_payroll (new_rows next now stored) (Employee.id employee)
                           period = 1%nat).
  { intros next now. rewrite count_payroll_one_period.
    - rewrite (generated_count db p d next now stored employee Hkey Hin Hst).
      rewrite Hact. reflexivity.
    - intros row Hrow. apply new_rows_In in Hrow. apply Hall. exact Hrow. }
  rewrite Hp1, !count_payroll_app, Hrows1, !Hcount. split; lia.
Qed.

Lemma C5_witness :
  NoDup (map Employee.id (employees Sample.db)) /\
  generatePayrollForPeriod date_in Sample.db Sample.january 1000
  = Ok (payroll Sample.after_january, Sample.after_january) /\
  exists rows2 db2,
    generatePayrollForPeriod date_in Sample.after_january Sample.january
                             2000
    = Ok (rows2, db2) /\
    map Payroll.values rows2
    = map Payroll.values (payroll Sample.after_january) /\
    count_payroll (payroll db2) (Employee.id Sample.ana) Sample.january
    = 2%nat.
Proof.
  assert (Hkey : NoDup (map Employee.id (employees Sample.db))).
  { simpl. repeat constructor; simpl; intuition discriminate. }
  assert (Hgen : generatePayrollForPeriod date_in Sample.db Sample.january
                                          1000
                 = Ok (payroll Sample.after_january, Sample.after_january))
    by (vm_compute; reflexivity).
  split; [exact Hkey|]. split; [exact Hgen|].
  destruct (C5_regeneration_adds_records date_in Sample.db Sample.january
              1000 2000 (payroll Sample.after_january)
              Sample.after_january Hkey Hgen)
    as [rows2 [db2 [period [H2 [Hv [_ [Hvar H]]]]]]].
  exists rows2, db2. split; [exact H2|]. split; [exact Hv|].
  compute_left Hvar. injection Hvar as <-.
  destruct (H Sample.ana) as [_ Hc]; [simpl; auto | reflexivity |].
  unfold Sample.january. rewrite Hc. reflexivity.
Defined.

(** C5 as claimed fails: generating January 2024 twice on the sample
    company, under a text the database reads as a date, leaves two
    payroll records for Ana and that period. *)
Lemma C5_counterexample :
  date_in Sample.january = Some (mkDate 2024 1 1) /\
  match generatePayrollForPeriod date_in Sample.db Sample.january 1000
  with
  | Ok (_, db1) =>
      match generatePayrollForPeriod date_in db1 Sample.january 2000 with
      | Ok (_, db2) =>
          count_payroll (payroll db2) (Employee.id Sample.ana)
                        Sample.january = 2%nat
      | Throw _ => False
      end
  | Throw _ => False
  end.
Proof. split; vm_compute; reflexivity. Qed.

(* ================================================================== *)
(** ** The request handler and the pay-period token *)
(* ================================================================== *)

(** C6 (amended).  The handler checks only that a token is present: a
    missing or empty token is answered 400 "Pay period is required"
    with the database untouched and generation not run.  Any other
    token, well formed or not, is handed to generation as it is: the
    answer is 201 with the inserted rows when generation returns, and
    500 with the database untouched when it throws; it is never 400.
    Generation returns exactly when the database reads the token as a
    date, some employee is active, and the columns accept the record of
    every active employee. *)
Theorem C6_only_presence_is_checked
        (cast_date : string -> option Date) (db : Db) (now : timestamp) :
  (forall token,
      truthy_string token = false ->
      post_payroll_generate cast_date db token now
      = (mkResponse 400 (Message "Pay period is required"), db)) /\
  (forall p,
      p <> ""%string ->
      post_payroll_generate cast_date db (Some p) now
      = match generatePayrollForPeriod cast_date db p now with
        | Ok (rows, db') => (mkResponse 201 (Rows rows), db')
        | Throw _ =>
            (mkResponse 500 (Message "Failed to generate payroll"), db)
        end) /\
  (forall p,
      p <> ""%string ->
      let answer := post_payroll_generate cast_date db (Some p) now in
      (status (fst answer) = 201 \/
       status (fst answer) = 500 /\ snd answer = db) /\
      (status (fst answer) = 201 <->
       exists d,
         cast_date p = Some d /\
         (exists e, In e (employees db) /\ Employee.isActive e = true) /\
         (forall e, In e (employees db) -> Employee.isActive e = true ->
                    exists s,
                      payroll_columns (employee_values db p d e) = Ok s))).
Proof.
  assert (Hrun : forall p, p <> ""%string ->
            post_payroll_generate cast_date db (Some p) now
            = match generatePayrollForPeriod cast_date db p now with
              | Ok (rows, db') => (mkResponse 201 (Rows rows), db')
              | Throw _ =>
                  (mkResponse 500 (Message "Failed to generate payroll"), db)
              end).
  { intros p Hp. unfold post_payroll_generate, truthy_string.
    destruct (String.eqb_spec p ""); [contradiction | reflexivity]. }
  split; [|split].
  - intros token Hfalsy. unfold post_payroll_generate.
    destruct token as [p|]; [|reflexivity].
    rewrite Hfalsy. reflexivity.
  - exact Hrun.
  - intros p Hp. cbv zeta. rewrite (Hrun p Hp).
    destruct (generatePayrollForPeriod cast_date db p now)
      as [[rows db']|m] eqn:Hgen; cbn [fst snd status].
    + split; [left; reflexivity|]. split; [intros _|reflexivity].
      destruct (generate_returns cast_date db p now rows db' Hgen)
        as [d [stored [Hd [Hne [Hst _]]]]].
      exists d. split; [exact Hd|]. split.
      * destruct (getEmployees db) as [|e es] eqn:He; [contradiction|].
        exists e. apply getEmployees_In. rewrite He. left. reflexivity.
      * apply handed_values_accepted. eauto.
    + split; [right; split; reflexivity|].
      split; [discriminate|].
      intros [d [Hd [[e He] Hall]]]. exfalso.
      apply handed_values_accepted in Hall. destruct Hall as [stored Hst].
      assert (Hne : getEmployees db <> []).
      { intros Hnil. apply getEmployees_In in He. rewrite Hnil in He.
        contradiction. }
      rewrite (generate_ok cast_date db p d now stored Hd Hne Hst) in Hgen.
      discriminate.
Qed.

(** C6 as claimed fails.  The token 2024-13 is not a pay period, yet the
    request is not refused as a client error: it reaches generation,
    the database raises on the token, and the answer is the server
    error 500.  The token 1/1/24 is not a pay period either, and the
    request is not refused at all: generation runs and the answer is
    201 with three inserted records. *)
Lemma C6_counterexample :
  well_formed_period "2024-13" = false /\
  post_payroll_generate date_in Sample.db (Some "2024-13"%string) 1000
  = (mkResponse 500 (Message "Failed to generate payroll"), Sample.db) /\
  well_formed_period "1/1/24" = false /\
  post_payroll_generate date_in Sample.db (Some "1/1/24"%string) 1000
  = (mkResponse 201 (Rows (payroll Sample.after_january)),
     Sample.after_january) /\
  List.length (payroll Sample.after_january) = 3%nat.
Proof. repeat split; vm_compute; reflexivity. Qed.

(* ================================================================== *)
(** ** Deleting an employee *)
(* ================================================================== *)

(** C9. Deleting an employee is a soft delete.  No row is removed: the
    employee table keeps its rows and their ids in place.  In the rows
    with the given id the active flag is cleared and every attribute of
    the employee (name, email, position, salary rate and type,
    department, hire date) stays as it was; the one other column
    written is the bookkeeping stamp [updatedAt], set to the time of
    the call.  All other employee rows are unchanged, and so are the
    attendance, payroll and benefit tables, whichever employee their
    rows refer to. *)
Theorem C9_soft_delete (db : Db) (id : Z) (now : timestamp) :
  let db' := deleteEmployee db id now in
  map Employee.id (employees db') = map Employee.id (employees db) /\
  Forall2 (fun e e' =>
             if Employee.id e =? id then
               Employee.isActive e' = false /\
               Employee.updatedAt e' = Some now /\
               Employee.id e' = Employee.id e /\
               Employee.name e' = Employee.name e /\
               Employee.email e' = Employee.email e /\
               Employee.position e' = Employee.position e /\
               Employee.salaryRate e' = Employee.salaryRate e /\
               Employee.salaryType e' = Employee.salaryType e /\
               Employee.department e' = Employee.department e /\
               Employee.hireDate e' = Employee.hireDate e /\
               Employee.createdAt e' = Employee.createdAt e
             else e' = e)
          (employees db) (employees db') /\
  attendance db' = attendance db /\
  payroll db' = payroll db /\
  benefits db' = benefits db.
Proof.
  cbv zeta. unfold deleteEmployee. cbn [employees attendance payroll benefits].
  split; [|split; [|repeat split]].
  - induction (employees db) as [|e es IH]; simpl; [reflexivity|].
    rewrite IH. destruct (Employee.id e =? id); reflexivity.
  - induction (employees db) as [|e es IH]; simpl; constructor.
    + destruct (Employee.id e =? id); [repeat split | reflexivity].
    + exact IH.
Qed.

(** Next to the flag, the call stamps the row: deleting Ana at time 99
    is not [clear_active] alone, [updatedAt] goes from 0 to 99. *)
Example deleteEmployee_stamps_the_row :
  employees (deleteEmployee Sample.db 1 99)
  <> map (fun e => if Employee.id e =? 1 then clear_active e else e)
         (employees Sample.db) /\
  map Employee.updatedAt (employees Sample.db)
  = [Some 0; Some 0; Some 5; Some 0] /\
  map Employee.updatedAt (employees (deleteEmployee Sample.db 1 99))
  = [Some 99; Some 0; Some 5; Some 0] /\
  map Employee.isActive (employees (deleteEmployee Sample.db 1 99))
  = [false; true; false; true].
Proof.
  split; [|repeat split; reflexivity].
  intros H. apply (f_equal (map Employee.updatedAt)) in H.
  vm_compute in H. discriminate.
Qed.

(* ================================================================== *)
(** ** Which inputs a run depends on *)
(* ================================================================== *)

(** Two runs over databases with the same employee, attendance and
    benefit rows, whatever their payroll tables and whenever they run,
    both throw or both return, and then they return records of the same
    stored values. *)
Lemma generate_same_inputs
      (cast_date : string -> option Date) (db1 db2 : Db) (p : string)
      (now1 now2 : timestamp) :
  employees db1 = employees db2 ->
  attendance db1 = attendance db2 ->
  benefits db1 = benefits db2 ->
  match generatePayrollForPeriod cast_date db1 p now1,
        generatePayrollForPeriod cast_date db2 p now2 with
  | Ok (rows1, _), Ok (rows2, _) =>
      map Payroll.values rows1 = map Payroll.values rows2
  | Throw _, Throw _ => True
  | _, _ => False
  end.
Proof.
  intros He Ha Hb.
  assert (Hemp : getEmployees db1 = getEmployees db2)
    by (unfold getEmployees; rewrite He; reflexivity).
  destruct (cast_date p) as [d|] eqn:Hd.
  - assert (Hcase : getEmployees db1 = [] \/ getEmployees db1 <> [])
      by (destruct (getEmployees db1); [left | right]; congruence).
    destruct Hcase as [H1|Hne1].
    + unfold generatePayrollForPeriod. rewrite <- Hemp, H1. simpl. exact I.
    + assert (Hne2 : getEmployees db2 <> []) by (rewrite <- Hemp; exact Hne1).
      rewrite (generate_insert cast_date db1 p d now1 Hd Hne1).
      rewrite (generate_insert cast_date db2 p d now2 Hd Hne2).
      destruct (handed_values_inputs db1 db2 p d He Ha Hb) as [_ Hsame].
      rewrite Hsame.
      destruct (payroll_rows_in db2 (handed_values db2 p d)) as [stored|m];
        cbn [bind]; [|exact I].
      rewrite !new_rows_values. reflexivity.
  - destruct (generate_unread cast_date db1 p now1 Hd) as [m1 Hm1].
    destruct (generate_unread cast_date db2 p now2 Hd) as [m2 Hm2].
    rewrite Hm1, Hm2. exact I.
Qed.

(** C7 (amended).  The currency fields of a generated record are
    computed in binary64 floating point and stored at two decimals:
    the record holds what the columns [decimal(10, 2)] make -- the
    rounding to two decimals -- of the [toString] texts of the
    constants the generator computed in floating point for an active
    employee, from [Number(...)] of the decimal inputs (taxDeduction is
    the text 0), so every field of the record is an amount of two
    decimals.  Generation is repeatable: two runs over databases with
    the same employee, attendance and benefit rows, whatever their
    payroll tables and whenever they run, either both throw or return
    records with the same values, text for text. *)
Theorem C7_binary64_then_two_decimals
        (cast_date : string -> option Date) (db1 db2 : Db) (p : string)
        (now1 now2 : timestamp) :
  employees db1 = employees db2 ->
  attendance db1 = attendance db2 ->
  benefits db1 = benefits db2 ->
  match generatePayrollForPeriod cast_date db1 p now1,
        generatePayrollForPeriod cast_date db2 p now2 with
  | Ok (rows1, _), Ok (rows2, _) =>
      map Payroll.values rows1 = map Payroll.values rows2 /\
      exists d,
        cast_date p = Some d /\
        forall row, In row rows1 ->
          (exists employee,
              In employee (employees db1) /\
              Employee.isActive employee = true /\
              payroll_columns
                (payroll_values p employee
                   (employee_attendance db1 d employee)
                   (payroll_amounts employee
                      (employee_attendance db1 d employee)
                      (employee_benefits db1 p employee)))
              = Ok (Payroll.values row)) /\
          Forall two_decimal_text (currency_fields (Payroll.values row))
  | Throw _, Throw _ => True
  | _, _ => False
  end.
Proof.
  intros He Ha Hb.
  pose proof (generate_same_inputs cast_date db1 db2 p now1 now2 He Ha Hb)
    as Hsame.
  destruct (generatePayrollForPeriod cast_date db1 p now1)
    as [[rows1 db1']|m1] eqn:H1;
    destruct (generatePayrollForPeriod cast_date db2 p now2)
      as [[rows2 db2']|m2]; try exact Hsame.
  split; [exact Hsame|].
  destruct (generate_returns cast_date db1 p now1 rows1 db1' H1)
    as [d [_ [Hd _]]].
  exists d. split; [exact Hd|]. intros row Hrow.
  destruct (generated_row cast_date db1 p d now1 rows1 db1' row Hd H1 Hrow)
    as [employee [Hin [Hact Hv]]].
  split.
  - exists employee. auto.
  - apply (payroll_columns_two_decimals _ _ Hv).
Qed.

Lemma C7_witness :
  employees Sample.db = employees Sample.after_january /\
  attendance Sample.db = attendance Sample.after_january /\
  benefits Sample.db = benefits Sample.after_january /\
  payroll Sample.db <> payroll Sample.after_january /\
  match generatePayrollForPeriod date_in Sample.db Sample.january 1000,
        generatePayrollForPeriod date_in Sample.after_january
                                 Sample.january 2000 with
  | Ok (rows1, _), Ok (rows2, _) =>
      map Payroll.values rows1 = map Payroll.values rows2 /\
      forall row, In row rows1 ->
        Forall two_decimal_text (currency_fields (Payroll.values row))
  | _, _ => False
  end.
Proof.
  assert (He : employees Sample.db = employees Sample.after_january)
    by (vm_compute; reflexivity).
  assert (Ha : attendance Sample.db = attendance Sample.after_january)
    by (vm_compute; reflexivity).
  assert (Hb : benefits Sample.db = benefits Sample.after_january)
    by (vm_compute; reflexivity).
  split; [exact He|]. split; [exact Ha|]. split; [exact Hb|].
  split; [vm_compute; discriminate|].
  pose proof (C7_binary64_then_two_decimals date_in Sample.db
                Sample.after_january Sample.january 1000 2000 He Ha Hb)
    as H.
  assert (H1 : generatePayrollForPeriod date_in Sample.db Sample.january
                                        1000
               = Ok (payroll Sample.after_january, Sample.after_january))
    by (vm_compute; reflexivity).
  rewrite H1 in H |- *.
  destruct (generatePayrollForPeriod date_in Sample.after_january
                                     Sample.january 2000)
    as [[rows2 db2]|m]; [|exact H].
  destruct H as [Hv [d [_ Hall]]].
  split; [exact Hv|]. intros row Hrow. apply (Hall row Hrow).
Defined.

(** C7 as claimed fails: Dan is paid 100.35 an hour for 152.10 hours.
    In decimal arithmetic the base pay is 15263.235, which rounds to
    15263.24; the generator computes the binary64 product, which is
    below 15263.235, hands its text 15263.234999999999 to the INSERT,
    and the record holds 15263.23. *)
Lemma C7_counterexample :
  Employee.salaryRate Sample.dan = 10035 /\
  total (map Attendance.hoursWorked
             (attendance_rows Sample.db (Employee.id Sample.dan)
                              (mkDate 2024 1 1))) = 15210 /\
  (decimal_product 10035%Z 15210%Z == 15263235 # 1000)%Q /\
  round_half_away 15263235 (-1) = 1526324 /\
  (to_Q (Amounts.basePay
           (employee_amounts Sample.db Sample.january (mkDate 2024 1 1)
                             Sample.dan))
   < decimal_product 10035%Z 15210%Z)%Q /\
  InsertPayroll.basePay
    (employee_values Sample.db Sample.january (mkDate 2024 1 1) Sample.dan)
  = "15263.234999999999"%string /\
  match generatePayrollForPeriod date_in Sample.db Sample.january 1000
  with
  | Ok (rows, _) =>
      map (fun row => InsertPayroll.basePay (Payroll.values row))
          (filter (fun row => Payroll.employeeId row
                              =? Employee.id Sample.dan) rows)
      = [numeric_out 1526323] /\
      numeric_out 1526323 = "15263.23"%string
  | Throw _ => False
  end.
Proof.
  do 6 (split; [vm_compute; reflexivity|]).
  vm_compute. split; reflexivity.
Qed.

(* ================================================================== *)
(** ** Benefit rows the generator does not read *)
(* ================================================================== *)

Lemma filter_comm (A : Type) (f g : A -> bool) (l : list A) :
  filter f (filter g l) = filter g (filter f l).
Proof.
  rewrite !filter_filter. apply filter_ext. intros x. apply andb_comm.
Qed.

(** Dropping benefit rows from the table drops them from what
    [getBenefits] returns and leaves the order of the others. *)
Lemma getBenefits_keep (keep : Benefit.t -> bool) (db : Db)
      (i : option Z) (p : option string) :
  getBenefits (keep_benefits keep db) i p = filter keep (getBenefits db i p).
Proof.
  unfold getBenefits, keep_benefits. cbn [benefits].
  destruct (truthy_id i && truthy_string p);
    [|destruct (truthy_id i); [|destruct (truthy_string p)]];
    rewrite (filter_order_by _ _
               (fun a b => created_desc_total _ _)
               (fun a b c => created_desc_trans _ _ _));
    try rewrite filter_comm; reflexivity.
Qed.

Lemma statutory_not_read (b : Benefit.t) :
  statutory_type b = true -> read_type b = false.
Proof.
  unfold statutory_type, read_type, includes. simpl. intros H.
  repeat (apply orb_true_iff in H; destruct H as [H|H]);
    try discriminate; apply String.eqb_eq in H; rewrite H; reflexivity.
Qed.

Lemma read_kept_without_statutory (b : Benefit.t) :
  read_type b = true -> negb (statutory_type b) = true.
Proof.
  intros Hr. destruct (statutory_type b) eqn:Hs; [|reflexivity].
  rewrite (statutory_not_read b Hs) in Hr. discriminate.
Qed.

(** The constants of a turn are those over the rows of the four types
    read. *)
Lemma payroll_amounts_keep (keep : Benefit.t -> bool) (e : Employee.t)
      (m : MonthlyAttendance) (bs : list Benefit.t) :
  (forall b, read_type b = true -> keep b = true) ->
  payroll_amounts e m (filter keep bs) = payroll_amounts e m bs.
Proof.
  intros Hkeep. unfold payroll_amounts.
  rewrite !filter_filter_absorb; [reflexivity| | |];
    intros b Hb; apply Hkeep; unfold read_type, includes; simpl;
    unfold includes in Hb; simpl in Hb;
    repeat (apply orb_true_iff in Hb; destruct Hb as [Hb|Hb]);
    try discriminate; apply String.eqb_eq in Hb; rewrite Hb; reflexivity.
Qed.

Lemma employee_values_keep (keep : Benefit.t -> bool) (db : Db)
      (p : string) (d : Date) (e : Employee.t) :
  (forall b, read_type b = true -> keep b = true) ->
  employee_values (keep_benefits keep db) p d e = employee_values db p d e.
Proof.
  intros Hkeep.
  unfold employee_values, employee_amounts, employee_benefits.
  rewrite getBenefits_keep, payroll_amounts_keep by exact Hkeep.
  reflexivity.
Qed.

(** A run returns the same rows with or without the benefit rows [keep]
    drops, when [keep] lets every row of the four types through. *)
Lemma generate_keep (cast_date : string -> option Date)
      (keep : Benefit.t -> bool) (db : Db) (p : string) (now : timestamp) :
  (forall b, read_type b = true -> keep b = true) ->
  match generatePayrollForPeriod cast_date db p now,
        generatePayrollForPeriod cast_date (keep_benefits keep db) p now with
  | Ok (rows, _), Ok (rows', _) => rows' = rows
  | Throw _, Throw _ => True
  | _, _ => False
  end.
Proof.
  intros Hkeep. set (db' := keep_benefits keep db).
  assert (Hemp : getEmployees db' = getEmployees db) by reflexivity.
  destruct (cast_date p) as [d|] eqn:Hd.
  - assert (Hcase : getEmployees db = [] \/ getEmployees db <> [])
      by (destruct (getEmployees db); [left | right]; congruence).
    destruct Hcase as [Hnil|Hne].
    + unfold generatePayrollForPeriod. rewrite Hemp, Hnil. simpl. exact I.
    + rewrite (generate_insert cast_date db p d now Hd Hne).
      rewrite (generate_insert cast_date db' p d now Hd Hne).
      assert (Hh : handed_values db' p d = handed_values db p d).
      { unfold handed_values. rewrite Hemp. apply map_ext. intros e.
        apply employee_values_keep. exact Hkeep. }
      rewrite Hh, (payroll_rows_in_ext db' db) by reflexivity.
      destruct (payroll_rows_in db (handed_values db p d)) as [stored|m];
        cbn [bind]; [reflexivity | exact I].
  - destruct (generate_unread cast_date db p now Hd) as [m1 Hm1].
    destruct (generate_unread cast_date db' p now Hd) as [m2 Hm2].
    rewrite Hm1, Hm2. exact I.
Qed.

(** C10. Benefit rows of type SSS, PhilHealth or Pag-IBIG are of none
    of the four types the generator's filters select (Allowance, Bonus,
    13th_month, Deduction), and they have no effect on what a run
    returns: run on the database without those rows, generation throws
    if and only if it throws with them, and returns the very same
    payroll rows, field for field. *)
Theorem C10_statutory_rows_have_no_effect
        (cast_date : string -> option Date) (db : Db) (p : string)
        (now : timestamp) :
  (forall b, statutory_type b = true -> read_type b = false) /\
  match generatePayrollForPeriod cast_date db p now,
        generatePayrollForPeriod cast_date (without_statutory db) p now with
  | Ok (rows, _), Ok (rows', _) => rows' = rows
  | Throw _, Throw _ => True
  | _, _ => False
  end.
Proof.
  split; [exact statutory_not_read|].
  apply generate_keep. exact read_kept_without_statutory.
Qed.

(** Ben has an SSS entry of 580.00 for January 2024; his record's
    sssDeduction is 1440.00, the 4.5 percent of his gross pay of
    32000.00. *)
Example ben_sss_entry_unread :
  In Sample.ben_sss (employee_benefits Sample.db Sample.january Sample.ben) /\
  match generatePayrollForPeriod date_in Sample.db Sample.january 1000
  with
  | Ok (rows, _) =>
      map (fun row => (InsertPayroll.grossPay (Payroll.values row),
                       InsertPayroll.sssDeduction (Payroll.values row)))
          (filter (fun row => Payroll.employeeId row =? 2) rows)
      = [("32000.00"%string, "1440.00"%string)]
  | Throw _ => False
  end.
Proof. split; [vm_compute; auto | vm_compute; reflexivity]. Qed.

(* ================================================================== *)

Lemma distinct_NoDup (l : list Z) : distinct l = true -> NoDup l.
Proof.
  induction l as [|x l IH]; simpl; intros H; constructor.
  - apply andb_true_iff in H. destruct H as [H _].
    apply negb_true_iff in H. intros Hin.
    assert (Hex : existsb (Z.eqb x) l = true)
      by (apply existsb_exists; exists x; split; [exact Hin | apply Z.eqb_refl]).
    congruence.
  - apply IH. apply andb_true_iff in H. apply H.
Qed.

(* ================================================================== *)
(** ** More facts about ORDER BY *)
(* ================================================================== *)

Lemma String_leb_total (a b : string) :
  String.leb a b = true \/ String.leb b a = true.
Proof. apply String.leb_total. Qed.

Lemma compare_lt_trans (a b c : string) :
  String.compare a b = Lt -> String.compare b c = Lt ->
  String.compare a c = Lt.
Proof.
  intros Cab Cbc.
  apply (proj1 (String_as_OT.cmp_lt a b)) in Cab.
  apply (proj1 (String_as_OT.cmp_lt b c)) in Cbc.
  apply (proj2 (String_as_OT.cmp_lt a c)).
  exact (String_as_OT.lt_trans _ _ _ Cab Cbc).
Qed.

Lemma compare_refl (a : string) : String.compare a a = Eq.
Proof. apply (proj2 (String_as_OT.cmp_eq a a)). reflexivity. Qed.

Lemma String_leb_trans (a b c : string) :
  String.leb a b = true -> String.leb b c = true -> String.leb a c = true.
Proof.
  unfold String.leb. intros Hab Hbc.
  destruct (String.compare a b) eqn:Cab; try discriminate;
    destruct (String.compare b c) eqn:Cbc; try discriminate.
  - apply String.compare_eq_iff in Cab, Cbc. subst.
    rewrite compare_refl. reflexivity.
  - apply String.compare_eq_iff in Cab. subst. rewrite Cbc. reflexivity.
  - apply String.compare_eq_iff in Cbc. subst. rewrite Cab. reflexivity.
  - rewrite (compare_lt_trans a b c Cab Cbc). reflexivity.
Qed.

(** Sorting commutes with a change of the rows that the order does not
    see. *)
Lemma order_by_map (A B : Type) (le : B -> B -> bool) (f : A -> B)
      (l : list A) :
  order_by le (map f l) = map f (order_by (fun a b => le (f a) (f b)) l).
Proof.
  induction l as [|x l IH]; simpl; [reflexivity|].
  rewrite IH. generalize (order_by (fun a b => le (f a) (f b)) l) as s.
  induction s as [|y s IHs]; simpl; [reflexivity|].
  destruct (le (f x) (f y)); simpl; [reflexivity|].
  rewrite IHs. reflexivity.
Qed.

Lemma order_by_ext (A : Type) (le le' : A -> A -> bool) (l : list A) :
  (forall a b, le a b = le' a b) -> order_by le l = order_by le' l.
Proof.
  intros H. induction l as [|x l IH]; simpl; [reflexivity|].
  rewrite IH. generalize (order_by le' l) as s.
  induction s as [|y s IHs]; simpl; [reflexivity|].
  rewrite H, IHs. reflexivity.
Qed.

(* ================================================================== *)
(** ** Deleted employees: lookups, listings and later runs *)
(* ================================================================== *)

(** What [deleteEmployee] makes of a row. *)
Lemma deleteEmployee_rows (db : Db) (i : Z) (now : timestamp) :
  employees (deleteEmployee db i now)
  = map (fun e => if Employee.id e =? i
                  then Employee.mk (Employee.id e) (Employee.name e)
                         (Employee.email e) (Employee.position e)
                         (Employee.salaryRate e) (Employee.salaryType e)
                         (Employee.department e) (Employee.hireDate e)
                         false (Employee.createdAt e) (Some now)
                  else e)
        (employees db).
Proof. reflexivity. Qed.

Lemma active_after_delete (i : Z) (now : timestamp) (l : list Employee.t) :
  filter Employee.isActive
    (map (fun e => if Employee.id e =? i
                   then Employee.mk (Employee.id e) (Employee.name e)
                          (Employee.email e) (Employee.position e)
                          (Employee.salaryRate e) (Employee.salaryType e)
                          (Employee.department e) (Employee.hireDate e)
                          false (Employee.createdAt e) (Some now)
                   else e) l)
  = filter (fun e => negb (Employee.id e =? i)) (filter Employee.isActive l).
Proof.
  induction l as [|e l IH]; simpl; [reflexivity|].
  destruct (Employee.id e =? i) eqn:Hi; simpl.
  - rewrite IH. destruct (Employee.isActive e); simpl;
      [rewrite Hi|]; reflexivity.
  - rewrite IH. destruct (Employee.isActive e); simpl;
      [rewrite Hi|]; reflexivity.
Qed.

Lemma getEmployees_after_delete (db : Db) (i : Z) (now : timestamp) :
  getEmployees (deleteEmployee db i now)
  = filter (fun e => negb (Employee.id e =? i)) (getEmployees db).
Proof.
  unfold getEmployees. rewrite deleteEmployee_rows, active_after_delete.
  symmetry. apply filter_order_by.
  - intros a b. apply String_leb_total.
  - intros a b c. apply String_leb_trans.
Qed.

(** X1. After [deleteEmployee], the listing of employees is the listing
    of before without the rows of the deleted id, in the same order
    (the order of the stable sort by name): nobody else disappears and
    nobody is reordered. *)
Theorem deleted_employee_leaves_the_listing
        (db : Db) (id : Z) (now : timestamp) :
  getEmployees (deleteEmployee db id now)
  = filter (fun e => negb (Employee.id e =? id)) (getEmployees db) /\
  (forall e, In e (getEmployees (deleteEmployee db id now)) ->
             Employee.id e <> id) /\
  (forall e, In e (getEmployees db) -> Employee.id e <> id ->
             In e (getEmployees (deleteEmployee db id now))).
Proof.
  pose proof (getEmployees_after_delete db id now) as H.
  split; [exact H|]. rewrite H. split.
  - intros e He. apply filter_In in He. destruct He as [_ He].
    apply negb_true_iff, Z.eqb_neq in He. exact He.
  - intros e He Hid. apply filter_In. split; [exact He|].
    apply negb_true_iff, Z.eqb_neq. exact Hid.
Qed.

Lemma first_row_map (A B : Type) (f : A -> B) (l : list A) :
  first_row (map f l) = option_map f (first_row l).
Proof. destruct l; reflexivity. Qed.

(** X2. A deleted employee is still found by id: [getEmployee] returns
    the same row as before with the active flag cleared (and the stamp
    set), and it finds and misses the same ids as before. *)
Theorem deleted_employee_is_still_found
        (db : Db) (id : Z) (now : timestamp) (j : Z) :
  match getEmployee db j, getEmployee (deleteEmployee db id now) j with
  | Some e, Some e' =>
      Employee.id e' = Employee.id e /\
      Employee.name e' = Employee.name e /\
      Employee.email e' = Employee.email e /\
      Employee.position e' = Employee.position e /\
      Employee.salaryRate e' = Employee.salaryRate e /\
      Employee.salaryType e' = Employee.salaryType e /\
      Employee.department e' = Employee.department e /\
      Employee.hireDate e' = Employee.hireDate e /\
      Employee.isActive e'
      = (if j =? id then false else Employee.isActive e)
  | None, None => True
  | _, _ => False
  end.
Proof.
  unfold getEmployee. rewrite deleteEmployee_rows.
  set (g := fun e : Employee.t => if Employee.id e =? id then _ else e).
  assert (Hf : filter (fun e => Employee.id e =? j) (map g (employees db))
               = map g (filter (fun e => Employee.id e =? j) (employees db))).
  { rewrite filter_map_swap. f_equal. apply filter_ext. intros e.
    unfold g. destruct (Employee.id e =? id); reflexivity. }
  rewrite Hf, first_row_map.
  destruct (filter (fun e => Employee.id e =? j) (employees db))
    as [|e l] eqn:He; simpl; [exact I|].
  assert (Hj : Employee.id e = j).
  { assert (Hin : In e (filter (fun e => Employee.id e =? j) (employees db)))
      by (rewrite He; left; reflexivity).
    apply filter_In in Hin. apply Z.eqb_eq. apply Hin. }
  unfold g. rewrite Hj. destruct (j =? id); simpl; repeat split; auto.
Qed.

(** X3. Deleting an id that no employee row has changes nothing at
    all: the database after the call is the database before. *)
Theorem deleteEmployee_absent_id_changes_nothing
        (db : Db) (id : Z) (now : timestamp) :
  (forall e, In e (employees db) -> Employee.id e <> id) ->
  deleteEmployee db id now = db.
Proof.
  intros Habs. destruct db as [es att bs pr sq]. unfold deleteEmployee.
  cbn [employees attendance benefits payroll payroll_id_seq] in *.
  f_equal. rewrite <- (map_id es) at 2. apply map_ext_in.
  intros e He. destruct (Z.eqb_spec (Employee.id e) id); [|reflexivity].
  exfalso. apply (Habs e He). assumption.
Qed.

Lemma deleteEmployee_absent_id_witness :
  (forall e, In e (employees Sample.db) -> Employee.id e <> 99) /\
  deleteEmployee Sample.db 99 7 = Sample.db.
Proof.
  assert (H : forall e, In e (employees Sample.db) -> Employee.id e <> 99).
  { intros e He. simpl in He.
    destruct He as [<-|[<-|[<-|[<-|[]]]]]; discriminate. }
  split; [exact H|].
  exact (deleteEmployee_absent_id_changes_nothing Sample.db 99 7 H).
Defined.

(** X4. Deleting an employee twice is deleting once: the second call
    changes nothing but the stamp. *)
Theorem deleteEmployee_twice_is_once
        (db : Db) (id : Z) (t1 t2 : timestamp) :
  deleteEmployee (deleteEmployee db id t1) id t2 = deleteEmployee db id t2.
Proof.
  unfold deleteEmployee.
  cbn [employees attendance benefits payroll payroll_id_seq].
  f_equal. rewrite map_map. apply map_ext. intros e.
  destruct (Employee.id e =? id) eqn:Hi; simpl; rewrite Hi; reflexivity.
Qed.

Lemma employee_values_id (db : Db) (p : string) (d : Date) (e : Employee.t) :
  InsertPayroll.employeeId (employee_values db p d e) = Employee.id e.
Proof. reflexivity. Qed.

(** The stored records of a part of the handed ones, picked by
    employee id, are that part of the stored records. *)
Lemma payroll_rows_in_filter (db : Db) (keep : Z -> bool)
      (records stored : list InsertPayroll.t) :
  payroll_rows_in db records = Ok stored ->
  payroll_rows_in db
    (filter (fun v => keep (InsertPayroll.employeeId v)) records)
  = Ok (filter (fun s => keep (InsertPayroll.employeeId s)) stored).
Proof.
  rewrite payroll_rows_in_Forall2. intros H.
  induction H as [|v s vs ss Hv _ IH]; simpl; [reflexivity|].
  rewrite (payroll_columns_employeeId v s (payroll_row_in_columns db v s Hv)).
  destruct (keep (InsertPayroll.employeeId v)); [|exact IH].
  simpl. rewrite Hv. cbn [bind]. rewrite IH. reflexivity.
Qed.

(** X5. A run after [deleteEmployee], for a period the database reads
    as a date.  When the run without the deletion returns, the run
    after it returns the same records less those of the deleted id,
    value for value and in the same order, and throws when that leaves
    none.  When the run without the deletion throws, the run after it
    throws too, unless a record the database refused was one of the
    deleted employee. *)
Theorem run_after_delete_drops_only_the_deleted
        (cast_date : string -> option Date) (db : Db) (id : Z)
        (now : timestamp) (p : string) (d : Date) (t t' : timestamp) :
  cast_date p = Some d ->
  let others v := negb (InsertPayroll.employeeId v =? id) in
  match generatePayrollForPeriod cast_date db p t,
        generatePayrollForPeriod cast_date (deleteEmployee db id now) p t'
  with
  | Ok (rows, _), Ok (rows', _) =>
      map Payroll.values rows' = filter others (map Payroll.values rows)
  | Ok (rows, _), Throw _ => filter others (map Payroll.values rows) = []
  | Throw _, Ok _ =>
      exists e m,
        In e (employees db) /\ Employee.isActive e = true /\
        Employee.id e = id /\
        payroll_columns (employee_values db p d e) = Throw m
  | Throw _, Throw _ => True
  end.
Proof.
  intros Hd others. set (db' := deleteEmployee db id now).
  pose proof (getEmployees_after_delete db id now) as Hlist.
  fold db' in Hlist. subst others.
  set (others := fun v => negb (InsertPayroll.employeeId v =? id)).
  assert (Hvals : filter others (handed_values db p d)
                  = handed_values db' p d).
  { unfold handed_values. rewrite Hlist, filter_map_swap. apply map_ext.
    intros e. symmetry. apply employee_values_inputs; reflexivity. }
  assert (Hids : map Employee.id (employees db')
                 = map Employee.id (employees db)).
  { unfold db'. rewrite deleteEmployee_rows, map_map. apply map_ext.
    intros e. destruct (Employee.id e =? id); reflexivity. }
  assert (Hin' : payroll_rows_in db' (handed_values db' p d)
                 = payroll_rows_in db (filter others (handed_values db p d))).
  { rewrite Hvals. apply payroll_rows_in_ext. exact Hids. }
  assert (Hcase : forall x : Db, getEmployees x = [] \/ getEmployees x <> [])
    by (intros x; destruct (getEmployees x); [left | right]; congruence).
  destruct (Hcase db) as [Hnil|Hne].
  { assert (Hnil' : getEmployees db' = [])
      by (rewrite Hlist, Hnil; reflexivity).
    unfold generatePayrollForPeriod. rewrite Hnil, Hnil'. simpl. exact I. }
  rewrite (generate_insert cast_date db p d t Hd Hne).
  destruct (payroll_rows_in db (handed_values db p d)) as [stored|m] eqn:Hst;
    cbn [bind].
  - (* the run without the deletion returns *)
    pose proof (payroll_rows_in_filter db (fun i => negb (i =? id)) _ _ Hst)
      as Hf.
    cbv beta in Hf. fold others in Hf.
    rewrite new_rows_values.
    destruct (Hcase db') as [Hnil'|Hne'].
    + unfold generatePayrollForPeriod at 1. rewrite Hnil'. simpl.
      unfold handed_values in Hvals at 2. rewrite Hnil' in Hvals.
      simpl in Hvals. rewrite Hvals in Hf. simpl in Hf.
      injection Hf as Hf. symmetry. exact Hf.
    + rewrite (generate_insert cast_date db' p d t' Hd Hne'), Hin', Hf.
      cbn [bind]. rewrite new_rows_values. reflexivity.
  - (* the run without the deletion throws *)
    destruct (Hcase db') as [Hnil'|Hne'].
    + unfold generatePayrollForPeriod at 1. rewrite Hnil'. simpl. exact I.
    + rewrite (generate_insert cast_date db' p d t' Hd Hne'), Hin'.
      destruct (payroll_rows_in db (filter others (handed_values db p d)))
        as [stored'|m'] eqn:Hst'; cbn [bind]; [|exact I].
      destruct (proj1 (handed_values_refused db p d) (ex_intro _ m Hst))
        as [e [m1 [Hin [Hact Hm1]]]].
      exists e, m1. split; [exact Hin|]. split; [exact Hact|].
      split; [|exact Hm1].
      destruct (Z.eqb_spec (Employee.id e) id) as [Heq|Hneq]; [exact Heq|].
      exfalso.
      assert (Hthrow : exists m2,
                 payroll_rows_in db (filter others (handed_values db p d))
                 = Throw m2).
      { apply payroll_rows_in_throw.
        exists (employee_values db p d e), m1. split.
        - apply filter_In. split.
          + unfold handed_values. apply in_map. apply getEmployees_In. auto.
          + unfold others. cbn [employee_values payroll_values
                                InsertPayroll.employeeId].
            apply negb_true_iff, Z.eqb_neq. exact Hneq.
        - rewrite (payroll_row_in_known db (employee_values db p d e) e Hin
                     eq_refl).
          exact Hm1. }
      destruct Hthrow as [m2 Hm2]. rewrite Hm2 in Hst'. discriminate.
Qed.

Lemma run_after_delete_witness :
  date_in Sample.january = Some (mkDate 2024 1 1) /\
  generatePayrollForPeriod date_in Sample.db Sample.january 1000
  = Ok (payroll Sample.after_january, Sample.after_january) /\
  let others v := negb (InsertPayroll.employeeId v =? 2) in
  match generatePayrollForPeriod date_in (deleteEmployee Sample.db 2 500)
                                 Sample.january 2000
  with
  | Ok (rows', _) =>
      map Payroll.values rows'
      = filter others (map Payroll.values (payroll Sample.after_january)) /\
      List.length rows' = 2%nat
  | Throw _ => False
  end.
Proof.
  assert (Hd : date_in Sample.january = Some (mkDate 2024 1 1))
    by (vm_compute; reflexivity).
  assert (Hgen : generatePayrollForPeriod date_in Sample.db Sample.january
                                          1000
                 = Ok (payroll Sample.after_january, Sample.after_january))
    by (vm_compute; reflexivity).
  split; [exact Hd|]. split; [exact Hgen|].
  pose proof (run_after_delete_drops_only_the_deleted
                date_in Sample.db 2 500 Sample.january (mkDate 2024 1 1)
                1000 2000 Hd) as H.
  cbv zeta in H |- *. rewrite Hgen in H.
  destruct (generatePayrollForPeriod date_in (deleteEmployee Sample.db 2 500)
                                     Sample.january 2000)
    as [[rows' db']|m].
  - split; [exact H|].
    apply (f_equal (@List.length InsertPayroll.t)) in H.
    rewrite length_map in H. rewrite H. vm_compute. reflexivity.
  - vm_compute in H. discriminate.
Defined.

(* ================================================================== *)
(** ** The payroll listing *)
(* ================================================================== *)

Lemma getPayroll_joined (db : Db) (p : string) :
  getPayroll db p
  = order_by
      (fun a b => String.leb (Employee.name (PayrollWithEmployee.employee a))
                             (Employee.name (PayrollWithEmployee.employee b)))
      (joined (employees db)
              (filter (fun r => String.eqb (Payroll.payPeriod r) p)
                      (payroll db))).
Proof. reflexivity. Qed.

Lemma joined_rows (es : list Employee.t) (rows : list Payroll.t) :
  NoDup (map Employee.id es) ->
  (forall r, In r rows ->
             exists e, In e es /\ Employee.id e = Payroll.employeeId r) ->
  map PayrollWithEmployee.row (joined es rows) = rows.
Proof.
  intros Hkey. induction rows as [|r rows IH]; intros Hfk; simpl;
    [reflexivity|].
  destruct (Hfk r (or_introl eq_refl)) as [e [He Hid]].
  rewrite map_app, IH by (intros r' Hr'; apply Hfk; right; exact Hr').
  rewrite (filter_ext _ (fun x => Employee.id x =? Employee.id e))
    by (intros x; rewrite Hid; reflexivity).
  rewrite (filter_key _ Employee.id es e Hkey He). reflexivity.
Qed.

Lemma getPayroll_rows (db : Db) (p : string) :
  NoDup (map Employee.id (employees db)) ->
  (forall r, In r (payroll db) ->
             exists e, In e (employees db)
                       /\ Employee.id e = Payroll.employeeId r) ->
  Permutation (map PayrollWithEmployee.row (getPayroll db p))
              (filter (fun r => String.eqb (Payroll.payPeriod r) p)
                      (payroll db)).
Proof.
  intros Hkey Hfk. rewrite getPayroll_joined.
  eapply perm_trans.
  - apply Permutation_map, order_by_perm.
  - rewrite joined_rows; [apply Permutation_refl | exact Hkey |].
    intros r Hr. apply filter_In in Hr. apply Hfk, Hr.
Qed.

(** X6. With [id] a key of the employees and every payroll row
    referring to an employee row, [getPayroll] lists each payroll row
    of the period exactly once, whether its employee is active or not,
    each with the employee row of its [employeeId]. *)
Theorem getPayroll_lists_each_record_once
        (db : Db) (p : string) :
  NoDup (map Employee.id (employees db)) ->
  (forall r, In r (payroll db) ->
             exists e, In e (employees db)
                       /\ Employee.id e = Payroll.employeeId r) ->
  Permutation (map PayrollWithEmployee.row (getPayroll db p))
              (filter (fun r => String.eqb (Payroll.payPeriod r) p)
                      (payroll db)) /\
  forall x, In x (getPayroll db p) ->
            In (PayrollWithEmployee.employee x) (employees db) /\
            Employee.id (PayrollWithEmployee.employee x)
            = Payroll.employeeId (PayrollWithEmployee.row x).
Proof.
  intros Hkey Hfk. split; [apply getPayroll_rows; assumption|].
  rewrite getPayroll_joined.
  - intros x Hx. apply order_by_In in Hx. unfold joined in Hx.
    apply in_flat_map in Hx. destruct Hx as [r [_ Hx]].
    apply in_map_iff in Hx. destruct Hx as [e [<- He]].
    apply filter_In in He. destruct He as [He Hid].
    apply Z.eqb_eq in Hid. split; [exact He | exact Hid].
Qed.

Lemma getPayroll_lists_witness :
  NoDup (map Employee.id (employees Sample.after_january)) /\
  (forall r, In r (payroll Sample.after_january) ->
             exists e, In e (employees Sample.after_january)
                       /\ Employee.id e = Payroll.employeeId r) /\
  Permutation
    (map PayrollWithEmployee.row
         (getPayroll Sample.after_january Sample.january))
    (filter (fun r => String.eqb (Payroll.payPeriod r) Sample.january)
            (payroll Sample.after_january)) /\
  forall x, In x (getPayroll Sample.after_january Sample.january) ->
            In (PayrollWithEmployee.employee x)
               (employees Sample.after_january) /\
            Employee.id (PayrollWithEmployee.employee x)
            = Payroll.employeeId (PayrollWithEmployee.row x).
Proof.
  assert (Hkey : NoDup (map Employee.id (employees Sample.after_january))).
  { apply distinct_NoDup. vm_compute. reflexivity. }
  assert (Hfk : forall r, In r (payroll Sample.after_january) ->
                  exists e, In e (employees Sample.after_january)
                            /\ Employee.id e = Payroll.employeeId r).
  { intros r Hr. vm_compute in Hr.
    destruct Hr as [<-|[<-|[<-|[]]]];
      [exists Sample.ana | exists Sample.ben | exists Sample.dan];
      (split; [vm_compute; auto 10 | reflexivity]). }
  split; [exact Hkey|]. split; [exact Hfk|].
  exact (getPayroll_lists_each_record_once
           Sample.after_january Sample.january Hkey Hfk).
Defined.

(** X7. Deleting an employee removes nothing from the payroll listing
    of any period: the same payroll rows are listed in the same order
    (the order of the stable sort by name), each with the same employee
    row, which for the deleted id now has
    the active flag cleared. *)
Theorem deleted_employee_keeps_payroll_listing
        (db : Db) (id : Z) (now : timestamp) (p : string) :
  let listing := getPayroll db p in
  let listing' := getPayroll (deleteEmployee db id now) p in
  map PayrollWithEmployee.row listing'
  = map PayrollWithEmployee.row listing /\
  Forall2 (fun x x' =>
             let e := PayrollWithEmployee.employee x in
             let e' := PayrollWithEmployee.employee x' in
             Employee.id e' = Employee.id e /\
             Employee.name e' = Employee.name e /\
             Employee.position e' = Employee.position e /\
             Employee.isActive e'
             = (if Employee.id e =? id then false
                else Employee.isActive e))
          listing listing'.
Proof.
  cbv zeta. rewrite !getPayroll_joined, deleteEmployee_rows.
  cbn [payroll deleteEmployee].
  set (g := fun e : Employee.t => if Employee.id e =? id then _ else e).
  set (G := fun x => PayrollWithEmployee.mk (PayrollWithEmployee.row x)
                       (g (PayrollWithEmployee.employee x))).
  set (rows := filter (fun r => String.eqb (Payroll.payPeriod r) p)
                      (payroll db)).
  assert (Hj : joined (map g (employees db)) rows
               = map G (joined (employees db) rows)).
  { unfold joined. induction rows as [|r rows IH]; simpl; [reflexivity|].
    rewrite map_app, IH. f_equal.
    rewrite filter_map_swap, !map_map.
    rewrite (filter_ext (fun a => Employee.id (g a) =? Payroll.employeeId r)
                        (fun e => Employee.id e =? Payroll.employeeId r)).
    - reflexivity.
    - intros e. unfold g. destruct (Employee.id e =? id); reflexivity. }
  rewrite Hj, order_by_map.
  rewrite (order_by_ext _ _
             (fun a b => String.leb
                           (Employee.name (PayrollWithEmployee.employee a))
                           (Employee.name (PayrollWithEmployee.employee b)))).
  2:{ intros a b. unfold G, g. cbn [PayrollWithEmployee.employee].
      destruct (Employee.id (PayrollWithEmployee.employee a) =? id),
               (Employee.id (PayrollWithEmployee.employee b) =? id);
        reflexivity. }
  generalize (order_by
                (fun a b => String.leb
                              (Employee.name (PayrollWithEmployee.employee a))
                              (Employee.name (PayrollWithEmployee.employee b)))
                (joined (employees db) rows)) as l.
  intros l. split.
  - rewrite map_map. reflexivity.
  - induction l as [|x l IH]; simpl; constructor; [|exact IH].
    unfold G, g. cbn [PayrollWithEmployee.employee].
    destruct (Employee.id (PayrollWithEmployee.employee x) =? id);
      repeat split; reflexivity.
Qed.

(* ================================================================== *)
(** ** Looking up what was inserted *)
(* ================================================================== *)

Lemma key_injective (A : Type) (key : A -> Z) (l : list A) (a b : A) :
  NoDup (map key l) -> In a l -> In b l -> key a = key b -> a = b.
Proof.
  intros Hkey Ha Hb Hab.
  pose proof (filter_key A key l a Hkey Ha) as Hf.
  assert (Hin : In b (filter (fun x => key x =? key a) l)).
  { apply filter_In. split; [exact Hb|]. apply Z.eqb_eq. congruence. }
  rewrite Hf in Hin. destruct Hin as [<-|[]]. reflexivity.
Qed.

Lemma length_zero_nil (A : Type) (l : list A) :
  List.length l = 0%nat -> l = [].
Proof. destruct l; [reflexivity | discriminate]. Qed.

(** X8. Generation and lookup: for an active employee with no payroll
    row for the period yet (ids being a key, the period text no longer
    than the seven characters of its column), after a run that returned
    [getEmployeePayroll] returns one of the rows the run returned,
    holding what the columns stored of the values computed for that
    employee. *)
Theorem generated_record_is_found
        (cast_date : string -> option Date) (db : Db) (p : string)
        (d : Date) (now : timestamp) (employee : Employee.t)
        (rows : list Payroll.t) (db' : Db) :
  cast_date p = Some d ->
  (String.length p <= 7)%nat ->
  NoDup (map Employee.id (employees db)) ->
  In employee (employees db) ->
  Employee.isActive employee = true ->
  count_payroll (payroll db) (Employee.id employee) p = 0%nat ->
  generatePayrollForPeriod cast_date db p now = Ok (rows, db') ->
  exists row,
    getEmployeePayroll db' (Employee.id employee) p = Some row /\
    In row rows /\
    payroll_columns (employee_values db p d employee)
    = Ok (Payroll.values row).
Proof.
  intros Hd Hlen Hkey Hin Hact Hnone Hgen.
  destruct (generate_returns cast_date db p now rows db' Hgen)
    as [d' [stored [Hd' [Hne [Hst [Hrows Hdb']]]]]].
  rewrite Hd in Hd'. injection Hd' as <-.
  assert (Hperiod : forall row, In row rows -> Payroll.payPeriod row = p).
  { intros row Hrow. rewrite Hrows in Hrow. apply new_rows_In in Hrow.
    pose proof (stored_periods db p d stored _ Hst Hrow) as H.
    rewrite (varchar_short 7 p Hlen) in H. injection H as H.
    symmetry. exact H. }
  pose proof (generated_count db p d (payroll_id_seq db) now stored employee
                Hkey Hin Hst) as Hcount.
  rewrite <- Hrows, Hact in Hcount.
  rewrite <- (count_payroll_one_period rows (Employee.id employee) p Hperiod)
    in Hcount.
  unfold count_payroll in Hcount, Hnone.
  set (mine := fun r => (Payroll.employeeId r =? Employee.id employee)
                        && String.eqb (Payroll.payPeriod r) p) in *.
  destruct (filter mine rows) as [|row [|row2 rest]] eqn:Hf;
    try discriminate.
  exists row.
  assert (Hrow : In row (filter mine rows)) by (rewrite Hf; left; reflexivity).
  apply filter_In in Hrow. destruct Hrow as [Hrow Hmine].
  split; [|split; [exact Hrow|]].
  - unfold getEmployeePayroll. rewrite Hdb'. cbn [payroll]. fold mine.
    rewrite filter_app, (length_zero_nil _ _ Hnone), Hf. reflexivity.
  - destruct (generated_row cast_date db p d now rows db' row Hd Hgen Hrow)
      as [e [He [_ Hv]]].
    assert (Heq : e = employee).
    { apply (key_injective _ Employee.id (employees db) e employee Hkey He
               Hin).
      unfold mine in Hmine. apply andb_true_iff in Hmine.
      destruct Hmine as [Hid _]. apply Z.eqb_eq in Hid.
      unfold Payroll.employeeId in Hid.
      rewrite (payroll_columns_employeeId _ _ Hv) in Hid. exact Hid. }
    rewrite <- Heq. exact Hv.
Qed.

Lemma generated_record_witness :
  date_in Sample.january = Some (mkDate 2024 1 1) /\
  (String.length Sample.january <= 7)%nat /\
  NoDup (map Employee.id (employees Sample.db)) /\
  In Sample.ana (employees Sample.db) /\
  Employee.isActive Sample.ana = true /\
  count_payroll (payroll Sample.db) (Employee.id Sample.ana) Sample.january
  = 0%nat /\
  generatePayrollForPeriod date_in Sample.db Sample.january 1000
  = Ok (payroll Sample.after_january, Sample.after_january) /\
  exists row,
    getEmployeePayroll Sample.after_january (Employee.id Sample.ana)
                       Sample.january
    = Some row /\
    In row (payroll Sample.after_january) /\
    InsertPayroll.netPay (Payroll.values row) = "79525.00"%string.
Proof.
  assert (Hd : date_in Sample.january = Some (mkDate 2024 1 1))
    by (vm_compute; reflexivity).
  assert (Hlen : (String.length Sample.january <= 7)%nat)
    by (vm_compute; lia).
  assert (Hkey : NoDup (map Employee.id (employees Sample.db))).
  { apply distinct_NoDup. vm_compute. reflexivity. }
  assert (Hin : In Sample.ana (employees Sample.db)).
  { simpl. auto. }
  assert (Hgen : generatePayrollForPeriod date_in Sample.db Sample.january
                                          1000
                 = Ok (payroll Sample.after_january, Sample.after_january))
    by (vm_compute; reflexivity).
  split; [exact Hd|]. split; [exact Hlen|]. split; [exact Hkey|].
  split; [exact Hin|]. split; [reflexivity|]. split; [reflexivity|].
  split; [exact Hgen|].
  destruct (generated_record_is_found
              date_in Sample.db Sample.january (mkDate 2024 1 1) 1000
              Sample.ana (payroll Sample.after_january) Sample.after_january
              Hd Hlen Hkey Hin eq_refl eq_refl Hgen)
    as [row [Hfound [Hrow Hv]]].
  exists row. split; [exact Hfound|]. split; [exact Hrow|].
  apply payroll_columns_fields in Hv.
  destruct Hv as [_ [_ [_ [_ [_ [_ [_ [_ [_ [_ [_ [_ [_ [_ [_ Hnet]]]]]]]]]]]]]]].
  compute_left Hnet. congruence.
Defined.

(* ================================================================== *)
(** ** Payroll ids *)
(* ================================================================== *)

Lemma new_rows_ids (next : Z) (now : timestamp)
      (records : list InsertPayroll.t) :
  NoDup (map Payroll.id (new_rows next now records)) /\
  Forall (fun r => next <= Payroll.id r
                   < next + Z.of_nat (List.length records))
         (new_rows next now records).
Proof.
  revert next. induction records as [|v records IH]; intros next.
  - split; constructor.
  - destruct (IH (next + 1)) as [Hnd Hall]. simpl new_rows. split.
    + simpl. constructor; [|exact Hnd].
      intros Hin. apply in_map_iff in Hin. destruct Hin as [r [Hid Hr]].
      rewrite Forall_forall in Hall. specialize (Hall r Hr). lia.
    + constructor.
      * cbn [Payroll.id]. change (List.length (v :: records))
          with (S (List.length records)). lia.
      * eapply Forall_impl; [|exact Hall]. intros r Hr.
        change (List.length (v :: records)) with (S (List.length records)).
        cbv beta in Hr. lia.
Qed.

Lemma keyed_append (rows new : list Payroll.t) (seq seq' : Z) :
  NoDup (map Payroll.id rows) ->
  Forall (fun r => Payroll.id r < seq) rows ->
  NoDup (map Payroll.id new) ->
  Forall (fun r => seq <= Payroll.id r < seq') new ->
  seq <= seq' ->
  NoDup (map Payroll.id (rows ++ new)) /\
  Forall (fun r => Payroll.id r < seq') (rows ++ new).
Proof.
  intros Hnd Hlt Hnd' Hin Hle. rewrite Forall_forall in Hlt, Hin. split.
  - rewrite map_app. apply NoDup_app; [exact Hnd | exact Hnd' |].
    intros i Hi Hi'. apply in_map_iff in Hi, Hi'.
    destruct Hi as [r [<- Hr]]. destruct Hi' as [r' [Heq Hr']].
    specialize (Hlt r Hr). specialize (Hin r' Hr'). lia.
  - apply Forall_forall. intros r Hr. apply in_app_or in Hr.
    destruct Hr as [Hr|Hr]; [specialize (Hlt r Hr) | specialize (Hin r Hr)];
      lia.
Qed.

Lemma keyed_filter (keep : Payroll.t -> bool) (rows : list Payroll.t)
      (seq : Z) :
  NoDup (map Payroll.id rows) ->
  Forall (fun r => Payroll.id r < seq) rows ->
  NoDup (map Payroll.id (filter keep rows)) /\
  Forall (fun r => Payroll.id r < seq) (filter keep rows).
Proof.
  intros Hnd Hlt. split.
  - induction rows as [|r rows IH]; simpl; [constructor|].
    inversion Hnd as [|? ? Hr Hnd']; subst.
    inversion Hlt as [|? ? _ Hlt']; subst.
    destruct (keep r); simpl; [constructor|]; auto.
    intros Hin. apply Hr. apply in_map_iff in Hin.
    destruct Hin as [x [Hx Hxin]]. apply filter_In in Hxin.
    apply in_map_iff. exists x. tauto.
  - rewrite Forall_forall in *. intros r Hr. apply filter_In in Hr.
    apply Hlt, Hr.
Qed.

(** Payroll ids stay a key under every operation that writes: a
    generation run, [createPayroll], [deletePayroll] and the deletions
    in other tables leave the ids of the payroll rows distinct and
    below the sequence. *)
Lemma payroll_keyed_kept
        (cast_date : string -> option Date) (db : Db) :
  payroll_keyed db ->
  (forall p now rows db',
      generatePayrollForPeriod cast_date db p now = Ok (rows, db') ->
      payroll_keyed db') /\
  (forall v now newPayroll db',
      createPayroll db v now = Ok (newPayroll, db') -> payroll_keyed db') /\
  (forall i, payroll_keyed (deletePayroll db i)) /\
  (forall i now, payroll_keyed (deleteEmployee db i now)) /\
  (forall i, payroll_keyed (deleteAttendance db i)) /\
  (forall i, payroll_keyed (deleteBenefit db i)).
Proof.
  intros [Hnd Hlt]. split; [|split; [|split; [|repeat split; assumption]]].
  - intros p now rows db' Hgen.
    destruct (generate_returns cast_date db p now rows db' Hgen)
      as [d [stored [_ [_ [_ [-> ->]]]]]].
    unfold payroll_keyed. cbn [payroll payroll_id_seq].
    destruct (new_rows_ids (payroll_id_seq db) now stored) as [Hnd' Hin].
    apply (keyed_append _ _ (payroll_id_seq db)); try assumption. lia.
  - intros v now newPayroll db' Hcreate. unfold createPayroll in Hcreate.
    destruct (payroll_row_in db v) as [s|]; cbn [bind] in Hcreate;
      [|discriminate].
    injection Hcreate as <- <-. unfold payroll_keyed.
    cbn [payroll payroll_id_seq].
    apply (keyed_append _ _ (payroll_id_seq db)); try assumption.
    + simpl. repeat constructor. intros [].
    + repeat constructor; cbn [Payroll.id]; lia.
    + lia.
  - intros i. unfold payroll_keyed, deletePayroll.
    cbn [payroll payroll_id_seq]. apply keyed_filter; assumption.
Qed.

(** X9. [createPayroll] returns the row as the database stored it: the
    given employee id and, column by column, what [varchar(7)] and the
    decimal columns made of the given texts.  Deleting that row again
    by the id that was returned leaves the payroll table as it was
    (only the sequence has moved on), when ids are a key below the
    sequence.  The call throws, and stores nothing, exactly when the
    employee id refers to no employee or a column refuses its text. *)
Theorem create_then_delete_payroll
        (db : Db) (v : InsertPayroll.t) (now : timestamp) :
  payroll_keyed db ->
  match createPayroll db v now with
  | Ok (newPayroll, db1) =>
      payroll_columns v = Ok (Payroll.values newPayroll) /\
      (exists e, In e (employees db)
                 /\ Employee.id e = InsertPayroll.employeeId v) /\
      In newPayroll (payroll db1) /\
      payroll (deletePayroll db1 (Payroll.id newPayroll)) = payroll db /\
      payroll_id_seq (deletePayroll db1 (Payroll.id newPayroll))
      = payroll_id_seq db + 1
  | Throw _ =>
      (forall e, In e (employees db) ->
                 Employee.id e <> InsertPayroll.employeeId v) \/
      exists m, payroll_columns v = Throw m
  end.
Proof.
  intros [_ Hlt]. unfold createPayroll, payroll_row_in.
  destruct (existsb (fun e => Employee.id e =? InsertPayroll.employeeId v)
                    (employees db)) eqn:Hfk.
  - destruct (payroll_columns v) as [s|m] eqn:Hc; cbn [bind];
      [|right; eauto].
    unfold deletePayroll.
    cbn [payroll payroll_id_seq Payroll.id Payroll.values].
    split; [reflexivity|]. split.
    { apply existsb_exists in Hfk. destruct Hfk as [e [He Hid]].
      exists e. split; [exact He|]. apply Z.eqb_eq. exact Hid. }
    split; [apply in_or_app; right; left; reflexivity|].
    split; [|reflexivity].
    rewrite filter_app. simpl. rewrite Z.eqb_refl. simpl. rewrite app_nil_r.
    rewrite (filter_ext_in _ (fun _ => true)).
    + generalize (payroll db) as l. intros l.
      induction l as [|r l IH]; simpl; [reflexivity | rewrite IH; reflexivity].
    + intros r Hr. rewrite Forall_forall in Hlt. specialize (Hlt r Hr).
      apply negb_true_iff, Z.eqb_neq. lia.
  - cbn [bind]. left. intros e He Hid.
    assert (Hex : existsb (fun e => Employee.id e
                                    =? InsertPayroll.employeeId v)
                          (employees db) = true).
    { apply existsb_exists. exists e. split; [exact He|].
      apply Z.eqb_eq. exact Hid. }
    rewrite Hex in Hfk. discriminate.
Qed.

Lemma create_then_delete_witness :
  payroll_keyed Sample.after_january /\
  match createPayroll Sample.after_january Later.manual 3000 with
  | Ok (newPayroll, db1) =>
      InsertPayroll.hoursWorked Later.manual = "8"%string /\
      InsertPayroll.hoursWorked (Payroll.values newPayroll)
      = "8.00"%string /\
      InsertPayroll.netPay (Payroll.values newPayroll) = "3204.00"%string /\
      In newPayroll (payroll db1) /\
      payroll (deletePayroll db1 (Payroll.id newPayroll))
      = payroll Sample.after_january
  | Throw _ => False
  end.
Proof.
  assert (Hkeyed : payroll_keyed Sample.after_january).
  { split; [apply distinct_NoDup; vm_compute; reflexivity|].
    vm_compute. repeat constructor. }
  split; [exact Hkeyed|].
  pose proof (create_then_delete_payroll
                Sample.after_january Later.manual 3000 Hkeyed) as H.
  destruct (createPayroll Sample.after_january Later.manual 3000)
    as [[newPayroll db1]|m] eqn:Hcreate.
  - destruct H as [Hv [_ [Hin [Hdel _]]]].
    split; [reflexivity|].
    apply payroll_columns_fields in Hv.
    destruct Hv as [_ [_ [Hh [_ [_ [_ [_ [_ [_ [_ [_ [_ [_ [_ [_ Hnet]]]]]]]]]]]]]]].
    compute_left Hh. compute_left Hnet.
    split; [congruence|]. split; [congruence|].
    split; [exact Hin | exact Hdel].
  - vm_compute in Hcreate. discriminate.
Defined.

(* ================================================================== *)
(** ** Attendance: the listing and the totals *)
(* ================================================================== *)

Lemma total_perm (l l' : list decimal2) :
  Permutation l l' -> total l = total l'.
Proof.
  unfold total. induction 1; simpl; lia.
Qed.

Lemma sql_sum_perm (l l' : list decimal2) :
  Permutation l l' -> sql_sum l = sql_sum l'.
Proof.
  intros H. pose proof (total_perm l l' H) as Ht.
  pose proof (Permutation_length H) as Hl.
  destruct l, l'; try discriminate; [reflexivity|].
  unfold sql_sum. rewrite Ht. reflexivity.
Qed.

(** X10. The monthly totals are the totals of the listing: for a
    non-empty month text, [getAttendance] and [getMonthlyAttendance]
    throw together (when the database does not read the text as a
    date), and otherwise [totalHours] and [overtimeHours] are
    [Number] of the decimal sums of [hoursWorked] and [overtime] over
    exactly the rows [getAttendance] lists (0 when it lists none). *)
Theorem monthly_totals_are_totals_of_the_listing
        (cast_date : string -> option Date) (db : Db) (employeeId : Z)
        (monthText : string) :
  monthText <> ""%string ->
  match getAttendance cast_date db employeeId (Some monthText),
        getMonthlyAttendance cast_date db employeeId monthText with
  | Ok rows, Ok m =>
      totalHours m = Number_or_0 (sql_sum (map Attendance.hoursWorked rows))
      /\
      overtimeHours m = Number_or_0 (sql_sum (map Attendance.overtime rows))
      /\
      forall a, In a rows <->
                In a (attendance db) /\
                Attendance.employeeId a = employeeId /\
                cast_date monthText = Some (date_trunc_month (Attendance.date a))
  | Throw _, Throw _ => cast_date monthText = None
  | _, _ => False
  end.
Proof.
  intros Hm. unfold getAttendance, getMonthlyAttendance, truthy_string.
  destruct (String.eqb_spec monthText ""); [contradiction|]. simpl.
  destruct (cast_date monthText) as [d|]; [|reflexivity].
  cbn [totalHours overtimeHours].
  set (le := fun a b => Date_leb (Attendance.date b) (Attendance.date a)).
  pose proof (order_by_perm _ le (attendance_rows db employeeId d)) as Hp.
  split; [|split].
  - f_equal. apply sql_sum_perm, Permutation_map, Permutation_sym, Hp.
  - f_equal. apply sql_sum_perm, Permutation_map, Permutation_sym, Hp.
  - intros a. rewrite order_by_In. unfold attendance_rows.
    rewrite filter_In, andb_true_iff, Z.eqb_eq. unfold Date_eqb.
    rewrite !andb_true_iff, !Z.eqb_eq.
    destruct d as [y mo dd], (Attendance.date a) as [y' mo' dd'].
    cbn [date_trunc_month year month day].
    split.
    + intros [Hin [Hid [[Hy Hmo] Hdd]]]. subst. auto.
    + intros [Hin [Hid Heq]]. injection Heq as -> -> ->. auto.
Qed.

Lemma monthly_totals_witness :
  Sample.january <> ""%string /\
  match getAttendance date_in Sample.db 1 (Some Sample.january),
        getMonthlyAttendance date_in Sample.db 1 Sample.january with
  | Ok rows, Ok m =>
      totalHours m = Number_or_0 (sql_sum (map Attendance.hoursWorked rows))
      /\
      overtimeHours m = Number_or_0 (sql_sum (map Attendance.overtime rows))
      /\
      forall a, In a rows <->
                In a (attendance Sample.db) /\
                Attendance.employeeId a = 1 /\
                date_in Sample.january
                = Some (date_trunc_month (Attendance.date a))
  | Throw _, Throw _ => date_in Sample.january = None
  | _, _ => False
  end.
Proof.
  assert (Hne : Sample.january <> ""%string) by discriminate.
  split; [exact Hne|].
  exact (monthly_totals_are_totals_of_the_listing
           date_in Sample.db 1 Sample.january Hne).
Defined.

Lemma total_without (A : Type) (key : A -> Z) (h : A -> decimal2)
      (P : A -> bool) (l : list A) (a : A) :
  NoDup (map key l) -> In a l ->
  total (map h (filter P (filter (fun x => negb (key x =? key a)) l)))
  = total (map h (filter P l)) - (if P a then h a else 0).
Proof.
  unfold total. induction l as [|x l IH]; simpl; intros Hkey Hin;
    [contradiction|].
  inversion Hkey as [|? ? Hx Hkey']; subst.
  destruct Hin as [->|Hin].
  - rewrite Z.eqb_refl. simpl.
    rewrite (filter_ext_in (fun x => negb (key x =? key a)) (fun _ => true)).
    + assert (Hall : filter (fun _ : A => true) l = l)
        by (clear; induction l; simpl; congruence).
      rewrite Hall. destruct (P a); simpl; lia.
    + intros y Hy. apply negb_true_iff, Z.eqb_neq. intros Heq.
      apply Hx. rewrite <- Heq. apply in_map. exact Hy.
  - destruct (Z.eqb_spec (key x) (key a)) as [Heq|Hne].
    + exfalso. apply Hx. rewrite Heq. apply in_map. exact Hin.
    + simpl. specialize (IH Hkey' Hin).
      destruct (P x); simpl; lia.
Qed.

(** X11. [deleteAttendance] is a hard delete that the totals see: with
    [id] a key of the attendance rows, deleting a row lowers the
    decimal totals of its employee and month by that row's hours and
    overtime, and leaves every other employee's and month's totals as
    they were. *)
Theorem deleteAttendance_lowers_the_totals
        (db : Db) (a : Attendance.t) (employeeId : Z) (d : Date) :
  NoDup (map Attendance.id (attendance db)) ->
  In a (attendance db) ->
  let db' := deleteAttendance db (Attendance.id a) in
  let mine := (Attendance.employeeId a =? employeeId)
              && Date_eqb (date_trunc_month (Attendance.date a)) d in
  ~ In a (attendance db') /\
  total (map Attendance.hoursWorked (attendance_rows db' employeeId d))
  = total (map Attendance.hoursWorked (attendance_rows db employeeId d))
    - (if mine then Attendance.hoursWorked a else 0) /\
  total (map Attendance.overtime (attendance_rows db' employeeId d))
  = total (map Attendance.overtime (attendance_rows db employeeId d))
    - (if mine then Attendance.overtime a else 0).
Proof.
  intros Hkey Hin. cbv zeta. unfold attendance_rows, deleteAttendance.
  cbn [attendance]. split; [|split].
  - intros H. apply filter_In in H. destruct H as [_ H].
    rewrite Z.eqb_refl in H. discriminate.
  - apply (total_without _ Attendance.id Attendance.hoursWorked
             (fun x => (Attendance.employeeId x =? employeeId)
                       && Date_eqb (date_trunc_month (Attendance.date x)) d)
             _ a Hkey Hin).
  - apply (total_without _ Attendance.id Attendance.overtime
             (fun x => (Attendance.employeeId x =? employeeId)
                       && Date_eqb (date_trunc_month (Attendance.date x)) d)
             _ a Hkey Hin).
Qed.

Lemma deleteAttendance_witness :
  NoDup (map Attendance.id (attendance Sample.db)) /\
  In Sample.ana_february (attendance Sample.db) /\
  let db' := deleteAttendance Sample.db (Attendance.id Sample.ana_february) in
  ~ In Sample.ana_february (attendance db') /\
  total (map Attendance.hoursWorked
             (attendance_rows db' 1 (mkDate 2024 2 1))) = 0 /\
  total (map Attendance.hoursWorked
             (attendance_rows Sample.db 1 (mkDate 2024 2 1))) = 800 /\
  total (map Attendance.hoursWorked
             (attendance_rows db' 1 (mkDate 2024 1 1)))
  = total (map Attendance.hoursWorked
               (attendance_rows Sample.db 1 (mkDate 2024 1 1))).
Proof.
  assert (Hkey : NoDup (map Attendance.id (attendance Sample.db))).
  { apply distinct_NoDup. vm_compute. reflexivity. }
  assert (Hin : In Sample.ana_february (attendance Sample.db)).
  { unfold Sample.db. cbn [attendance]. apply in_or_app. right.
    left. reflexivity. }
  split; [exact Hkey|]. split; [exact Hin|].
  destruct (deleteAttendance_lowers_the_totals
              Sample.db Sample.ana_february 1 (mkDate 2024 2 1) Hkey Hin)
    as [Hgone [Hhours _]].
  destruct (deleteAttendance_lowers_the_totals
              Sample.db Sample.ana_february 1 (mkDate 2024 1 1) Hkey Hin)
    as [_ [Hjan _]].
  cbv zeta. split; [exact Hgone|].
  split; [rewrite Hhours; vm_compute; reflexivity|].
  split; [vm_compute; reflexivity|].
  rewrite Hjan. vm_compute. reflexivity.
Defined.

(* ================================================================== *)
(** ** Which benefit and attendance rows a run reads *)
(* ================================================================== *)

(** X12. What [getBenefits] returns: a benefit row is listed exactly
    when it passes the filter of each truthy argument -- the employee
    id when it is given and not 0, the period when it is given and not
    empty.  An id of 0 or an empty period filters nothing. *)
Theorem getBenefits_filters_by_truthy_arguments
        (db : Db) (employeeId : option Z) (payPeriod : option string)
        (b : Benefit.t) :
  In b (getBenefits db employeeId payPeriod) <->
  In b (benefits db) /\
  (truthy_id employeeId = true -> employeeId = Some (Benefit.employeeId b)) /\
  (truthy_string payPeriod = true -> payPeriod = Some (Benefit.appliesTo b)).
Proof.
  unfold getBenefits. cbv zeta.
  destruct (truthy_id employeeId) eqn:Hi;
    destruct (truthy_string payPeriod) eqn:Hp; cbn [andb];
    rewrite order_by_In; try rewrite filter_In.
  - destruct employeeId as [i|]; [|discriminate].
    destruct payPeriod as [p|]; [|discriminate].
    rewrite andb_true_iff, Z.eqb_eq, String.eqb_eq. split.
    + intros [Hin [-> ->]]. auto.
    + intros [Hin [H1 H2]]. specialize (H1 eq_refl). specialize (H2 eq_refl).
      injection H1 as ->. injection H2 as ->. auto.
  - destruct employeeId as [i|]; [|discriminate].
    rewrite Z.eqb_eq. split.
    + intros [Hin ->]. split; [exact Hin|]. split; [reflexivity|discriminate].
    + intros [Hin [H1 _]]. specialize (H1 eq_refl). injection H1 as ->. auto.
  - destruct payPeriod as [p|]; [|discriminate].
    rewrite String.eqb_eq. split.
    + intros [Hin ->]. split; [exact Hin|]. split; [discriminate|reflexivity].
    + intros [Hin [_ H2]]. specialize (H2 eq_refl). injection H2 as ->. auto.
  - split.
    + intros Hin. split; [exact Hin|]. split; discriminate.
    + intros [Hin _]. exact Hin.
Qed.

Lemma filter_and (A : Type) (f g : A -> bool) (l : list A) :
  filter (fun x => f x && g x) l = filter f (filter g l).
Proof.
  rewrite filter_filter. apply filter_ext. intros x. apply andb_comm.
Qed.

(** X13. A run for a period reads nothing of other periods: if two
    databases have the same employees, the same attendance rows in the
    month the (non-empty) period is read as, and the same benefit rows
    applying to the period, then generation throws on both or returns
    records with the same values on both, whatever else their
    attendance and benefit tables hold. *)
Theorem run_reads_only_its_period
        (cast_date : string -> option Date) (db1 db2 : Db) (p : string)
        (d : Date) (now1 now2 : timestamp) :
  p <> ""%string ->
  cast_date p = Some d ->
  employees db1 = employees db2 ->
  filter (fun a => Date_eqb (date_trunc_month (Attendance.date a)) d)
         (attendance db1)
  = filter (fun a => Date_eqb (date_trunc_month (Attendance.date a)) d)
           (attendance db2) ->
  filter (fun b => String.eqb (Benefit.appliesTo b) p) (benefits db1)
  = filter (fun b => String.eqb (Benefit.appliesTo b) p) (benefits db2) ->
  match generatePayrollForPeriod cast_date db1 p now1,
        generatePayrollForPeriod cast_date db2 p now2 with
  | Ok (rows1, _), Ok (rows2, _) =>
      map Payroll.values rows1 = map Payroll.values rows2
  | Throw _, Throw _ => True
  | _, _ => False
  end.
Proof.
  intros Hp Hd He Ha Hb.
  assert (Hemp : getEmployees db1 = getEmployees db2)
    by (unfold getEmployees; rewrite He; reflexivity).
  assert (Hrows : forall i, attendance_rows db1 i d = attendance_rows db2 i d).
  { intros i. unfold attendance_rows.
    rewrite !(filter_and _ (fun a => Attendance.employeeId a =? i)), Ha.
    reflexivity. }
  assert (Hben : forall i, getBenefits db1 (Some i) (Some p)
                           = getBenefits db2 (Some i) (Some p)).
  { intros i. unfold getBenefits. cbv zeta. cbn [truthy_string].
    destruct (String.eqb_spec p ""); [contradiction|]. cbn [negb].
    destruct (truthy_id (Some i)); cbn [andb].
    - rewrite !(filter_and _ (fun b => Benefit.employeeId b =? i)), Hb.
      reflexivity.
    - rewrite Hb. reflexivity. }
  assert (Hval : forall e, employee_values db1 p d e
                           = employee_values db2 p d e).
  { intros e. unfold employee_values, employee_amounts, employee_attendance,
      employee_benefits. rewrite Hrows, Hben. reflexivity. }
  assert (Hcase : getEmployees db1 = [] \/ getEmployees db1 <> [])
    by (destruct (getEmployees db1); [left | right]; congruence).
  destruct Hcase as [Hnil|Hne1].
  - unfold generatePayrollForPeriod. rewrite <- Hemp, Hnil. simpl. exact I.
  - assert (Hne2 : getEmployees db2 <> []) by (rewrite <- Hemp; exact Hne1).
    rewrite (generate_insert cast_date db1 p d now1 Hd Hne1).
    rewrite (generate_insert cast_date db2 p d now2 Hd Hne2).
    assert (Hh : handed_values db1 p d = handed_values db2 p d).
    { unfold handed_values. rewrite Hemp. apply map_ext. exact Hval. }
    rewrite Hh, (payroll_rows_in_ext db1 db2) by (rewrite He; reflexivity).
    destruct (payroll_rows_in db2 (handed_values db2 p d)) as [stored|m];
      cbn [bind]; [|exact I].
    rewrite !new_rows_values. reflexivity.
Qed.

Lemma run_reads_only_its_period_witness :
  Sample.january <> ""%string /\
  date_in Sample.january = Some (mkDate 2024 1 1) /\
  employees Sample.db = employees Later.other_periods /\
  attendance Sample.db <> attendance Later.other_periods /\
  benefits Sample.db <> benefits Later.other_periods /\
  match generatePayrollForPeriod date_in Sample.db Sample.january 1000,
        generatePayrollForPeriod date_in Later.other_periods
                                 Sample.january 2000 with
  | Ok (rows1, _), Ok (rows2, _) =>
      map Payroll.values rows1 = map Payroll.values rows2
  | Throw _, Throw _ => True
  | _, _ => False
  end.
Proof.
  assert (Hne : Sample.january <> ""%string) by discriminate.
  split; [exact Hne|]. split; [reflexivity|]. split; [reflexivity|].
  split.
  { intros H. apply (f_equal (@List.length Attendance.t)) in H.
    vm_compute in H. discriminate. }
  split.
  { intros H. apply (f_equal (@List.length Benefit.t)) in H.
    vm_compute in H. discriminate. }
  assert (Hatt :
            filter (fun a => Date_eqb (date_trunc_month (Attendance.date a))
                                      (mkDate 2024 1 1))
                   (attendance Sample.db)
            = filter (fun a => Date_eqb (date_trunc_month (Attendance.date a))
                                        (mkDate 2024 1 1))
                     (attendance Later.other_periods)).
  { vm_compute. reflexivity. }
  assert (Hben :
            filter (fun b => String.eqb (Benefit.appliesTo b) Sample.january)
                   (benefits Sample.db)
            = filter (fun b => String.eqb (Benefit.appliesTo b) Sample.january)
                     (benefits Later.other_periods)).
  { vm_compute. reflexivity. }
  exact (run_reads_only_its_period
           date_in Sample.db Later.other_periods Sample.january
           (mkDate 2024 1 1) 1000 2000 Hne eq_refl eq_refl Hatt Hben).
Defined.

(* ================================================================== *)
(** ** Failures of a run *)
(* ================================================================== *)

(** X15. When a run fails: generation throws exactly when no employee
    is active, or the database does not read the period as a date, or
    a column of the payroll table refuses the record of some active
    employee (the period text is too long, an amount does not fit);
    in every other case it returns at least one row and appends exactly
    the rows it returns. *)
Theorem generation_throws_exactly_when
        (cast_date : string -> option Date) (db : Db) (p : string)
        (now : timestamp) :
  match generatePayrollForPeriod cast_date db p now with
  | Throw _ =>
      (forall e, In e (employees db) -> Employee.isActive e = false) \/
      cast_date p = None \/
      exists d e m,
        cast_date p = Some d /\
        In e (employees db) /\ Employee.isActive e = true /\
        payroll_columns (employee_values db p d e) = Throw m
  | Ok (rows, db') =>
      (exists e, In e (employees db) /\ Employee.isActive e = true) /\
      (exists d,
          cast_date p = Some d /\
          forall e, In e (employees db) -> Employee.isActive e = true ->
                    exists s,
                      payroll_columns (employee_values db p d e) = Ok s) /\
      rows <> [] /\
      payroll db' = payroll db ++ rows
  end.
Proof.
  destruct (generatePayrollForPeriod cast_date db p now)
    as [[rows db']|m] eqn:Hgen.
  - destruct (generate_returns cast_date db p now rows db' Hgen)
      as [d [stored [Hd [Hne [Hst [Hrows ->]]]]]].
    cbn [payroll].
    split; [|split; [|split; [|reflexivity]]].
    + destruct (getEmployees db) as [|e es] eqn:He; [contradiction|].
      exists e. apply getEmployees_In. rewrite He. left. reflexivity.
    + exists d. split; [exact Hd|]. apply handed_values_accepted. eauto.
    + intros Hnil. rewrite Hnil in Hrows.
      apply (f_equal (@List.length Payroll.t)) in Hrows.
      rewrite new_rows_length, (payroll_rows_in_length db _ _ Hst) in Hrows.
      unfold handed_values in Hrows. rewrite length_map in Hrows.
      destruct (getEmployees db); [contradiction | discriminate].
  - destruct (proj1 (generate_throws cast_date db p now)
                (ex_intro _ m Hgen)) as [Hnil|[Hd|[d [m' [Hd Hst]]]]].
    + left. intros e Hin.
      destruct (Employee.isActive e) eqn:Hact; [|reflexivity].
      assert (H : In e (getEmployees db)) by (apply getEmployees_In; auto).
      rewrite Hnil in H. contradiction.
    + right. left. exact Hd.
    + right. right.
      destruct (proj1 (handed_values_refused db p d) (ex_intro _ m' Hst))
        as [e [m'' H]].
      exists d, e, m''. tauto.
Qed.

(* ================================================================== *)
(** ** The CSV export *)
(* ================================================================== *)









Lemma after_calls_rows (pings : list Ping.t) (calls : list PingCall) :
  after_calls pings calls = map (row_after calls) pings.
Proof.
  revert pings. induction calls as [|c calls IH]; intros pings.
  - simpl. symmetry. apply map_id.
  - unfold after_calls in *. cbn [fold_left]. rewrite IH.
    unfold updatePingStatus. cbn [snd]. rewrite map_map. reflexivity.
Qed.

Lemma row_after_history (calls : list PingCall) (r : Ping.t) :
  let r' := row_after calls r in
  Ping.id r' = Ping.id r /\
  Ping.employeeId r' = Ping.employeeId r /\
  Ping.requirement r' = Ping.requirement r /\
  Ping.message r' = Ping.message r /\
  Ping.pingedBy r' = Ping.pingedBy r /\
  Ping.createdAt r' = Ping.createdAt r /\
  (Ping.readAt r' = None <->
   Ping.readAt r = None /\
   forall c, In c calls -> call_id c = Ping.id r ->
             call_status c <> "read"%string) /\
  (Ping.acknowledgedAt r' = None <->
   Ping.acknowledgedAt r = None /\
   forall c, In c calls -> call_id c = Ping.id r ->
             call_status c <> "acknowledged"%string).
Proof.
  revert r. induction calls as [|c calls IH]; intros r; cbv zeta.
  - simpl. repeat split; try tauto; intros; tauto.
  - simpl row_after.
    destruct (Z.eqb_spec (Ping.id r) (call_id c)) as [Hid|Hid].
    + specialize (IH (ping_update (call_status c) (call_now c)
                                  (call_now' c) r)).
      cbv zeta in IH. cbn [ping_update Ping.id Ping.employeeId
        Ping.requirement Ping.message Ping.pingedBy Ping.createdAt
        Ping.readAt Ping.acknowledgedAt] in IH.
      destruct IH as (H1 & H2 & H3 & H4 & H5 & H6 & H7 & H8).
      repeat (split; [assumption|]). split.
      * rewrite H7. destruct (String.eqb_spec (call_status c) "read") as [Hs|Hs].
        -- split; [intros [H _]; discriminate|].
           intros [_ H]. exfalso. apply (H c); auto. left; reflexivity.
        -- split.
           ++ intros [Hr Hc]. split; [exact Hr|].
              intros c' [<-|Hin] Hc'; [exact Hs | apply Hc; assumption].
           ++ intros [Hr Hc]. split; [exact Hr|].
              intros c' Hin. apply Hc. right. exact Hin.
      * rewrite H8.
        destruct (String.eqb_spec (call_status c) "read") as [Hs|Hs].
        -- split.
           ++ intros [Hr Hc]. split; [exact Hr|].
              intros c' [<-|Hin] Hc'; [rewrite Hs; discriminate
                                      | apply Hc; assumption].
           ++ intros [Hr Hc]. split; [exact Hr|].
              intros c' Hin. apply Hc. right. exact Hin.
        -- destruct (String.eqb_spec (call_status c) "acknowledged")
             as [Ha|Ha].
           ++ split; [intros [H _]; discriminate|].
              intros [_ H]. exfalso. apply (H c); auto. left; reflexivity.
           ++ split.
              ** intros [Hr Hc]. split; [exact Hr|].
                 intros c' [<-|Hin] Hc'; [exact Ha | apply Hc; assumption].
              ** intros [Hr Hc]. split; [exact Hr|].
                 intros c' Hin. apply Hc. right. exact Hin.
    + specialize (IH r). cbv zeta in IH.
      destruct IH as (H1 & H2 & H3 & H4 & H5 & H6 & H7 & H8).
      repeat (split; [assumption|]). split.
      * rewrite H7. split.
        -- intros [Hr Hc]. split; [exact Hr|].
           intros c' [<-|Hin] Hc'; [congruence | apply Hc; assumption].
        -- intros [Hr Hc]. split; [exact Hr|].
           intros c' Hin. apply Hc. right. exact Hin.
      * rewrite H8. split.
        -- intros [Hr Hc]. split; [exact Hr|].
           intros c' [<-|Hin] Hc'; [congruence | apply Hc; assumption].
        -- intros [Hr Hc]. split; [exact Hr|].
           intros c' Hin. apply Hc. right. exact Hin.
Qed.

(** X17. Over any series of [updatePingStatus] calls the table keeps its
    rows and their contents; a ping has no read time at the end
    exactly when it had none at the start and no call for its id had
    the status read, and likewise for the acknowledged time: statuses
    other than these two set neither, acknowledging does not mark as
    read, and no call clears a time once set. *)
Theorem ping_times_record_the_history
        (pings : list Ping.t) (calls : list PingCall) :
  Forall2
    (fun r r' =>
       Ping.id r' = Ping.id r /\
       Ping.employeeId r' = Ping.employeeId r /\
       Ping.requirement r' = Ping.requirement r /\
       Ping.message r' = Ping.message r /\
       Ping.pingedBy r' = Ping.pingedBy r /\
       Ping.createdAt r' = Ping.createdAt r /\
       (Ping.readAt r' = None <->
        Ping.readAt r = None /\
        forall c, In c calls -> call_id c = Ping.id r ->
                  call_status c <> "read"%string) /\
       (Ping.acknowledgedAt r' = None <->
        Ping.acknowledgedAt r = None /\
        forall c, In c calls -> call_id c = Ping.id r ->
                  call_status c <> "acknowledged"%string))
    pings (after_calls pings calls).
Proof.
  rewrite after_calls_rows.
  induction pings as [|r pings IH]; simpl; constructor; [|exact IH].
  apply (row_after_history calls r).
Qed.
